(** * Referral-commission and payout ledger of the course portal backend

    A shallow embedding of the payments controller, the admin controller
    and the referral controller, together with the Mongoose models they
    read and write.

    Modelling conventions.
    - A MongoDB collection is a list of documents in storage order;
      [find] keeps that order and [findOne] returns the first match.
    - [ObjectId]s are natural numbers; [new Model(...)] draws the next
      unused id from the store's [nextId] counter.
    - A JavaScript [Number] holding money or a rate is an exact rational
      ([Q]); equality of computed amounts is [Qeq] ([==]).  The rounding
      of the program's double arithmetic is not modelled.
    - [new Date()] is the [now] argument of each handler.
    - Calls to the payment provider are arguments carrying the call's
      outcome ([None] when the call throws).  The receipt renderer and
      the e-mail sender touch no stored state and their failures are
      swallowed by the handlers, so they do not appear.
    - A handler is a function from the store and the request to the new
      store and the HTTP response.
    - A document holds the paths its schema declares; what a handler
      writes to any other path is dropped.  The Payment schema has no
      [transactionId], [refundReason] or [refundedAt].  The repository
      holds three Commission schemas under the one model name; the one
      in force is part of the store ([commissionSchema]).
    - Request bodies are typed, so the route validators that only check
      types do not appear. *)

From Stdlib Require Import List String ZArith QArith Qround Bool Arith Lia Lqa.
Import ListNotations.

Local Open Scope string_scope.
Local Open Scope nat_scope.

Definition ObjectId := nat.
Definition Date := Z.

(** [ids.includes(i)] and the [$in] operator. *)
Definition includes (ids : list ObjectId) (i : ObjectId) : bool :=
  existsb (Nat.eqb i) ids.

(** JavaScript truthiness of a string ([!s] is [negb (truthy s)]). *)
Definition truthy (s : string) : bool :=
  match s with EmptyString => false | _ => true end.

(** ** Collections *)

Section Collection.
Context {A : Type} (id_of : A -> ObjectId).

Definition find (p : A -> bool) (l : list A) : list A := filter p l.

Definition findOne (p : A -> bool) (l : list A) : option A := List.find p l.

Definition findById (i : ObjectId) (l : list A) : option A :=
  findOne (fun d => id_of d =? i) l.

Definition updateMany (p : A -> bool) (f : A -> A) (l : list A) : list A :=
  map (fun d => if p d then f d else d) l.

Fixpoint updateOne (p : A -> bool) (f : A -> A) (l : list A) : list A :=
  match l with
  | [] => []
  | d :: r => if p d then f d :: r else d :: updateOne p f r
  end.

Definition findByIdAndUpdate (i : ObjectId) (f : A -> A) (l : list A) : list A :=
  updateOne (fun d => id_of d =? i) f l.

(** [save] of a freshly constructed document. *)
Definition insert (d : A) (l : list A) : list A := (l ++ [d])%list.

Definition deleteMany (p : A -> bool) (l : list A) : list A :=
  filter (fun d => negb (p d)) l.
End Collection.

(** MongoDB's [limit]: 0 means no limit, a negative limit counts as its
    absolute value. *)
Definition limit {A : Type} (n : Z) (l : list A) : list A :=
  if (n =? 0)%Z then l else firstn (Z.abs_nat n) l.

(** ** Models *)

Module User.
Inductive Role := user | agent | admin.

Definition role_eqb (a b : Role) : bool :=
  match a, b with
  | user, user | agent, agent | admin, admin => true
  | _, _ => false
  end.

Record BankDetails := {
  accountNumber : string;
  bankName : string;
  isVerified : bool
}.

Record Purchase := {
  courseId : ObjectId;
  purchasedAt : Date;
  accessExpires : option Date
}.

Record t := {
  _id : ObjectId;
  role : Role;
  referredBy : option ObjectId;
  isActiveAgent : bool;
  commissionRate : Q;
  bankDetails : option BankDetails;
  coursesEnrolled : list ObjectId;
  coursesPurchased : list Purchase;
  totalReferrals : Q;
  totalCommission : Q;
  referrals : list ObjectId
}.

Definition set_courses (e : list ObjectId) (p : list Purchase) (u : t) : t :=
  {| _id := _id u; role := role u; referredBy := referredBy u;
     isActiveAgent := isActiveAgent u; commissionRate := commissionRate u;
     bankDetails := bankDetails u; coursesEnrolled := e;
     coursesPurchased := p; totalReferrals := totalReferrals u;
     totalCommission := totalCommission u; referrals := referrals u |}.

(** [{ $inc: { totalCommission: dc, totalReferrals: dr } }] *)
Definition inc (dc dr : Q) (u : t) : t :=
  {| _id := _id u; role := role u; referredBy := referredBy u;
     isActiveAgent := isActiveAgent u; commissionRate := commissionRate u;
     bankDetails := bankDetails u; coursesEnrolled := coursesEnrolled u;
     coursesPurchased := coursesPurchased u;
     totalReferrals := (totalReferrals u + dr)%Q;
     totalCommission := (totalCommission u + dc)%Q;
     referrals := referrals u |}.

(** [{ $addToSet: { referrals: r } }] *)
Definition addToSet_referrals (r : ObjectId) (u : t) : t :=
  {| _id := _id u; role := role u; referredBy := referredBy u;
     isActiveAgent := isActiveAgent u; commissionRate := commissionRate u;
     bankDetails := bankDetails u; coursesEnrolled := coursesEnrolled u;
     coursesPurchased := coursesPurchased u;
     totalReferrals := totalReferrals u;
     totalCommission := totalCommission u;
     referrals := if includes (referrals u) r then referrals u
                  else (referrals u ++ [r])%list |}.

Definition approve (u : t) : t :=
  {| _id := _id u; role := role u; referredBy := referredBy u;
     isActiveAgent := true; commissionRate := commissionRate u;
     bankDetails := bankDetails u; coursesEnrolled := coursesEnrolled u;
     coursesPurchased := coursesPurchased u;
     totalReferrals := totalReferrals u;
     totalCommission := totalCommission u; referrals := referrals u |}.

(** [!agent.bankDetails || !agent.bankDetails.accountNumber ||
    !agent.bankDetails.bankName] *)
Definition lacksBankDetails (u : t) : bool :=
  match bankDetails u with
  | None => true
  | Some b => negb (truthy (accountNumber b)) || negb (truthy (bankName b))
  end.

Definition bankVerified (u : t) : bool :=
  match bankDetails u with
  | None => false
  | Some b => isVerified b
  end.
End User.

Module Course.
Record t := { _id : ObjectId; price : Q }.
End Course.

Module Commission.
Inductive Status := pending | paid | cancelled.
Inductive Kind := commission | payout.

Definition status_eqb (a b : Status) : bool :=
  match a, b with
  | pending, pending | paid, paid | cancelled, cancelled => true
  | _, _ => false
  end.

Record t := {
  _id : ObjectId;
  agent : ObjectId;
  referral : option ObjectId;
  payment : option ObjectId;
  amount : Q;
  status : Status;
  paidAt : option Date;
  commissionRate : Q;
  originalAmount : option Q;
  payoutMethod : string;
  payoutReference : option string;
  payoutNotes : option string;
  adminNotes : option string;
  type : Kind;
  payoutId : option ObjectId;
  processedBy : option ObjectId;
  processedAt : option Date
}.

(** An update document: the fields it names are overwritten, the others
    are kept. *)
Record Update := {
  u_status : option Status;
  u_paidAt : option Date;
  u_payoutMethod : option string;
  u_payoutReference : option string;
  u_payoutNotes : option string;
  u_adminNotes : option string;
  u_payoutId : option ObjectId;
  u_processedBy : option ObjectId;
  u_processedAt : option Date
}.

Definition over {A : Type} (new : option A) (old : A) : A :=
  match new with Some v => v | None => old end.

Definition over_opt {A : Type} (new old : option A) : option A :=
  match new with Some v => Some v | None => old end.

Definition apply (u : Update) (c : t) : t :=
  {| _id := _id c; agent := agent c; referral := referral c;
     payment := payment c; amount := amount c;
     status := over (u_status u) (status c);
     paidAt := over_opt (u_paidAt u) (paidAt c);
     commissionRate := commissionRate c;
     originalAmount := originalAmount c;
     payoutMethod := over (u_payoutMethod u) (payoutMethod c);
     payoutReference := over_opt (u_payoutReference u) (payoutReference c);
     payoutNotes := over_opt (u_payoutNotes u) (payoutNotes c);
     adminNotes := over_opt (u_adminNotes u) (adminNotes c);
     type := type c;
     payoutId := over_opt (u_payoutId u) (payoutId c);
     processedBy := over_opt (u_processedBy u) (processedBy c);
     processedAt := over_opt (u_processedAt u) (processedAt c) |}.

(** The three Commission schemas of the repository, in the order of the
    model file.  All declare [agent], [referral], [payment], [amount],
    [status], [paidAt], [commissionRate] and [originalAmount].
    - [tracking] adds [payoutMethod], [payoutReference], [payoutNotes],
      [processedBy] and [processedAt];
    - [withType] adds those and [adminNotes] and [type], and is the only
      one in which [referral], [payment] and [originalAmount] are not
      required;
    - [withPayoutId] adds [payoutId] and [adminNotes].
    The record [t] has the paths of all three: under a schema, a path it
    does not declare is never written and keeps the value the document
    was built with. *)
Inductive Schema := tracking | withType | withPayoutId.

Definition declaresTracking (s : Schema) : bool :=
  match s with withPayoutId => false | _ => true end.

Definition declaresAdminNotes (s : Schema) : bool :=
  match s with tracking => false | _ => true end.

Definition declaresPayoutId (s : Schema) : bool :=
  match s with withPayoutId => true | _ => false end.

(** Whether a new document without [referral], [payment] and
    [originalAmount] passes the validation of [save]. *)
Definition savesPayoutRecord (s : Schema) : bool :=
  match s with withType => true | _ => false end.

Definition only {A : Type} (declared : bool) (new : option A) : option A :=
  if declared then new else None.

(** The part of an update document that a schema lets through. *)
Definition persisted (s : Schema) (u : Update) : Update :=
  {| u_status := u_status u;
     u_paidAt := u_paidAt u;
     u_payoutMethod := only (declaresTracking s) (u_payoutMethod u);
     u_payoutReference := only (declaresTracking s) (u_payoutReference u);
     u_payoutNotes := only (declaresTracking s) (u_payoutNotes u);
     u_adminNotes := only (declaresAdminNotes s) (u_adminNotes u);
     u_payoutId := only (declaresPayoutId s) (u_payoutId u);
     u_processedBy := only (declaresTracking s) (u_processedBy u);
     u_processedAt := only (declaresTracking s) (u_processedAt u) |}.

Definition isPending (c : t) : bool := status_eqb (status c) pending.

(** Terminal states of the spec's state machine. *)
Definition terminal (s : Status) : bool :=
  match s with pending => false | _ => true end.
End Commission.

Module Payment.
Inductive Status := pending | completed | failed | refunded.

Definition status_eqb (a b : Status) : bool :=
  match a, b with
  | pending, pending | completed, completed
  | failed, failed | refunded, refunded => true
  | _, _ => false
  end.

Record t := {
  _id : ObjectId;
  user : ObjectId;
  course : ObjectId;
  amount : Q;
  paymentMethod : string;
  status : Status;
  referralAgent : option ObjectId;
  commissionAmount : option Q;
  commissionStatus : Commission.Status
}.

Definition set_commissionStatus (s : Commission.Status) (p : t) : t :=
  {| _id := _id p; user := user p; course := course p; amount := amount p;
     paymentMethod := paymentMethod p;
     status := status p; referralAgent := referralAgent p;
     commissionAmount := commissionAmount p; commissionStatus := s |}.

Definition set_commissionInfo (a : Q) (r : option ObjectId) (p : t) : t :=
  {| _id := _id p; user := user p; course := course p; amount := amount p;
     paymentMethod := paymentMethod p;
     status := status p; referralAgent := r;
     commissionAmount := Some a; commissionStatus := commissionStatus p |}.

(** What a stored payment holds at the path [transactionId]: nothing,
    the schema not declaring the path. *)
Definition transactionId (p : t) : option string := None.

(** [payment.status = 'refunded'; payment.refundReason = reason;
    payment.refundedAt = new Date(); payment.save()]: the schema has
    neither [refundReason] nor [refundedAt], and the status alone is
    stored. *)
Definition set_refunded (reason : string) (now : Date) (p : t) : t :=
  {| _id := _id p; user := user p; course := course p; amount := amount p;
     paymentMethod := paymentMethod p;
     status := refunded; referralAgent := referralAgent p;
     commissionAmount := commissionAmount p;
     commissionStatus := commissionStatus p |}.
End Payment.

Module Payout.
Inductive Status := pending | completed | failed.

Record t := {
  _id : ObjectId;
  agent : ObjectId;
  amount : Q;
  status : Status;
  paymentMethod : string;
  notes : option string;
  adminNotes : option string;
  processedBy : option ObjectId;
  processedAt : option Date;
  completedAt : option Date;
  commissionIds : list ObjectId;
  totalCommissionsPaid : Q
}.

(** The schema's enum for [paymentMethod], checked when a Payout is
    saved. *)
Definition paymentMethods : list string :=
  ["bank_transfer"; "stripe_payout"; "manual"; "paypal"].
End Payout.

Module PayoutRequest.
Inductive Status := pending | approved | rejected | completed.

Definition status_eqb (a b : Status) : bool :=
  match a, b with
  | pending, pending | approved, approved
  | rejected, rejected | completed, completed => true
  | _, _ => false
  end.

Record t := {
  _id : ObjectId;
  agent : ObjectId;
  amount : Q;
  status : Status;
  processedDate : option Date;
  processedBy : option ObjectId;
  paymentMethod : string;
  notes : option string;
  adminNotes : option string;
  rejectionReason : option string;
  commissionIds : list ObjectId;
  payoutReference : option string;
  bankDetails : option User.BankDetails
}.

Definition process (s : Status) (by_ : option ObjectId) (now : Date)
    (an pr rr : option string) (r : t) : t :=
  {| _id := _id r; agent := agent r; amount := amount r; status := s;
     processedDate := Some now; processedBy := by_;
     paymentMethod := paymentMethod r; notes := notes r;
     adminNotes := an; rejectionReason := rr;
     commissionIds := commissionIds r; payoutReference := pr;
     bankDetails := bankDetails r |}.
End PayoutRequest.

(** ** The store *)

Record DB := {
  users : list User.t;
  courses : list Course.t;
  payments : list Payment.t;
  commissions : list Commission.t;
  payouts : list Payout.t;
  payoutRequests : list PayoutRequest.t;
  nextId : ObjectId;
  commissionSchema : Commission.Schema
}.

Definition with_users (f : list User.t -> list User.t) (db : DB) : DB :=
  {| users := f (users db); courses := courses db; payments := payments db;
     commissions := commissions db; payouts := payouts db;
     payoutRequests := payoutRequests db; nextId := nextId db;
     commissionSchema := commissionSchema db |}.

Definition with_courses (f : list Course.t -> list Course.t) (db : DB) : DB :=
  {| users := users db; courses := f (courses db); payments := payments db;
     commissions := commissions db; payouts := payouts db;
     payoutRequests := payoutRequests db; nextId := nextId db;
     commissionSchema := commissionSchema db |}.

Definition with_payments (f : list Payment.t -> list Payment.t) (db : DB) : DB :=
  {| users := users db; courses := courses db; payments := f (payments db);
     commissions := commissions db; payouts := payouts db;
     payoutRequests := payoutRequests db; nextId := nextId db;
     commissionSchema := commissionSchema db |}.

Definition with_commissions (f : list Commission.t -> list Commission.t)
    (db : DB) : DB :=
  {| users := users db; courses := courses db; payments := payments db;
     commissions := f (commissions db); payouts := payouts db;
     payoutRequests := payoutRequests db; nextId := nextId db;
     commissionSchema := commissionSchema db |}.

Definition with_payouts (f : list Payout.t -> list Payout.t) (db : DB) : DB :=
  {| users := users db; courses := courses db; payments := payments db;
     commissions := commissions db; payouts := f (payouts db);
     payoutRequests := payoutRequests db; nextId := nextId db;
     commissionSchema := commissionSchema db |}.

Definition with_payoutRequests
    (f : list PayoutRequest.t -> list PayoutRequest.t) (db : DB) : DB :=
  {| users := users db; courses := courses db; payments := payments db;
     commissions := commissions db; payouts := payouts db;
     payoutRequests := f (payoutRequests db); nextId := nextId db;
     commissionSchema := commissionSchema db |}.

Definition with_commissionSchema (s : Commission.Schema) (db : DB) : DB :=
  {| users := users db; courses := courses db; payments := payments db;
     commissions := commissions db; payouts := payouts db;
     payoutRequests := payoutRequests db; nextId := nextId db;
     commissionSchema := s |}.

(** [new Model(...)]: the document's [_id] is the store's next unused id. *)
Definition fresh (db : DB) : ObjectId * DB :=
  (nextId db,
   {| users := users db; courses := courses db; payments := payments db;
      commissions := commissions db; payouts := payouts db;
      payoutRequests := payoutRequests db; nextId := S (nextId db);
      commissionSchema := commissionSchema db |}).

(** A write of the update document [u] to a commission of the store:
    the paths that the schema in force declares are written. *)
Definition writes (db : DB) (u : Commission.Update)
    : Commission.t -> Commission.t :=
  Commission.apply (Commission.persisted (commissionSchema db) u).

(** ** Responses *)

Inductive Payload :=
| NoData
| Received
| BulkPayoutData (totalCommissions : nat) (totalAmount : Q) (method : string)
| PayoutData (id : ObjectId) (amount : Q) (paymentMethod : string)
| RequestPayoutData (amount : Q) (method : string) (processedCommissions : nat)
| RefundData (refundId : string)
| CommissionData (c : Commission.t)
| PayoutRequestData (r : PayoutRequest.t)
| ConfirmData (enrolled : list ObjectId)
| BulkActionData (action : string).

Record Response := {
  statusCode : nat;
  message : string;
  data : Payload
}.

(** [res.status(code).json(createErrorResponse(msg, ...))] *)
Definition createErrorResponse (code : nat) (msg : string) : Response :=
  {| statusCode := code; message := msg; data := NoData |}.

(** [res.json(createSuccessResponse(data, msg))] *)
Definition createSuccessResponse (d : Payload) (msg : string) : Response :=
  {| statusCode := 200; message := msg; data := d |}.

(** [list.reduce((sum, c) => sum + c.amount, 0)] *)
Definition sumAmounts (l : list Commission.t) : Q :=
  fold_left (fun sum c => (sum + Commission.amount c)%Q) l 0%Q.

(** ** Requests *)

(** A request parameter that should hold an ObjectId: absent, present but
    not a well-formed id, or a well-formed id. *)
Inductive IdParam :=
| IdMissing
| IdMalformed
| IdValid (i : ObjectId).

(** The authenticated principal [req.user], the decoded token payload.
    Tokens issued by the login and registration handlers carry [userId]
    and [role] only, so [_id] is [None] for them. *)
Module Auth.
Record Principal := {
  userId : ObjectId;
  role : User.Role;
  _id : option ObjectId
}.
End Auth.

Definition truthy_opt (s : option string) : bool :=
  match s with Some v => truthy v | None => false end.

Definition keep_truthy (s : option string) : option string :=
  if truthy_opt s then s else None.

Definition serverError : Response := createErrorResponse 500 "Server error".

(** The answer of a handler whose [validationResult(req)] is not empty. *)
Definition validationFailed : Response :=
  createErrorResponse 400 "Validation failed".

(** The validator [isIn(allowed)]. *)
Definition isIn (allowed : list string) (s : string) : bool :=
  existsb (String.eqb s) allowed.

(** The validator [optional().isIn(allowed)]. *)
Definition optionalIsIn (allowed : list string) (s : option string) : bool :=
  match s with Some v => isIn allowed v | None => true end.

Definition adminPayoutMethods : list string :=
  ["bank_transfer"; "stripe_payout"; "manual"].

Definition agentPayoutMethods : list string :=
  ["bank_transfer"; "stripe_payout"].

Definition bulkActions : list string :=
  ["delete-users"; "approve-agents"; "update-commission-status";
   "delete-courses"].

(** ** Admin controller *)

(** The update document built by [updateCommissionStatus] and by the
    [update-commission-status] bulk action. *)
Definition statusUpdate (st : option Commission.Status) (by_ : ObjectId)
    (now : Date) : Commission.Update :=
  match st with
  | Some Commission.paid =>
      {| Commission.u_status := st; Commission.u_paidAt := Some now;
         Commission.u_payoutMethod := None;
         Commission.u_payoutReference := None;
         Commission.u_payoutNotes := None; Commission.u_adminNotes := None;
         Commission.u_payoutId := None;
         Commission.u_processedBy := Some by_;
         Commission.u_processedAt := Some now |}
  | _ =>
      {| Commission.u_status := st; Commission.u_paidAt := None;
         Commission.u_payoutMethod := None;
         Commission.u_payoutReference := None;
         Commission.u_payoutNotes := None; Commission.u_adminNotes := None;
         Commission.u_payoutId := None; Commission.u_processedBy := None;
         Commission.u_processedAt := None |}
  end.

Definition with_method_notes (m n : option string) (u : Commission.Update)
    : Commission.Update :=
  {| Commission.u_status := Commission.u_status u;
     Commission.u_paidAt := Commission.u_paidAt u;
     Commission.u_payoutMethod := m;
     Commission.u_payoutReference := Commission.u_payoutReference u;
     Commission.u_payoutNotes := n;
     Commission.u_adminNotes := Commission.u_adminNotes u;
     Commission.u_payoutId := Commission.u_payoutId u;
     Commission.u_processedBy := Commission.u_processedBy u;
     Commission.u_processedAt := Commission.u_processedAt u |}.

Definition updateCommissionStatus (db : DB) (now : Date) (who : Auth.Principal)
    (id : IdParam) (status : Commission.Status)
    (payoutMethod payoutNotes : option string) : DB * Response :=
  if negb (optionalIsIn adminPayoutMethods payoutMethod) then
    (db, validationFailed)
  else
  match id with
  | IdValid i =>
      let updateData :=
        with_method_notes (keep_truthy payoutMethod) (keep_truthy payoutNotes)
          (statusUpdate (Some status) (Auth.userId who) now) in
      match findById Commission._id i (commissions db) with
      | None => (db, createErrorResponse 404 "Commission not found")
      | Some c =>
          (with_commissions
             (findByIdAndUpdate Commission._id i (writes db updateData)) db,
           createSuccessResponse
             (CommissionData (writes db updateData c))
             "Commission status updated successfully")
      end
  | _ => (db, createErrorResponse 400 "Invalid commission ID")
  end.

Definition bulkPaid (now : Date) (by_ : ObjectId) (payoutMethod : string)
    (payoutNotes : option string) : Commission.Update :=
  {| Commission.u_status := Some Commission.paid;
     Commission.u_paidAt := Some now;
     Commission.u_payoutMethod := Some payoutMethod;
     Commission.u_payoutReference := None;
     Commission.u_payoutNotes := payoutNotes;
     Commission.u_adminNotes := None; Commission.u_payoutId := None;
     Commission.u_processedBy := Some by_;
     Commission.u_processedAt := Some now |}.

Definition processBulkPayout (db : DB) (now : Date) (who : Auth.Principal)
    (commissionIds : list ObjectId) (payoutMethod : string)
    (payoutNotes : option string) : DB * Response :=
  if negb (isIn adminPayoutMethods payoutMethod) then (db, validationFailed)
  else
  let commissions_ :=
    find (fun c => includes commissionIds (Commission._id c)
                   && Commission.isPending c) (commissions db) in
  if List.length commissions_ =? 0 then
    (db, createErrorResponse 400 "No pending commissions found")
  else
    let totalAmount := sumAmounts commissions_ in
    (with_commissions
       (updateMany (fun c => includes commissionIds (Commission._id c))
          (writes db
             (bulkPaid now (Auth.userId who) payoutMethod payoutNotes))) db,
     createSuccessResponse
       (BulkPayoutData (List.length commissions_) totalAmount payoutMethod)
       "Bulk payout processed successfully").

(** The selection loop of [processManualPayout]: walks the pending
    commissions in order, takes each one that the remaining amount still
    covers, and leaves the loop at the first one it does not cover.
    Returns [commissionsToPay] and [totalCommissionsPaid]. *)
Fixpoint selectCommissions (pendingCommissions : list Commission.t)
    (remainingAmount : Q) (commissionsToPay : list ObjectId)
    (totalCommissionsPaid : Q) : list ObjectId * Q :=
  match pendingCommissions with
  | [] => (commissionsToPay, totalCommissionsPaid)
  | c :: rest =>
      if Qle_bool (Commission.amount c) remainingAmount then
        selectCommissions rest (remainingAmount - Commission.amount c)%Q
          (commissionsToPay ++ [Commission._id c])%list
          (totalCommissionsPaid + Commission.amount c)%Q
      else (commissionsToPay, totalCommissionsPaid)
  end.

Definition markPaid (now : Date) (notes : option string) : Commission.Update :=
  {| Commission.u_status := Some Commission.paid;
     Commission.u_paidAt := Some now;
     Commission.u_payoutMethod := None; Commission.u_payoutReference := None;
     Commission.u_payoutNotes := None; Commission.u_adminNotes := notes;
     Commission.u_payoutId := None; Commission.u_processedBy := None;
     Commission.u_processedAt := None |}.

Definition linkPayout (p : ObjectId) : Commission.Update :=
  {| Commission.u_status := None; Commission.u_paidAt := None;
     Commission.u_payoutMethod := None; Commission.u_payoutReference := None;
     Commission.u_payoutNotes := None; Commission.u_adminNotes := None;
     Commission.u_payoutId := Some p; Commission.u_processedBy := None;
     Commission.u_processedAt := None |}.

Definition pendingOf (agentId : ObjectId) (db : DB) : list Commission.t :=
  find (fun c => (Commission.agent c =? agentId) && Commission.isPending c)
    (commissions db).

Definition processManualPayout (db : DB) (now : Date) (who : Auth.Principal)
    (agentId : IdParam) (amount : Q) (paymentMethod : string)
    (notes : option string) : DB * Response :=
  match agentId with
  | IdMissing =>
      (db, createErrorResponse 400
             "Agent ID, amount, and payment method are required")
  | _ =>
  if Qeq_bool amount 0 || negb (truthy paymentMethod) then
    (db, createErrorResponse 400
           "Agent ID, amount, and payment method are required")
  else
  match agentId with
  | IdValid agentId =>
    match findById User._id agentId (users db) with
    | None => (db, createErrorResponse 404 "Agent not found")
    | Some agent =>
      if negb (User.role_eqb (User.role agent) User.agent) then
        (db, createErrorResponse 404 "Agent not found")
      else if User.lacksBankDetails agent then
        (db, createErrorResponse 400 "Agent has not provided bank details yet")
      else if (paymentMethod =? "bank_transfer")%string
              && negb (User.bankVerified agent) then
        (db, createErrorResponse 400
               "Agent bank details must be verified before processing bank transfer")
      else
        let pendingCommissions := pendingOf agentId db in
        if List.length pendingCommissions =? 0 then
          (db, createErrorResponse 400
                 "No pending commissions found for this agent")
        else
          let totalPendingAmount := sumAmounts pendingCommissions in
          if negb (Qle_bool amount totalPendingAmount) then
            (db, createErrorResponse 400 "Amount exceeds pending commission")
          else
            let '(commissionsToPay, totalCommissionsPaid) :=
              selectCommissions pendingCommissions amount [] 0%Q in
            let db1 :=
              with_commissions
                (updateMany (fun c => includes commissionsToPay (Commission._id c))
                   (writes db (markPaid now notes))) db in
            if negb (isIn Payout.paymentMethods paymentMethod) then
              (* [payout.save()] is refused, after the first [updateMany] *)
              (db1, serverError)
            else
            let '(pid, db2) := fresh db1 in
            let payout :=
              {| Payout._id := pid; Payout.agent := agentId;
                 Payout.amount := totalCommissionsPaid;
                 Payout.status := Payout.completed;
                 Payout.paymentMethod := paymentMethod;
                 Payout.notes := notes; Payout.adminNotes := notes;
                 Payout.processedBy := Auth._id who;
                 Payout.processedAt := Some now;
                 Payout.completedAt := Some now;
                 Payout.commissionIds := commissionsToPay;
                 Payout.totalCommissionsPaid := totalCommissionsPaid |} in
            let db3 := with_payouts (insert payout) db2 in
            let db4 :=
              with_commissions
                (updateMany (fun c => includes commissionsToPay (Commission._id c))
                   (writes db (linkPayout pid))) db3 in
            (db4, createSuccessResponse (PayoutData pid amount paymentMethod)
                    "Payout processed successfully")
    end
  | _ => (db, createErrorResponse 400 "Invalid agent ID")
  end
  end.

(** No Commission schema has a [paymentMethod] or a [transferReference]
    path, so of the update document of [processBankTransfer] only
    [status], [paidAt] and [adminNotes] can be stored.  The payout record
    is a Commission without [referral], [payment] and [originalAmount]. *)
Definition processBankTransfer (db : DB) (now : Date) (who : Auth.Principal)
    (agentId : IdParam) (amount : Q) (notes transferReference : option string)
    : DB * Response :=
  match agentId with
  | IdMissing => (db, createErrorResponse 400 "Agent ID and amount are required")
  | _ =>
  if Qeq_bool amount 0 then
    (db, createErrorResponse 400 "Agent ID and amount are required")
  else
  match agentId with
  | IdValid agentId =>
    match findById User._id agentId (users db) with
    | None => (db, createErrorResponse 404 "Agent not found")
    | Some agent =>
      if negb (User.role_eqb (User.role agent) User.agent) then
        (db, createErrorResponse 404 "Agent not found")
      else if User.lacksBankDetails agent then
        (db, createErrorResponse 400 "Agent has not provided bank details yet")
      else if negb (User.bankVerified agent) then
        (db, createErrorResponse 400
               "Agent bank details must be verified before processing bank transfer")
      else
        let pendingCommissions := pendingOf agentId db in
        if List.length pendingCommissions =? 0 then
          (db, createErrorResponse 400
                 "No pending commissions found for this agent")
        else
          let totalPendingAmount := sumAmounts pendingCommissions in
          if negb (Qle_bool amount totalPendingAmount) then
            (db, createErrorResponse 400 "Amount exceeds pending commission")
          else
            let commissionIds := map Commission._id pendingCommissions in
            let db1 :=
              with_commissions
                (updateMany (fun c => includes commissionIds (Commission._id c))
                   (writes db (markPaid now notes))) db in
            if negb (Commission.savesPayoutRecord (commissionSchema db)) then
              (* [payout.save()] is refused, after the [updateMany] *)
              (db1, serverError)
            else
            let '(pid, db2) := fresh db1 in
            let payout :=
              {| Commission._id := pid; Commission.agent := agentId;
                 Commission.referral := None; Commission.payment := None;
                 Commission.amount := amount;
                 Commission.status := Commission.paid;
                 Commission.paidAt := Some now;
                 Commission.commissionRate := 1 # 10;
                 Commission.originalAmount := None;
                 Commission.payoutMethod := "manual";
                 Commission.payoutReference := None;
                 Commission.payoutNotes := None;
                 Commission.adminNotes := notes;
                 Commission.type := Commission.payout;
                 Commission.payoutId := None;
                 Commission.processedBy := None;
                 Commission.processedAt := None |} in
            (with_commissions (insert payout) db2,
             createSuccessResponse (PayoutData pid amount "bank_transfer")
               "Bank transfer processed successfully")
    end
  | _ => (db, createErrorResponse 400 "Invalid agent ID")
  end
  end.

(** [data] is the optional request field: [None] when the body has no
    [data] (reading [data.status] then throws), [Some st] otherwise with
    [st] the status it carries, if any. *)
Definition performBulkActions (db : DB) (now : Date) (who : Auth.Principal)
    (action : string) (ids : list ObjectId)
    (data_ : option (option Commission.Status)) : DB * Response :=
  let done db' :=
    (db', createSuccessResponse (BulkActionData action)
            "Bulk action completed successfully") in
  if negb (isIn bulkActions action) then (db, validationFailed)
  else if (action =? "delete-users")%string then
    done (with_users (deleteMany (fun u => includes ids (User._id u))) db)
  else if (action =? "approve-agents")%string then
    done (with_users
            (updateMany
               (fun u => includes ids (User._id u)
                         && User.role_eqb (User.role u) User.agent)
               User.approve) db)
  else if (action =? "update-commission-status")%string then
    match data_ with
    | None => (db, serverError)
    | Some st =>
        done (with_commissions
                (updateMany (fun c => includes ids (Commission._id c))
                   (writes db (statusUpdate st (Auth.userId who) now)))
                db)
    end
  else if (action =? "delete-courses")%string then
    done (with_courses (deleteMany (fun c => includes ids (Course._id c))) db)
  else (db, createErrorResponse 400 "Invalid action").

Definition requestCompleted (now : Date) (by_ : option ObjectId)
    (payoutReference adminNotes : option string) : Commission.Update :=
  {| Commission.u_status := Some Commission.paid;
     Commission.u_paidAt := Some now;
     Commission.u_payoutMethod := Some "bank_transfer";
     Commission.u_payoutReference := payoutReference;
     Commission.u_payoutNotes := None;
     Commission.u_adminNotes := adminNotes;
     Commission.u_payoutId := None;
     Commission.u_processedBy := by_;
     Commission.u_processedAt := Some now |}.

(** [status] is [None] when the request names a status outside the
    schema's enum; the final [save] is then refused.  The populated agent
    is read only for [approved] and [completed]. *)
Definition processPayoutRequest (db : DB) (now : Date) (who : Auth.Principal)
    (id : ObjectId) (status : option PayoutRequest.Status)
    (adminNotes payoutReference rejectionReason : option string)
    : DB * Response :=
  match findById PayoutRequest._id id (payoutRequests db) with
  | None => (db, createErrorResponse 404 "Payout request not found")
  | Some payoutRequest =>
    let continue_ :=
      match status with
      | None => (db, serverError)
      | Some st =>
        let saved :=
          PayoutRequest.process st (Auth._id who) now adminNotes
            payoutReference rejectionReason in
        let db1 :=
          if PayoutRequest.status_eqb st PayoutRequest.completed then
            with_commissions
              (updateMany
                 (fun c => includes (PayoutRequest.commissionIds payoutRequest)
                             (Commission._id c))
                 (writes db
                    (requestCompleted now (Auth._id who) payoutReference
                       adminNotes))) db
          else db in
        (with_payoutRequests (findByIdAndUpdate PayoutRequest._id id saved) db1,
         createSuccessResponse (PayoutRequestData (saved payoutRequest))
           "Payout request processed successfully")
      end in
    match status with
    | Some PayoutRequest.approved | Some PayoutRequest.completed =>
        match findById User._id (PayoutRequest.agent payoutRequest) (users db) with
        | None => (db, serverError)
        | Some agent =>
            if User.lacksBankDetails agent then
              (db, createErrorResponse 400
                     "Agent has not provided bank details yet")
            else continue_
        end
    | _ => continue_
    end
  end.

(** [commissionIds] is [None] when the body has none.  [req.user._id] is
    the agent id; looking up an absent id finds nobody, and reading
    [agent.bankDetails] of nobody throws. *)
Definition createPayoutRequest (db : DB) (now : Date) (who : Auth.Principal)
    (amount : Q) (notes : option string)
    (commissionIds : option (list ObjectId)) : DB * Response :=
  match Auth._id who with
  | None => (db, serverError)
  | Some agentId =>
    match findById User._id agentId (users db) with
    | None => (db, serverError)
    | Some agent =>
      if User.lacksBankDetails agent then
        (db, createErrorResponse 400
               "Please add your bank details before requesting a payout")
      else
        let ids := match commissionIds with Some l => l | None => [] end in
        let commissions_ :=
          find (fun c => includes ids (Commission._id c)
                         && (Commission.agent c =? agentId)
                         && Commission.isPending c) (commissions db) in
        if (0 <? List.length ids)
           && negb (List.length commissions_ =? List.length ids) then
          (db, createErrorResponse 400
                 "Invalid commission IDs or commissions already paid")
        else if negb (Qle_bool 0 amount) then
          (* the schema's [min: 0] on [amount] refuses the save *)
          (db, serverError)
        else
          let '(rid, db1) := fresh db in
          let payoutRequest :=
            {| PayoutRequest._id := rid; PayoutRequest.agent := agentId;
               PayoutRequest.amount := amount;
               PayoutRequest.status := PayoutRequest.pending;
               PayoutRequest.processedDate := None;
               PayoutRequest.processedBy := None;
               PayoutRequest.paymentMethod := "bank_transfer";
               PayoutRequest.notes := notes;
               PayoutRequest.adminNotes := None;
               PayoutRequest.rejectionReason := None;
               PayoutRequest.commissionIds := ids;
               PayoutRequest.payoutReference := None;
               PayoutRequest.bankDetails := User.bankDetails agent |} in
          (with_payoutRequests (insert payoutRequest) db1,
           createSuccessResponse (PayoutRequestData payoutRequest)
             "Payout request created successfully")
    end
  end.

(** ** Referral controller *)

Definition agentPaid (now : Date) (payoutMethod : string) : Commission.Update :=
  {| Commission.u_status := Some Commission.paid;
     Commission.u_paidAt := Some now;
     Commission.u_payoutMethod := Some payoutMethod;
     Commission.u_payoutReference := None; Commission.u_payoutNotes := None;
     Commission.u_adminNotes := None; Commission.u_payoutId := None;
     Commission.u_processedBy := None; Commission.u_processedAt := None |}.

(** The loop of [requestPayout]: each fetched commission that still fits
    under the requested amount is saved as paid; one that does not fit is
    passed over and the loop goes on. *)
Fixpoint payFitting (schema : Commission.Schema) (now : Date)
    (payoutMethod : string) (amount : Q)
    (commissionsToUpdate : list Commission.t) (totalUpdated : Q)
    (stored : list Commission.t) : list Commission.t * Q :=
  match commissionsToUpdate with
  | [] => (stored, totalUpdated)
  | c :: rest =>
      if Qle_bool (totalUpdated + Commission.amount c) amount then
        payFitting schema now payoutMethod amount rest
          (totalUpdated + Commission.amount c)%Q
          (findByIdAndUpdate Commission._id (Commission._id c)
             (Commission.apply
                (Commission.persisted schema (agentPaid now payoutMethod)))
             stored)
      else payFitting schema now payoutMethod amount rest totalUpdated stored
  end.

Definition requestPayout (db : DB) (now : Date) (who : Auth.Principal)
    (amount : Q) (payoutMethod : string) : DB * Response :=
  if negb (isIn agentPayoutMethods payoutMethod) then (db, validationFailed)
  else
  match findById User._id (Auth.userId who) (users db) with
  | None => (db, createErrorResponse 403 "Agent access required")
  | Some user =>
    if negb (User.role_eqb (User.role user) User.agent) then
      (db, createErrorResponse 403 "Agent access required")
    else if negb (User.isActiveAgent user) then
      (db, createErrorResponse 400 "Agent account not approved")
    else
      let availableAmount := sumAmounts (pendingOf (User._id user) db) in
      if negb (Qle_bool amount availableAmount) then
        (db, createErrorResponse 400 "Insufficient pending commission")
      else
        let commissionsToUpdate :=
          limit (Qceiling (amount / 10)) (pendingOf (User._id user) db) in
        let '(stored, totalUpdated) :=
          payFitting (commissionSchema db) now payoutMethod amount
            commissionsToUpdate 0%Q (commissions db) in
        (with_commissions (fun _ => stored) db,
         createSuccessResponse
           (RequestPayoutData totalUpdated payoutMethod
              (List.length commissionsToUpdate))
           "Payout request submitted successfully")
  end.

(** ** Payments controller *)

Module Stripe.
Inductive EventType :=
| payment_intent_succeeded
| payment_intent_payment_failed
| other_event.

(** [amount] is in the currency's minor unit. *)
Record PaymentIntent := {
  id : string;
  amount : Q;
  status : string;
  metadata_userId : IdParam;
  metadata_courseId : IdParam
}.

Record Event := {
  type : EventType;
  object : PaymentIntent
}.

Record Refund := {
  refund_id : string;
  refund_amount : Q;
  refund_status : string
}.
End Stripe.

Definition received : Response :=
  {| statusCode := 200; message := ""; data := Received |}.

(** [new Payment({ ..., transactionId, ... })]: the constructor is given
    the provider's transaction id, which is not a path of the schema and
    is not stored. *)
Definition newPayment (pid userId courseId : ObjectId) (amount : Q)
    (transactionId : string) (status : Payment.Status)
    (referralAgent : option ObjectId) : Payment.t :=
  {| Payment._id := pid; Payment.user := userId; Payment.course := courseId;
     Payment.amount := amount; Payment.paymentMethod := "stripe";
     Payment.status := status;
     Payment.referralAgent := referralAgent;
     Payment.commissionAmount := None;
     Payment.commissionStatus := Commission.pending |}.

Definition newCommission (cid agent referral payment : ObjectId)
    (amount commissionRate originalAmount : Q) : Commission.t :=
  {| Commission._id := cid; Commission.agent := agent;
     Commission.referral := Some referral;
     Commission.payment := Some payment;
     Commission.amount := amount;
     Commission.status := Commission.pending;
     Commission.paidAt := None;
     Commission.commissionRate := commissionRate;
     Commission.originalAmount := Some originalAmount;
     Commission.payoutMethod := "manual";
     Commission.payoutReference := None; Commission.payoutNotes := None;
     Commission.adminNotes := None; Commission.type := Commission.commission;
     Commission.payoutId := None; Commission.processedBy := None;
     Commission.processedAt := None |}.

(** "Create commission automatically if there's a referral agent": the
    block that follows the creation of the payment record in both
    [handleWebhook] and [manualPaymentConfirm]. *)
Definition createCommission (db : DB) (user : User.t) (userId : ObjectId)
    (payment : Payment.t) : DB :=
  match User.referredBy user with
  | None => db
  | Some referredBy =>
    match findById User._id referredBy (users db) with
    | None => db
    | Some referralAgent =>
      if User.role_eqb (User.role referralAgent) User.agent then
        let commissionAmount :=
          (Payment.amount payment * User.commissionRate referralAgent / 100)%Q in
        let '(cid, db1) := fresh db in
        let commission :=
          newCommission cid referredBy userId (Payment._id payment)
            commissionAmount (User.commissionRate referralAgent / 100)%Q
            (Payment.amount payment) in
        let db2 := with_commissions (insert commission) db1 in
        with_payments
          (findByIdAndUpdate Payment._id (Payment._id payment)
             (Payment.set_commissionStatus Commission.pending)) db2
      else db
    end
  end.

(** [x || d] on numbers: [d] when [x] is zero. *)
Definition orDefault (x d : Q) : Q := if Qeq_bool x 0 then d else x.

(** [parseFloat(process.env.COMMISSION_PERCENTAGE || 10)] *)
Definition envCommissionPercentage (env : option Q) : Q :=
  match env with Some v => v | None => 10 end.

(** "Handle referral commission if applicable": the block at the end of
    the success branch of [handleWebhook]. *)
Definition handleReferralCommission (db : DB) (env : option Q) (user : User.t)
    (userId : ObjectId) (payment : Payment.t) (intentAmount : Q) : DB :=
  match User.referredBy user with
  | None => db
  | Some referredBy =>
    match findById User._id referredBy (users db) with
    | None => db
    | Some referrer =>
      if User.role_eqb (User.role referrer) User.agent
         && User.isActiveAgent referrer then
        let commissionPercentage :=
          orDefault (User.commissionRate referrer) (envCommissionPercentage env) in
        let commissionAmount :=
          ((intentAmount / 100) * (commissionPercentage / 100))%Q in
        let '(cid, db1) := fresh db in
        let commission :=
          newCommission cid referredBy userId (Payment._id payment)
            commissionAmount (1 # 10) (intentAmount / 100)%Q in
        let db2 := with_commissions (insert commission) db1 in
        let db3 :=
          with_payments
            (findByIdAndUpdate Payment._id (Payment._id payment)
               (Payment.set_commissionInfo commissionAmount (Some referredBy)))
            db2 in
        with_users
          (findByIdAndUpdate User._id referredBy
             (fun u => User.addToSet_referrals userId
                         (User.inc commissionAmount 1 u))) db3
      else db
    end
  end.

(** Purchase record and enrolment, then [user.save()]. *)
Definition enroll (db : DB) (now : Date) (user : User.t) (courseId : ObjectId)
    : DB :=
  let alreadyPurchased :=
    existsb (fun purchase => User.courseId purchase =? courseId)
      (User.coursesPurchased user) in
  let purchased :=
    if alreadyPurchased then User.coursesPurchased user
    else (User.coursesPurchased user
           ++ [{| User.courseId := courseId; User.purchasedAt := now;
                  User.accessExpires := None |}])%list in
  let enrolled :=
    if includes (User.coursesEnrolled user) courseId
    then User.coursesEnrolled user
    else (User.coursesEnrolled user ++ [courseId])%list in
  with_users
    (findByIdAndUpdate User._id (User._id user)
       (User.set_courses enrolled purchased)) db.

(** The filter [{ transactionId }] of [Payment.findOne]: it matches the
    documents that hold the given id at that path. *)
Definition hasTransaction (transactionId : string) (p : Payment.t) : bool :=
  match Payment.transactionId p with
  | Some stored => (stored =? transactionId)%string
  | None => false
  end.

(** [event] is the outcome of [stripe.webhooks.constructEvent]: [None]
    when the signature check throws. *)
Definition handleWebhook (db : DB) (now : Date) (env : option Q)
    (event : option Stripe.Event) : DB * Response :=
  match event with
  | None => (db, createErrorResponse 400 "Webhook Error")
  | Some event =>
    let paymentIntent := Stripe.object event in
    match Stripe.type event with
    | Stripe.payment_intent_succeeded =>
      match Stripe.metadata_userId paymentIntent,
            Stripe.metadata_courseId paymentIntent with
      | IdMissing, _ | _, IdMissing =>
          (db, createErrorResponse 400 "Missing metadata")
      | IdValid userId, IdValid courseId =>
        match findById User._id userId (users db),
              findById Course._id courseId (courses db) with
        | None, _ => (db, createErrorResponse 400 "User not found")
        | Some _, None => (db, createErrorResponse 400 "Course not found")
        | Some user, Some course =>
          match findOne (hasTransaction (Stripe.id paymentIntent))
                  (payments db) with
          | Some existingPayment => (db, received)
          | None =>
            if includes (User.coursesEnrolled user) courseId then
              (db, received)
            else
              let '(pid, db1) := fresh db in
              let payment :=
                newPayment pid userId courseId
                  (Stripe.amount paymentIntent / 100)%Q
                  (Stripe.id paymentIntent) Payment.completed
                  (User.referredBy user) in
              let db2 := with_payments (insert payment) db1 in
              let db3 := createCommission db2 user userId payment in
              let db4 := enroll db3 now user courseId in
              let db5 :=
                handleReferralCommission db4 env user userId payment
                  (Stripe.amount paymentIntent) in
              (db5, received)
          end
        end
      | _, _ =>
          (* a malformed id makes [findById] throw *)
          (db, createErrorResponse 400 "Cast to ObjectId failed")
      end
    | Stripe.payment_intent_payment_failed =>
      match Stripe.metadata_userId paymentIntent,
            Stripe.metadata_courseId paymentIntent with
      | IdValid userId, IdValid courseId =>
          let '(pid, db1) := fresh db in
          (with_payments
             (insert
                (newPayment pid userId courseId
                   (Stripe.amount paymentIntent / 100)%Q
                   (Stripe.id paymentIntent) Payment.failed None)) db1,
           received)
      | _, _ => (db, received)
      end
    | Stripe.other_event => (db, received)
    end
  end.

(** The filter [{ payment: p }] on commissions. *)
Definition refersTo (p : ObjectId) (c : Commission.t) : bool :=
  match Commission.payment c with
  | Some q => q =? p
  | None => false
  end.

(** [refund] is the outcome of [stripe.refunds.create]: [None] when the
    call throws.  The call names the intent by [payment.transactionId],
    which a stored payment does not hold; what the provider answers to
    that is left open.  The route requires [paymentId] and [reason] not
    to be empty. *)
Definition processRefund (db : DB) (now : Date) (who : Auth.Principal)
    (paymentId : IdParam) (reason : string) (refund : option Stripe.Refund)
    : DB * Response :=
  if negb (truthy reason) then (db, validationFailed) else
  match paymentId with
  | IdMissing => (db, validationFailed)
  | IdMalformed => (db, createErrorResponse 400 "Invalid payment ID")
  | IdValid paymentId =>
    match findById Payment._id paymentId (payments db) with
    | None => (db, createErrorResponse 404 "Payment not found")
    | Some payment =>
      if negb (Payment.status_eqb (Payment.status payment) Payment.completed)
      then (db, createErrorResponse 400 "Payment is not completed")
      else
        match refund with
        | None => (db, serverError)
        | Some refund =>
          let db1 :=
            with_payments
              (findByIdAndUpdate Payment._id (Payment._id payment)
                 (Payment.set_refunded reason now)) db in
          let db2 :=
            match Payment.referralAgent payment with
            | None => db1
            | Some referralAgent =>
              match findOne (refersTo (Payment._id payment))
                      (commissions db1) with
              | None => db1
              | Some commission =>
                if Commission.isPending commission then
                  let cancel :=
                    {| Commission.u_status := Some Commission.cancelled;
                       Commission.u_paidAt := None;
                       Commission.u_payoutMethod := None;
                       Commission.u_payoutReference := None;
                       Commission.u_payoutNotes :=
                         Some ("Refunded: " ++ reason);
                       Commission.u_adminNotes := None;
                       Commission.u_payoutId := None;
                       Commission.u_processedBy := None;
                       Commission.u_processedAt := None |} in
                  let db2 :=
                    with_commissions
                      (findByIdAndUpdate Commission._id
                         (Commission._id commission)
                         (writes db cancel)) db1 in
                  with_users
                    (findByIdAndUpdate User._id referralAgent
                       (User.inc (- Commission.amount commission) 0)) db2
                else db1
              end
            end in
          (db2, createSuccessResponse (RefundData (Stripe.refund_id refund))
                  "Refund processed successfully")
        end
    end
  end.

(** [retrieved] is the outcome of [stripe.paymentIntents.retrieve]:
    [None] when the call throws. *)
Definition manualPaymentConfirm (db : DB) (now : Date) (who : Auth.Principal)
    (paymentIntentId : string) (courseId : IdParam)
    (retrieved : option Stripe.PaymentIntent) : DB * Response :=
  if negb (truthy paymentIntentId) then
    (db, createErrorResponse 400 "Payment intent ID and course ID are required")
  else
  match courseId with
  | IdMissing =>
    (db, createErrorResponse 400 "Payment intent ID and course ID are required")
  | _ =>
    match retrieved with
    | None => (db, serverError)
    | Some paymentIntent =>
      if negb (Stripe.status paymentIntent =? "succeeded")%string then
        (db, createErrorResponse 400 "Payment not succeeded")
      else
        let userId := Auth.userId who in
        match courseId with
        | IdValid courseId =>
          match findById User._id userId (users db),
                findById Course._id courseId (courses db) with
          | Some user, Some course =>
            match findOne (hasTransaction paymentIntentId) (payments db) with
            | Some existingPayment =>
                (db, createErrorResponse 400 "Payment already processed")
            | None =>
                let '(pid, db1) := fresh db in
                let payment :=
                  newPayment pid userId courseId
                    (Stripe.amount paymentIntent / 100)%Q paymentIntentId
                    Payment.completed (User.referredBy user) in
                let db2 := with_payments (insert payment) db1 in
                let db3 := createCommission db2 user userId payment in
                let db4 := enroll db3 now user courseId in
                (db4, createSuccessResponse
                        (ConfirmData
                           (match findById User._id userId (users db4) with
                            | Some u => User.coursesEnrolled u
                            | None => []
                            end))
                        "Payment confirmed successfully")
            end
          | _, _ => (db, createErrorResponse 404 "User or course not found")
          end
        | _ => (db, serverError)
        end
    end
  end.

(** * Vocabulary of the specification *)

(** The amount of the commission stored under an id, and the sum of the
    amounts of the commissions a list of ids refers to. *)
Definition amountOf (db : DB) (i : ObjectId) : Q :=
  match findById Commission._id i (commissions db) with
  | Some c => Commission.amount c
  | None => 0
  end.

Definition sumById (db : DB) (ids : list ObjectId) : Q :=
  fold_left (fun sum i => (sum + amountOf db i)%Q) ids 0%Q.

(** The operations on the ledger, each with its request and with the
    outcome of the provider call it makes, if any. *)
Inductive Op :=
| Webhook (env : option Q) (event : option Stripe.Event)
| ManualConfirm (who : Auth.Principal) (paymentIntentId : string)
    (courseId : IdParam) (retrieved : option Stripe.PaymentIntent)
| Refund (who : Auth.Principal) (paymentId : IdParam) (reason : string)
    (refund : option Stripe.Refund)
| UpdateStatus (who : Auth.Principal) (id : IdParam)
    (status : Commission.Status) (payoutMethod payoutNotes : option string)
| BulkPayout (who : Auth.Principal) (commissionIds : list ObjectId)
    (payoutMethod : string) (payoutNotes : option string)
| ManualPayout (who : Auth.Principal) (agentId : IdParam) (amount : Q)
    (paymentMethod : string) (notes : option string)
| BankTransfer (who : Auth.Principal) (agentId : IdParam) (amount : Q)
    (notes transferReference : option string)
| BulkActions (who : Auth.Principal) (action : string) (ids : list ObjectId)
    (data_ : option (option Commission.Status))
| ProcessRequest (who : Auth.Principal) (id : ObjectId)
    (status : option PayoutRequest.Status)
    (adminNotes payoutReference rejectionReason : option string)
| CreateRequest (who : Auth.Principal) (amount : Q) (notes : option string)
    (commissionIds : option (list ObjectId))
| RequestPayout (who : Auth.Principal) (amount : Q) (payoutMethod : string).

Definition run (now : Date) (op : Op) (db : DB) : DB * Response :=
  match op with
  | Webhook env event => handleWebhook db now env event
  | ManualConfirm who t c r => manualPaymentConfirm db now who t c r
  | Refund who p reason r => processRefund db now who p reason r
  | UpdateStatus who i st m n => updateCommissionStatus db now who i st m n
  | BulkPayout who ids m n => processBulkPayout db now who ids m n
  | ManualPayout who a amount m n => processManualPayout db now who a amount m n
  | BankTransfer who a amount n t => processBankTransfer db now who a amount n t
  | BulkActions who action ids d => performBulkActions db now who action ids d
  | ProcessRequest who i st an pr rr =>
      processPayoutRequest db now who i st an pr rr
  | CreateRequest who amount n ids => createPayoutRequest db now who amount n ids
  | RequestPayout who amount m => requestPayout db now who amount m
  end.

(** [keeps c c']: [c'] is [c] after some writes that left a terminal
    status alone. *)
Definition keeps (c c' : Commission.t) : Prop :=
  Commission._id c' = Commission._id c
  /\ (Commission.terminal (Commission.status c) = true ->
      Commission.status c' = Commission.status c).

(** Terminal-state immutability between two stores: a commission that
    was [paid] or [cancelled] is still stored at its place, under its id,
    with the same status. *)
Definition keepsTerminal (db db' : DB) : Prop :=
  forall n c,
    nth_error (commissions db) n = Some c ->
    Commission.terminal (Commission.status c) = true ->
    exists c',
      nth_error (commissions db') n = Some c'
      /\ Commission._id c' = Commission._id c
      /\ Commission.status c' = Commission.status c.

(** The handlers that write a commission's status only after having
    found the commission pending, or that only add commissions. *)
Definition filtersPending (op : Op) : bool :=
  match op with
  | UpdateStatus _ _ _ _ _ | BulkPayout _ _ _ _ | BulkActions _ _ _ _
  | ProcessRequest _ _ _ _ _ _ => false
  | _ => true
  end.

(** * Example stores

    The scenario of the specification: agent A (id 1, rate 10, approved,
    verified bank details) referred buyer B (id 2); one course (id 3)
    priced 100; an administrator (id 9). *)

Module Example.
Definition bank : User.BankDetails :=
  {| User.accountNumber := "12345678"; User.bankName := "Bank";
     User.isVerified := true |}.

Definition agent (rate : Q) (active : bool) : User.t :=
  {| User._id := 1; User.role := User.agent; User.referredBy := None;
     User.isActiveAgent := active; User.commissionRate := rate;
     User.bankDetails := Some bank; User.coursesEnrolled := [];
     User.coursesPurchased := []; User.totalReferrals := 0;
     User.totalCommission := 0; User.referrals := [] |}.

Definition buyer : User.t :=
  {| User._id := 2; User.role := User.user; User.referredBy := Some 1;
     User.isActiveAgent := false; User.commissionRate := 10;
     User.bankDetails := None; User.coursesEnrolled := [];
     User.coursesPurchased := []; User.totalReferrals := 0;
     User.totalCommission := 0; User.referrals := [] |}.

Definition course : Course.t := {| Course._id := 3; Course.price := 100 |}.

Definition administrator : Auth.Principal :=
  {| Auth.userId := 9; Auth.role := User.admin; Auth._id := None |}.

(** A as a principal that also carries [_id], which
    [createPayoutRequest] reads. *)
Definition agentPrincipal : Auth.Principal :=
  {| Auth.userId := 1; Auth.role := User.agent; Auth._id := Some 1 |}.

Definition buyerPrincipal : Auth.Principal :=
  {| Auth.userId := 2; Auth.role := User.user; Auth._id := None |}.

(** A store with the given agent record and nothing sold yet. *)
Definition start (a : User.t) : DB :=
  {| users := [a; buyer]; courses := [course]; payments := [];
     commissions := []; payouts := []; payoutRequests := [];
     nextId := 100;
     commissionSchema := Commission.withType |}.

(** A commission of agent A on a purchase by B, in a given status. *)
Definition commissionOf (id payment : ObjectId) (amount : Q)
    (st : Commission.Status) : Commission.t :=
  Commission.apply
    {| Commission.u_status := Some st; Commission.u_paidAt := None;
       Commission.u_payoutMethod := None;
       Commission.u_payoutReference := None;
       Commission.u_payoutNotes := None; Commission.u_adminNotes := None;
       Commission.u_payoutId := None; Commission.u_processedBy := None;
       Commission.u_processedAt := None |}
    (newCommission id 1 2 payment amount (1 # 10) (amount * 10)).

Definition withCommissions (l : list Commission.t) : DB :=
  with_commissions (fun _ => l) (start (agent 10 true)).

(** A has three pending commissions of 10, 10 and 5. *)
Definition threePending : DB :=
  withCommissions
    [commissionOf 11 21 10 Commission.pending;
     commissionOf 12 22 10 Commission.pending;
     commissionOf 13 23 5 Commission.pending].

(** The succeeded payment intent [tx_1] of B for the course. *)
Definition intent : Stripe.PaymentIntent :=
  {| Stripe.id := "tx_1"; Stripe.amount := 10000;
     Stripe.status := "succeeded";
     Stripe.metadata_userId := IdValid 2;
     Stripe.metadata_courseId := IdValid 3 |}.

Definition succeeded : Stripe.Event :=
  {| Stripe.type := Stripe.payment_intent_succeeded;
     Stripe.object := intent |}.
(** One pending and one cancelled commission of 10 each. *)
Definition pendingAndCancelled : DB :=
  withCommissions
    [commissionOf 11 21 10 Commission.pending;
     commissionOf 12 22 10 Commission.cancelled].

(** A completed payment (id 21) of B referred by A, with its commission
    (id 11, amount 10) in a given status, and A's counter at 10. *)
Definition sold (st : Commission.Status) : DB :=
  {| users := [User.inc 10 1 (agent 10 true); buyer];
     courses := [course];
     payments :=
       [Payment.set_commissionInfo 10 (Some 1)
          (newPayment 21 2 3 100 "tx_1" Payment.completed (Some 1))];
     commissions := [commissionOf 11 21 10 st];
     payouts := []; payoutRequests := []; nextId := 100;
     commissionSchema := Commission.withType |}.

Definition refund : Stripe.Refund :=
  {| Stripe.refund_id := "re_1"; Stripe.refund_amount := 10000;
     Stripe.refund_status := "succeeded" |}.

(** The start store after the webhook handled [tx_1]. *)
Definition afterWebhook : DB :=
  fst (handleWebhook (start (agent 10 true)) 5%Z None (Some succeeded)).

(** A paid commission of 10. *)
Definition onePaid : DB :=
  withCommissions [commissionOf 11 21 10 Commission.paid].

(** The store after the webhook handled [tx_1] and the payment it
    stored was refunded. *)
Definition afterRefund : DB :=
  fst (processRefund afterWebhook 7%Z administrator (IdValid 100) "asked"
         (Some refund)).

(** The start store after the manual confirmation of [tx_1]. *)
Definition confirmed : DB :=
  fst (manualPaymentConfirm (start (agent 10 true)) 5%Z buyerPrincipal "tx_1"
         (IdValid 3) (Some intent)).

(** The sold store after the refund of payment 21. *)
Definition refunded : DB :=
  fst (processRefund (sold Commission.pending) 7%Z administrator
         (IdValid 21) "asked" (Some refund)).
End Example.

From Stdlib Require DecimalString DecimalFacts DecimalPos DecimalZ.

(** * Further handlers

    The course controller, the payment-intent and commission-listing
    handlers of the payments controller, and the user-management
    handlers of the admin and referral controllers.  A user's name and
    contact fields are not recorded in [User.t]; where a handler
    validates them they appear as arguments, and where it only stores or
    echoes them they do not appear. *)

(** [findByIdAndDelete]: the first document stored under the id is
    removed. *)
Fixpoint deleteOne {A : Type} (p : A -> bool) (l : list A) : list A :=
  match l with
  | [] => []
  | d :: r => if p d then r else d :: deleteOne p r
  end.

Definition findByIdAndDelete {A : Type} (id_of : A -> ObjectId) (i : ObjectId)
    (l : list A) : list A :=
  deleteOne (fun d => id_of d =? i) l.

(** [notEmpty()] *)
Definition notEmpty (s : string) : bool := truthy s.

(** [optional().notEmpty()] *)
Definition optionalNotEmpty (s : option string) : bool :=
  match s with Some v => truthy v | None => true end.

(** A write of some of a user's fields: the fields named are
    overwritten, the others are kept. *)
Definition updateUser (role : option User.Role) (isActiveAgent : option bool)
    (commissionRate : option Q) (bankDetails : option User.BankDetails)
    (u : User.t) : User.t :=
  {| User._id := User._id u;
     User.role := Commission.over role (User.role u);
     User.referredBy := User.referredBy u;
     User.isActiveAgent := Commission.over isActiveAgent (User.isActiveAgent u);
     User.commissionRate :=
       Commission.over commissionRate (User.commissionRate u);
     User.bankDetails :=
       Commission.over_opt bankDetails (User.bankDetails u);
     User.coursesEnrolled := User.coursesEnrolled u;
     User.coursesPurchased := User.coursesPurchased u;
     User.totalReferrals := User.totalReferrals u;
     User.totalCommission := User.totalCommission u;
     User.referrals := User.referrals u |}.

(** ** Course controller *)

Definition enrollInCourse (db : DB) (who : Auth.Principal) (id : IdParam)
    : DB * Response :=
  match id with
  | IdValid i =>
    match findById Course._id i (courses db) with
    | None => (db, createErrorResponse 404 "Course not found")
    | Some course =>
      match findById User._id (Auth.userId who) (users db) with
      | None => (db, createErrorResponse 404 "User not found")
      | Some user =>
        if includes (User.coursesEnrolled user) (Course._id course) then
          (db, createErrorResponse 400 "Already enrolled in this course")
        else
          (with_users
             (findByIdAndUpdate User._id (User._id user)
                (User.set_courses
                   (User.coursesEnrolled user ++ [Course._id course])%list
                   (User.coursesPurchased user))) db,
           createSuccessResponse NoData "Successfully enrolled in course")
      end
    end
  | _ => (db, createErrorResponse 400 "Invalid course ID")
  end.

(** The answer carries the course's content, which [Course.t] does not
    record. *)
Definition getCourseContent (db : DB) (who : Auth.Principal) (id : IdParam)
    : Response :=
  match id with
  | IdValid i =>
    match findById User._id (Auth.userId who) (users db) with
    | None => createErrorResponse 404 "User not found"
    | Some user =>
      match findById Course._id i (courses db) with
      | None => createErrorResponse 404 "Course not found"
      | Some course =>
        if negb (includes (User.coursesEnrolled user) (Course._id course)) then
          createErrorResponse 403 "Not enrolled in this course"
        else createSuccessResponse NoData "Success"
      end
    end
  | _ => createErrorResponse 400 "Invalid course ID"
  end.

Definition deleteCourse (db : DB) (id : IdParam) : DB * Response :=
  match id with
  | IdValid i =>
    match findById Course._id i (courses db) with
    | None => (db, createErrorResponse 404 "Course not found")
    | Some _ =>
        (with_courses (findByIdAndDelete Course._id i) db,
         createSuccessResponse NoData "Course deleted successfully")
    end
  | _ => (db, createErrorResponse 400 "Invalid course ID")
  end.

(** ** Payments controller: payment intents and commission listing *)

(** [created] is the outcome of [stripe.paymentIntents.create]: the
    client secret, or [None] when the call throws.  The second component
    of the result is the amount handed to the provider when the call is
    made. *)
Definition createPaymentIntent (db : DB) (who : Auth.Principal)
    (courseId : IdParam) (created : option string)
    : Response * option Q :=
  match courseId with
  | IdMissing => (validationFailed, None)
  | IdMalformed => (serverError, None)
  | IdValid c =>
    match findById Course._id c (courses db) with
    | None => (createErrorResponse 404 "Course not found", None)
    | Some course =>
      match findById User._id (Auth.userId who) (users db) with
      | None => (serverError, None)
      | Some user =>
        if includes (User.coursesEnrolled user) c then
          (createErrorResponse 400 "You already purchased this course", None)
        else
          match created with
          | None => (serverError, Some (Course.price course * 100)%Q)
          | Some clientSecret =>
              (createSuccessResponse NoData "Success",
               Some (Course.price course * 100)%Q)
          end
      end
    end
  end.

(** The [page] a handler passes on: its default, the number 1, or the
    query-string parameter, here the decimal numeral of an integer. *)
Inductive PageArg :=
| DefaultPage
| QueryPage (n : Z).

(** The number a page argument is read as in arithmetic and in
    comparisons. *)
Definition pageNumber (p : PageArg) : Z :=
  match p with
  | DefaultPage => 1
  | QueryPage n => n
  end.

(** A JavaScript value that is a number or a string. *)
Inductive JsValue :=
| JsNumber (n : Z)
| JsString (s : string).

Definition numeral (n : Z) : string :=
  DecimalString.NilZero.string_of_int (Z.to_int n).

(** [page + 1]: addition on a number, concatenation on a string. *)
Definition plusOne (p : PageArg) : JsValue :=
  match p with
  | DefaultPage => JsNumber 2
  | QueryPage n => JsString (numeral n ++ "1")
  end.

(** The value of [Math.ceil(total / limit)] on integers. *)
Inductive PageCount :=
| Pages (n : Z)
| Infinitely
| MinusInfinitely
| NotANumber.

Definition pageCount (total_ limit_ : Z) : PageCount :=
  if (limit_ =? 0)%Z then
    if (0 <? total_)%Z then Infinitely
    else if (total_ <? 0)%Z then MinusInfinitely
    else NotANumber
  else Pages (Qceiling (inject_Z total_ / inject_Z limit_)).

(** [page < totalPages] *)
Definition below (page : Z) (c : PageCount) : bool :=
  match c with
  | Pages n => (page <? n)%Z
  | Infinitely => true
  | MinusInfinitely | NotANumber => false
  end.

Record Pagination := {
  currentPage : PageArg;
  totalPages : PageCount;
  total : Z;
  hasNextPage : bool;
  hasPrevPage : bool;
  nextPage : option JsValue;
  prevPage : option Z
}.

Definition generatePagination (page : PageArg) (limit_ total_ : Z)
    : Pagination :=
  let totalPages := pageCount total_ limit_ in
  let hasNextPage := below (pageNumber page) totalPages in
  let hasPrevPage := (1 <? pageNumber page)%Z in
  {| currentPage := page;
     totalPages := totalPages;
     total := total_;
     hasNextPage := hasNextPage;
     hasPrevPage := hasPrevPage;
     nextPage := if hasNextPage then Some (plusOne page) else None;
     prevPage := if hasPrevPage then Some (pageNumber page - 1)%Z else None |}.

(** The [status] query parameter: absent or empty, the name of a
    status, or any other text. *)
Inductive StatusQuery :=
| AnyStatus
| OfStatus (s : Commission.Status)
| OtherText.

Definition matchesStatus (q : StatusQuery) (c : Commission.t) : bool :=
  match q with
  | AnyStatus => true
  | OfStatus s => Commission.status_eqb (Commission.status c) s
  | OtherText => false
  end.

Record Earnings := {
  earned : Q;
  paidOut : Q;
  outstanding : Q
}.

(** The three [$match]/[$group] aggregates over an agent's commission
    documents: all of them, the paid ones, the pending ones. *)
Definition earningsOf (db : DB) (agentId : ObjectId) : Earnings :=
  let ofAgent c := Commission.agent c =? agentId in
  {| earned := sumAmounts (find ofAgent (commissions db));
     paidOut :=
       sumAmounts
         (find (fun c => ofAgent c
                         && Commission.status_eqb (Commission.status c)
                              Commission.paid) (commissions db));
     outstanding := sumAmounts (pendingOf agentId db) |}.

Record CommissionsPage := {
  pagination : Pagination;
  earnings : Earnings
}.

(** [page] and [limit_] are the query parameters, [limit_] an integer
    or its default 10.  The page of documents itself, which is ordered
    by creation time, is not part of this answer; the store refuses a
    negative [skip]. *)
Definition getUserCommissions (db : DB) (who : Auth.Principal)
    (page : PageArg) (limit_ : Z) (status : StatusQuery)
    : Response + CommissionsPage :=
  match findById User._id (Auth.userId who) (users db) with
  | None => inl (createErrorResponse 403 "Agent access required")
  | Some user =>
    if negb (User.role_eqb (User.role user) User.agent) then
      inl (createErrorResponse 403 "Agent access required")
    else
      let query c :=
        (Commission.agent c =? User._id user) && matchesStatus status c in
      if ((pageNumber page - 1) * limit_ <? 0)%Z then inl serverError
      else
        let total_ := Z.of_nat (List.length (find query (commissions db))) in
        inr {| pagination := generatePagination page limit_ total_;
               earnings := earningsOf db (User._id user) |}
  end.

(** ** User management *)

Definition approveAgent (db : DB) (id : IdParam) : DB * Response :=
  match id with
  | IdValid i =>
    match findById User._id i (users db) with
    | None => (db, createErrorResponse 404 "User not found")
    | Some user =>
      if negb (User.role_eqb (User.role user) User.agent) then
        (db, createErrorResponse 400 "User is not an agent")
      else if User.isActiveAgent user then
        (db, createErrorResponse 400 "Agent is already approved")
      else
        (with_users
           (findByIdAndUpdate User._id (User._id user)
              (updateUser None (Some true) None None)) db,
         createSuccessResponse NoData "Agent approved successfully")
    end
  | _ => (db, createErrorResponse 400 "Invalid user ID")
  end.

Definition becomeAgent (db : DB) (who : Auth.Principal)
    (firstName lastName phone country : string) : DB * Response :=
  if negb (notEmpty firstName && notEmpty lastName && notEmpty phone
           && notEmpty country) then (db, validationFailed)
  else
    match findById User._id (Auth.userId who) (users db) with
    | None => (db, createErrorResponse 404 "User not found")
    | Some user =>
      if User.role_eqb (User.role user) User.agent then
        (db, createErrorResponse 400 "Already an agent")
      else
        (with_users
           (findByIdAndUpdate User._id (User._id user)
              (updateUser (Some User.agent) (Some false) None None)) db,
         createSuccessResponse NoData
           "Agent application submitted successfully. Awaiting admin approval.")
    end.

(** [role] is [None] for a value that is not the name of a role.
    [commissionRate] is the value of the body's number, an integer, and
    [isActiveAgent] a boolean, both optional.  The validator [isNumeric]
    reads a number in its printed form, which from [10 ^ 21] on is in
    exponent notation and refused; below that [parseInt] gives the
    integer back. *)
Definition updateUserRole (db : DB) (id : IdParam) (role : option User.Role)
    (commissionRate : option Z) (isActiveAgent : option bool)
    : DB * Response :=
  match role with
  | None => (db, validationFailed)
  | Some role =>
    if match commissionRate with
       | Some n => (10 ^ 21 <=? Z.abs n)%Z
       | None => false
       end
    then (db, validationFailed)
    else
    match id with
    | IdValid i =>
        let rate :=
          match commissionRate with
          | Some n =>
              if User.role_eqb role User.agent && (0 <=? n)%Z && (n <=? 100)%Z
              then Some (inject_Z n) else None
          | None => None
          end in
        let active :=
          if User.role_eqb role User.agent then isActiveAgent else None in
        match findById User._id i (users db) with
        | None => (db, createErrorResponse 404 "User not found")
        | Some _ =>
            (with_users
               (findByIdAndUpdate User._id i
                  (updateUser (Some role) active rate None)) db,
             createSuccessResponse NoData "User updated successfully")
        end
    | _ => (db, createErrorResponse 400 "Invalid user ID")
    end
  end.

Definition deleteUser (db : DB) (id : IdParam) : DB * Response :=
  match id with
  | IdValid i =>
    match findById User._id i (users db) with
    | None => (db, createErrorResponse 404 "User not found")
    | Some _ =>
        (with_users (findByIdAndDelete User._id i) db,
         createSuccessResponse NoData "User deleted successfully")
    end
  | _ => (db, createErrorResponse 400 "Invalid user ID")
  end.

(** [isVerified] is the boolean of the request body.  The id is not
    checked before the lookup, which throws on a malformed one. *)
Definition verifyAgentBankDetails (db : DB) (id : IdParam) (isVerified : bool)
    : DB * Response :=
  match id with
  | IdValid i =>
    match findById User._id i (users db) with
    | None => (db, createErrorResponse 404 "User not found")
    | Some user =>
      if negb (User.role_eqb (User.role user) User.agent) then
        (db, createErrorResponse 400
               "Only agents can have bank details verified")
      else if User.lacksBankDetails user then
        (db, createErrorResponse 400 "Agent has not provided bank details yet")
      else
        (with_users
           (findByIdAndUpdate User._id (User._id user)
              (updateUser None None None
                 (option_map
                    (fun b =>
                       {| User.accountNumber := User.accountNumber b;
                          User.bankName := User.bankName b;
                          User.isVerified := isVerified |})
                    (User.bankDetails user)))) db,
         createSuccessResponse NoData
           (if isVerified then "Bank details verified successfully"
            else "Bank details unverified successfully"))
    end
  | _ => (db, serverError)
  end.

(** The [bankDetails] object of a profile update, each field optional. *)
Record BankInput := {
  in_accountNumber : option string;
  in_bankName : option string;
  in_isVerified : option bool
}.

(** The bank details read back after [input] has replaced the stored
    object: a text field left out reads as empty, and [isVerified] left
    out reads as its schema default. *)
Definition storedBank (input : BankInput) : User.BankDetails :=
  {| User.accountNumber :=
       match in_accountNumber input with Some s => s | None => "" end;
     User.bankName :=
       match in_bankName input with Some s => s | None => "" end;
     User.isVerified :=
       match in_isVerified input with Some v => v | None => false end |}.

(** [bankDetails] is the object of the request body, if the body has
    one; its fields that [User.BankDetails] does not record pass their
    validators.  The update replaces the stored object as a whole. *)
Definition updateAgentProfile (db : DB) (who : Auth.Principal)
    (firstName lastName phone country : option string)
    (bankDetails : option BankInput) : DB * Response :=
  if negb (optionalNotEmpty firstName && optionalNotEmpty lastName
           && optionalNotEmpty phone && optionalNotEmpty country
           && match bankDetails with
              | Some b => optionalNotEmpty (in_accountNumber b)
                          && optionalNotEmpty (in_bankName b)
              | None => true
              end)
  then (db, validationFailed)
  else
    match findById User._id (Auth.userId who) (users db) with
    | None => (db, createErrorResponse 403 "Agent access required")
    | Some user =>
      if negb (User.role_eqb (User.role user) User.agent) then
        (db, createErrorResponse 403 "Agent access required")
      else
        (with_users
           (findByIdAndUpdate User._id (Auth.userId who)
              (updateUser None None None (option_map storedBank bankDetails)))
           db,
         createSuccessResponse NoData "Agent profile updated successfully")
    end.

(** * Further vocabulary *)

(** The fields of a commission that are fixed when it is created. *)
Definition sameCore (c c' : Commission.t) : Prop :=
  Commission._id c' = Commission._id c
  /\ Commission.agent c' = Commission.agent c
  /\ Commission.referral c' = Commission.referral c
  /\ Commission.payment c' = Commission.payment c
  /\ Commission.amount c' = Commission.amount c
  /\ Commission.originalAmount c' = Commission.originalAmount c
  /\ Commission.commissionRate c' = Commission.commissionRate c
  /\ Commission.type c' = Commission.type c.

(** Every commission of [l] is still at its place in [l'], with the
    fields fixed at creation unchanged. *)
Definition persists (l l' : list Commission.t) : Prop :=
  forall n c,
    nth_error l n = Some c ->
    exists c', nth_error l' n = Some c' /\ sameCore c c'.

(** The referrer of [user] when it is stored with role [agent]: the test
    of both commission blocks. *)
Definition agentReferrer (db : DB) (user : User.t) : option User.t :=
  match User.referredBy user with
  | None => None
  | Some a =>
    match findById User._id a (users db) with
    | Some ag =>
        if User.role_eqb (User.role ag) User.agent then Some ag else None
    | None => None
    end
  end.

(** An update of a user that leaves its id, role, approval and rate
    alone. *)
Definition keepsAgent (f : User.t -> User.t) : Prop :=
  forall d,
    User._id (f d) = User._id d
    /\ User.role (f d) = User.role d
    /\ User.isActiveAgent (f d) = User.isActiveAgent d
    /\ User.commissionRate (f d) = User.commissionRate d.

(** An update of a user that leaves its id, role, approval, rate and
    courses alone. *)
Definition keepsCourses (f : User.t -> User.t) : Prop :=
  forall d,
    User._id (f d) = User._id d
    /\ User.role (f d) = User.role d
    /\ User.isActiveAgent (f d) = User.isActiveAgent d
    /\ User.commissionRate (f d) = User.commissionRate d
    /\ User.coursesEnrolled (f d) = User.coursesEnrolled d
    /\ User.coursesPurchased (f d) = User.coursesPurchased d.


(** * Further example stores *)

Module Scenario.
(** A succeeded intent [tx_2] of A, who has no referrer, for the course. *)
Definition ownIntent : Stripe.PaymentIntent :=
  {| Stripe.id := "tx_2"; Stripe.amount := 10000;
     Stripe.status := "succeeded";
     Stripe.metadata_userId := IdValid 1;
     Stripe.metadata_courseId := IdValid 3 |}.

Definition ownPurchase : Stripe.Event :=
  {| Stripe.type := Stripe.payment_intent_succeeded;
     Stripe.object := ownIntent |}.

(** The failure of [tx_1]. *)
Definition declined : Stripe.Event :=
  {| Stripe.type := Stripe.payment_intent_payment_failed;
     Stripe.object := Example.intent |}.
End Scenario.


(** The operations that settle or re-label commissions. *)
Definition isLedgerOp (op : Op) : bool :=
  match op with
  | UpdateStatus _ _ _ _ _ | BulkPayout _ _ _ _ | ManualPayout _ _ _ _ _
  | BankTransfer _ _ _ _ _ | ProcessRequest _ _ _ _ _ _
  | CreateRequest _ _ _ _ | RequestPayout _ _ _ => true
  | _ => false
  end.

(** * Vocabulary for the further handlers *)

(** Every user of [l] is still found in [l'] under its id, enrolled in
    at least the same courses. *)
Definition keepsEnrolment (l l' : list User.t) : Prop :=
  forall i u,
    findById User._id i l = Some u ->
    exists u',
      findById User._id i l' = Some u'
      /\ incl (User.coursesEnrolled u) (User.coursesEnrolled u').

(** The bulk actions that delete users or courses. *)
Definition deletes (op : Op) : bool :=
  match op with
  | BulkActions _ action _ _ =>
      (action =? "delete-users")%string || (action =? "delete-courses")%string
  | _ => false
  end.

(** The requests that manage users and courses. *)
Inductive UserOp :=
| Enrol (who : Auth.Principal) (id : IdParam)
| DeleteCourse (id : IdParam)
| BecomeAgent (who : Auth.Principal) (firstName lastName phone country : string)
| UpdateProfile (who : Auth.Principal)
    (firstName lastName phone country : option string)
    (bankDetails : option BankInput)
| UpdateRole (id : IdParam) (role : option User.Role)
    (commissionRate : option Z) (isActiveAgent : option bool)
| Approve (id : IdParam)
| DeleteUser (id : IdParam)
| VerifyBank (id : IdParam) (isVerified : bool).

Definition manage (op : UserOp) (db : DB) : DB * Response :=
  match op with
  | Enrol who i => enrollInCourse db who i
  | DeleteCourse i => deleteCourse db i
  | BecomeAgent who f l p c => becomeAgent db who f l p c
  | UpdateProfile who f l p c b => updateAgentProfile db who f l p c b
  | UpdateRole i role rate active => updateUserRole db i role rate active
  | Approve i => approveAgent db i
  | DeleteUser i => deleteUser db i
  | VerifyBank i v => verifyAgentBankDetails db i v
  end.

(** Every stored commission rate is a percentage. *)
Definition ratesInRange (db : DB) : Prop :=
  Forall (fun u => (0 <= User.commissionRate u <= 100)%Q) (users db).

(** * Example stores for the further handlers *)

Module Roster.
(** A as an approved agent that has given no bank details. *)
Definition unbanked : User.t :=
  {| User._id := 1; User.role := User.agent; User.referredBy := None;
     User.isActiveAgent := true; User.commissionRate := 10;
     User.bankDetails := None; User.coursesEnrolled := [];
     User.coursesPurchased := []; User.totalReferrals := 0;
     User.totalCommission := 0; User.referrals := [] |}.

(** A store where [agent] is owed one pending commission of 10. *)
Definition owing (agent : User.t) : DB :=
  {| users := [agent; Example.buyer]; courses := [Example.course];
     payments := [];
     commissions := [Example.commissionOf 11 21 10 Commission.pending];
     payouts := []; payoutRequests := []; nextId := 100;
     commissionSchema := Commission.withType |}.

(** Bank details as an agent sends them. *)
Definition details (isVerified : option bool) : BankInput :=
  {| in_accountNumber := Some "12345678"; in_bankName := Some "Bank";
     in_isVerified := isVerified |}.
End Roster.

(** The number a JavaScript value converts to, for a number or the
    decimal numeral of an integer. *)
Definition toNumber (v : JsValue) : option Z :=
  match v with
  | JsNumber n => Some n
  | JsString s => option_map Z.of_int (DecimalString.NilZero.int_of_string s)
  end.

(** * Properties *)

(** Closes a branch in which the handler answered with an error although
    the answer is assumed to be a success. *)
Ltac abort_branch Hrun Hok :=
  inversion Hrun; subst; simpl in Hok; discriminate.

(** ** Collections *)

Section CollectionFacts.
Context {A : Type} (id_of : A -> ObjectId).

Lemma findById_map (g : A -> A) (i : ObjectId) (l : list A) :
  (forall d, id_of (g d) = id_of d) ->
  findById id_of i (map g l) = option_map g (findById id_of i l).
Proof.
  intros Hg. unfold findById, findOne.
  induction l as [|d r IH]; simpl; [reflexivity|].
  rewrite Hg. destruct (id_of d =? i); [reflexivity|exact IH].
Qed.

Lemma findById_updateMany (p : A -> bool) (f : A -> A) i l :
  (forall d, id_of (f d) = id_of d) ->
  findById id_of i (updateMany p f l)
  = option_map (fun d => if p d then f d else d) (findById id_of i l).
Proof.
  intros Hf. unfold updateMany. apply findById_map.
  intros d. destruct (p d); [apply Hf|reflexivity].
Qed.

Lemma findById_unique (l : list A) (d : A) :
  NoDup (map id_of l) -> In d l -> findById id_of (id_of d) l = Some d.
Proof.
  unfold findById, findOne.
  induction l as [|x r IH]; simpl; intros Hnd Hin; [contradiction|].
  inversion Hnd as [|? ? Hx Hr]; subst.
  destruct (Nat.eqb_spec (id_of x) (id_of d)) as [E|E].
  - destruct Hin as [->|Hin]; [reflexivity|].
    exfalso. apply Hx. rewrite E. now apply in_map.
  - destruct Hin as [->|Hin]; [congruence|]. now apply IH.
Qed.

Lemma findOne_some (p : A -> bool) (l : list A) (d : A) :
  findOne p l = Some d -> In d l /\ p d = true.
Proof. apply find_some. Qed.

End CollectionFacts.

Lemma includes_In (ids : list ObjectId) (i : ObjectId) :
  includes ids i = true <-> In i ids.
Proof.
  unfold includes. rewrite existsb_exists. split.
  - intros [x [Hx E]]. apply Nat.eqb_eq in E. now subst.
  - intros H. exists i. split; [exact H|apply Nat.eqb_refl].
Qed.

(** ** Sums of amounts *)

Lemma fold_amounts_shift (l : list Commission.t) (a : Q) :
  (fold_left (fun sum c => sum + Commission.amount c) l a == a + sumAmounts l)%Q.
Proof.
  unfold sumAmounts. revert a.
  induction l as [|c r IH]; intros a; simpl.
  - lra.
  - rewrite (IH (a + Commission.amount c)%Q), (IH (0 + Commission.amount c)%Q).
    lra.
Qed.

Lemma sumAmounts_cons (c : Commission.t) (l : list Commission.t) :
  (sumAmounts (c :: l) == Commission.amount c + sumAmounts l)%Q.
Proof.
  unfold sumAmounts at 1. simpl. rewrite fold_amounts_shift. lra.
Qed.

Lemma sumAmounts_app (l1 l2 : list Commission.t) :
  (sumAmounts (l1 ++ l2) == sumAmounts l1 + sumAmounts l2)%Q.
Proof.
  unfold sumAmounts at 1. rewrite fold_left_app.
  rewrite fold_amounts_shift. reflexivity.
Qed.

(** ** Manual payout *)

Lemma Qle_bool_false (x y : Q) : Qle_bool x y = false -> (y < x)%Q.
Proof.
  intros H. apply Qnot_le_lt. intros Hle.
  apply Qle_bool_iff in Hle. congruence.
Qed.

Lemma selectCommissions_split (l : list Commission.t) :
  forall (rem : Q) (acc : list ObjectId) (tot : Q),
  exists sel rest,
    l = (sel ++ rest)%list
    /\ selectCommissions l rem acc tot
       = ((acc ++ map Commission._id sel)%list,
          fold_left (fun sum c => (sum + Commission.amount c)%Q) sel tot)
    /\ (sel <> [] -> (sumAmounts sel <= rem)%Q)
    /\ match rest with
       | [] => True
       | c :: _ => (rem - sumAmounts sel < Commission.amount c)%Q
       end.
Proof.
  induction l as [|c r IH]; intros rem acc tot.
  - exists [], []. simpl. rewrite app_nil_r. repeat split; congruence.
  - simpl. destruct (Qle_bool (Commission.amount c) rem) eqn:E.
    + apply Qle_bool_iff in E.
      destruct (IH (rem - Commission.amount c)%Q
                   (acc ++ [Commission._id c])%list
                   (tot + Commission.amount c)%Q)
        as (sel & rest & Hl & Hs & Hle & Hhd).
      exists (c :: sel), rest. repeat split.
      * simpl. now rewrite Hl.
      * rewrite Hs. simpl. now rewrite <- app_assoc.
      * intros _. rewrite sumAmounts_cons.
        destruct sel as [|c' sel'].
        -- unfold sumAmounts. simpl. lra.
        -- assert (H : (sumAmounts (c' :: sel') <= rem - Commission.amount c)%Q)
             by (apply Hle; discriminate).
           lra.
      * destruct rest as [|c' rest']; [exact I|].
        rewrite sumAmounts_cons. lra.
    + apply Qle_bool_false in E.
      exists [], (c :: r). simpl. rewrite app_nil_r. repeat split.
      * congruence.
      * unfold sumAmounts. simpl. lra.
Qed.

Lemma apply_id (u : Commission.Update) (c : Commission.t) :
  Commission._id (Commission.apply u c) = Commission._id c.
Proof. reflexivity. Qed.

(** C6. The claim fails for a requested amount that is negative.  With
    three pending commissions of 10, 10 and 5 a manual payout of -5 to A
    passes every check and answers 200; the Payout it stores lists no
    commission and has [totalCommissionsPaid] and [amount] 0, so the sum
    of the amounts it lists, 0, is above the requested -5; the
    commissions stay pending. *)
Theorem manual_payout_exceeds_negative_request :
  statusCode (snd (processManualPayout Example.threePending 0%Z
                     Example.administrator (IdValid 1) (-5) "manual" None))
  = 200
  /\ exists p,
       payouts (fst (processManualPayout Example.threePending 0%Z
                       Example.administrator (IdValid 1) (-5) "manual" None))
       = [p]
       /\ Payout.commissionIds p = []
       /\ (Payout.totalCommissionsPaid p == 0)%Q
       /\ (Payout.amount p == 0)%Q
       /\ Qlt (-5)
               (sumById
                  (fst (processManualPayout Example.threePending 0%Z
                          Example.administrator (IdValid 1) (-5) "manual"
                          None))
                  (Payout.commissionIds p))
       /\ map Commission.status
            (commissions
               (fst (processManualPayout Example.threePending 0%Z
                       Example.administrator (IdValid 1) (-5) "manual" None)))
          = [Commission.pending; Commission.pending; Commission.pending].
Proof.
  split; [reflexivity|].
  eexists. split; [reflexivity|].
  repeat split; reflexivity.
Qed.

(** ** Bank transfer *)

Lemma Forall2_map_In {A : Type} (R : A -> A -> Prop) (g : A -> A) (l : list A) :
  (forall d, In d l -> R d (g d)) -> Forall2 R l (map g l).
Proof.
  induction l as [|x r IH]; intros H; simpl; constructor.
  - apply H. now left.
  - apply IH. intros d Hd. apply H. now right.
Qed.

Lemma isPending_iff (c : Commission.t) :
  Commission.isPending c = true <-> Commission.status c = Commission.pending.
Proof.
  unfold Commission.isPending.
  destruct (Commission.status c); simpl; split; congruence.
Qed.

Lemma pendingOf_In (a : ObjectId) (db : DB) (c : Commission.t) :
  In c (pendingOf a db)
  <-> In c (commissions db) /\ Commission.agent c = a
      /\ Commission.status c = Commission.pending.
Proof.
  unfold pendingOf, find. rewrite filter_In, andb_true_iff.
  rewrite Nat.eqb_eq, isPending_iff. tauto.
Qed.

(** C10. For every successful [processBankTransfer], whatever the
    requested amount: every stored commission is either kept as it was or
    marked paid, and each pending commission of the agent is marked paid;
    one more Commission record is stored after them, of type [payout],
    with status [paid] and the requested amount; and no Payout record is
    created. *)
Theorem bank_transfer_pays_all_pending
    (db : DB) (now : Date) (who : Auth.Principal) (agentId : IdParam)
    (amount : Q) (notes transferReference : option string)
    (db' : DB) (r : Response) :
  processBankTransfer db now who agentId amount notes transferReference
  = (db', r) ->
  statusCode r = 200 ->
  exists a updated payout,
    agentId = IdValid a
    /\ commissions db' = (updated ++ [payout])%list
    /\ Forall2
         (fun c c' =>
            (c' = c \/ c' = Commission.apply (markPaid now notes) c)
            /\ (Commission.agent c = a ->
                Commission.status c = Commission.pending ->
                Commission.status c' = Commission.paid))
         (commissions db) updated
    /\ Commission.type payout = Commission.payout
    /\ Commission.status payout = Commission.paid
    /\ Commission.amount payout = amount
    /\ Commission.agent payout = a
    /\ payouts db' = payouts db.
Proof.
  intros Hrun Hok. unfold processBankTransfer in Hrun.
  destruct agentId as [| |a];
    try (abort_branch Hrun Hok).
  - destruct (Qeq_bool amount 0);
      abort_branch Hrun Hok.
  - destruct (Qeq_bool amount 0);
      [abort_branch Hrun Hok|].
    destruct (findById User._id a (users db)) as [ag|];
      [|abort_branch Hrun Hok].
    destruct (negb (User.role_eqb (User.role ag) User.agent));
      [abort_branch Hrun Hok|].
    destruct (User.lacksBankDetails ag);
      [abort_branch Hrun Hok|].
    destruct (negb (User.bankVerified ag));
      [abort_branch Hrun Hok|].
    destruct (List.length (pendingOf a db) =? 0);
      [abort_branch Hrun Hok|].
    destruct (negb (Qle_bool amount (sumAmounts (pendingOf a db))));
      [abort_branch Hrun Hok|].
    destruct (commissionSchema db) eqn:Hschema;
      try (abort_branch Hrun Hok).
    simpl in Hrun. inversion Hrun; subst; clear Hrun. simpl.
    exists a. eexists. eexists.
    split; [reflexivity|]. split; [reflexivity|].
    split; [|simpl; repeat split; reflexivity].
    unfold updateMany. apply Forall2_map_In. intros c Hc.
    destruct (includes (map Commission._id (pendingOf a db)) (Commission._id c))
      eqn:E.
    + unfold writes. rewrite Hschema.
      split; [now right|]. reflexivity.
    + split; [now left|]. intros Ha Hp. exfalso.
      assert (Hin : In c (pendingOf a db)) by (apply pendingOf_In; auto).
      assert (includes (map Commission._id (pendingOf a db)) (Commission._id c)
              = true) by (apply includes_In; now apply in_map).
      congruence.
Qed.

(** Three pending commissions worth 25 and a requested amount of 5: all
    three are paid. *)
Lemma bank_transfer_pays_all_pending_witness :
  exists a updated payout,
    IdValid 1 = IdValid a
    /\ commissions
         (fst (processBankTransfer Example.threePending 7%Z
                 Example.administrator (IdValid 1) 5 None None))
       = (updated ++ [payout])%list
    /\ Forall2
         (fun c c' =>
            (c' = c \/ c' = Commission.apply (markPaid 7%Z None) c)
            /\ (Commission.agent c = a ->
                Commission.status c = Commission.pending ->
                Commission.status c' = Commission.paid))
         (commissions Example.threePending) updated
    /\ Commission.type payout = Commission.payout
    /\ Commission.status payout = Commission.paid
    /\ Commission.amount payout = 5%Q
    /\ Commission.agent payout = a
    /\ payouts
         (fst (processBankTransfer Example.threePending 7%Z
                 Example.administrator (IdValid 1) 5 None None))
       = payouts Example.threePending.
Proof.
  apply (bank_transfer_pays_all_pending Example.threePending 7%Z
           Example.administrator (IdValid 1) 5 None None _
           (snd (processBankTransfer Example.threePending 7%Z
                   Example.administrator (IdValid 1) 5 None None))).
  - apply surjective_pairing.
  - reflexivity.
Defined.

(** ** Bulk payout *)

(** The parts of the bulk payout that look at the pending commissions
    only: the reported total, the reported count, and the refusal when
    none of the given ids is pending. *)
Lemma bulk_payout_total (db : DB) (now : Date) (who : Auth.Principal)
    (ids : list ObjectId) (m : string) (n : option string)
    (db' : DB) (r : Response) :
  processBulkPayout db now who ids m n = (db', r) ->
  statusCode r = 200 ->
  data r
  = BulkPayoutData
      (List.length
         (find (fun c => includes ids (Commission._id c) && Commission.isPending c)
            (commissions db)))
      (sumAmounts
         (find (fun c => includes ids (Commission._id c) && Commission.isPending c)
            (commissions db)))
      m.
Proof.
  intros Hrun Hok. unfold processBulkPayout in Hrun.
  destruct (negb (isIn adminPayoutMethods m)); [abort_branch Hrun Hok|].
  destruct (List.length _ =? 0); [abort_branch Hrun Hok|].
  inversion Hrun; subst. reflexivity.
Qed.

Lemma bulk_payout_none_pending (db : DB) (now : Date) (who : Auth.Principal)
    (ids : list ObjectId) (m : string) (n : option string) :
  isIn adminPayoutMethods m = true ->
  (forall c, In c (commissions db) -> In (Commission._id c) ids ->
             Commission.status c <> Commission.pending) ->
  processBulkPayout db now who ids m n
  = (db, createErrorResponse 400 "No pending commissions found").
Proof.
  intros Hm H. unfold processBulkPayout. rewrite Hm. simpl.
  assert (E : find (fun c => includes ids (Commission._id c)
                             && Commission.isPending c) (commissions db) = []).
  { unfold find. induction (commissions db) as [|c l IH]; simpl; [reflexivity|].
    destruct (includes ids (Commission._id c)) eqn:Ei; simpl.
    - destruct (Commission.isPending c) eqn:Ep.
      + exfalso. apply (H c); [now left| |now apply isPending_iff].
        now apply includes_In.
      + apply IH. intros c' Hc'. apply H. now right.
    - apply IH. intros c' Hc'. apply H. now right. }
  rewrite E. reflexivity.
Qed.

(** C3 (what the code does). A bulk payout over the ids of one pending
    and one cancelled commission reports one commission and a total of
    10, the pending one's amount, and leaves both commissions paid: the
    status update selects by id alone. *)
Theorem bulk_payout_pays_cancelled :
  let run :=
    processBulkPayout Example.pendingAndCancelled 7%Z Example.administrator
      [11; 12] "manual" None in
  map Commission.status (commissions Example.pendingAndCancelled)
  = [Commission.pending; Commission.cancelled]
  /\ data (snd run) = BulkPayoutData 1 (0 + 10) "manual"
  /\ map Commission.status (commissions (fst run))
     = [Commission.paid; Commission.paid].
Proof. repeat split. Qed.

(** ** Refund *)

Section UpdateById.
Context {A : Type} (id_of : A -> ObjectId).

Lemma findById_findByIdAndUpdate (f : A -> A) (i : ObjectId) (l : list A) :
  (forall d, id_of (f d) = id_of d) ->
  findById id_of i (findByIdAndUpdate id_of i f l)
  = option_map f (findById id_of i l).
Proof.
  intros Hf. unfold findById, findByIdAndUpdate, findOne.
  induction l as [|d r IH]; simpl; [reflexivity|].
  destruct (id_of d =? i) eqn:E; simpl.
  - now rewrite Hf, E.
  - now rewrite E.
Qed.

Lemma findById_id (i : ObjectId) (l : list A) (d : A) :
  findById id_of i l = Some d -> id_of d = i.
Proof.
  intros H. apply findOne_some in H. destruct H as [_ H].
  now apply Nat.eqb_eq in H.
Qed.
End UpdateById.

(** C7. The claim fails on the store that the webhook leaves.  After
    B's purchase the payment (id 100) has two pending commissions of A
    (ids 101 and 102).  The refund of that payment goes through: it
    stores the payment as refunded and cancels commission 101, and it
    leaves commission 102 pending, the one pending commission of A
    afterwards, which a bulk payout then pays. *)
Theorem refund_leaves_second_commission_pending :
  map (fun c => (Commission._id c, Commission.payment c, Commission.status c))
    (commissions Example.afterWebhook)
  = [(101, Some 100, Commission.pending); (102, Some 100, Commission.pending)]
  /\ statusCode
       (snd (processRefund Example.afterWebhook 7%Z Example.administrator
               (IdValid 100) "asked" (Some Example.refund))) = 200
  /\ map Payment.status (payments Example.afterRefund) = [Payment.refunded]
  /\ map (fun c => (Commission._id c, Commission.payment c,
                    Commission.status c))
       (commissions Example.afterRefund)
     = [(101, Some 100, Commission.cancelled);
        (102, Some 100, Commission.pending)]
  /\ map Commission._id (pendingOf 1 Example.afterRefund) = [102]
  /\ statusCode
       (snd (processBulkPayout Example.afterRefund 8%Z Example.administrator
               [102] "manual" None)) = 200
  /\ map Commission.status
       (commissions
          (fst (processBulkPayout Example.afterRefund 8%Z
                  Example.administrator [102] "manual" None)))
     = [Commission.cancelled; Commission.paid].
Proof. repeat split. Qed.

(** C9. For a validated refund request: a refund of a payment whose
    status is not [completed] is refused with the 400 answer "Payment is
    not completed" and changes nothing,
    whatever the provider would have answered; and when the provider's
    refund call fails, the refund of a completed payment ends in the 500
    answer with the store exactly as it was, so the payment, its
    commission and the agent's totals are untouched. *)
Theorem refund_invalid_state_and_provider_failure
    (db : DB) (now : Date) (who : Auth.Principal) (reason : string) :
  truthy reason = true ->
  (forall paymentId payment refund,
     findById Payment._id paymentId (payments db) = Some payment ->
     Payment.status payment <> Payment.completed ->
     processRefund db now who (IdValid paymentId) reason refund
     = (db, createErrorResponse 400 "Payment is not completed"))
  /\ (forall paymentId payment,
        findById Payment._id paymentId (payments db) = Some payment ->
        Payment.status payment = Payment.completed ->
        processRefund db now who (IdValid paymentId) reason None
        = (db, serverError)).
Proof.
  intros Hreason. unfold processRefund. rewrite Hreason. simpl. split.
  - intros paymentId payment refund Hpay Hst. rewrite Hpay.
    destruct (Payment.status payment); simpl; try reflexivity.
    congruence.
  - intros paymentId payment Hpay Hst. rewrite Hpay, Hst. reflexivity.
Qed.

(** A second refund of the payment refunded in the scenario is refused,
    and a failing provider call leaves the sold store as it was. *)
Lemma refund_invalid_state_and_provider_failure_witness :
  processRefund Example.refunded 8%Z Example.administrator (IdValid 21)
    "again" (Some Example.refund)
  = (Example.refunded, createErrorResponse 400 "Payment is not completed")
  /\ processRefund (Example.sold Commission.pending) 7%Z
       Example.administrator (IdValid 21) "asked" None
     = (Example.sold Commission.pending, serverError).
Proof.
  split.
  - eapply (proj1 (refund_invalid_state_and_provider_failure
                     Example.refunded 8%Z Example.administrator "again"
                     eq_refl)).
    + reflexivity.
    + simpl. discriminate.
  - eapply (proj2 (refund_invalid_state_and_provider_failure
                     (Example.sold Commission.pending) 7%Z
                     Example.administrator "asked" eq_refl)).
    + reflexivity.
    + reflexivity.
Defined.

(** Whatever the request, a failed provider call leaves the store as it
    was. *)
Lemma refund_provider_failure_no_change (db : DB) (now : Date)
    (who : Auth.Principal) (paymentId : IdParam) (reason : string) :
  fst (processRefund db now who paymentId reason None) = db
  /\ statusCode (snd (processRefund db now who paymentId reason None)) <> 200.
Proof.
  unfold processRefund.
  destruct (negb (truthy reason)); [split; [reflexivity|discriminate]|].
  destruct paymentId as [| |i]; simpl; try (split; [reflexivity|discriminate]).
  destruct (findById Payment._id i (payments db)) as [p|]; simpl;
    try (split; [reflexivity|discriminate]).
  destruct (negb _); simpl; split; try reflexivity; discriminate.
Qed.

(** ** Payment events *)

(** C1 (what the code does). The webhook for B's first purchase, B being
    referred by the approved agent A: the transaction is new, one payment
    (id 100) is stored, and two pending commissions are stored for it,
    one by each of the handler's two commission blocks.  The manual
    confirmation of the same purchase on the same store creates one. *)
Theorem webhook_creates_two_commissions :
  let db := Example.start (Example.agent 10 true) in
  let db' := fst (handleWebhook db 5%Z None (Some Example.succeeded)) in
  let db'' :=
    fst (manualPaymentConfirm db 5%Z Example.buyerPrincipal "tx_1" (IdValid 3)
           (Some Example.intent)) in
  findOne (hasTransaction "tx_1") (payments db) = None
  /\ commissions db = []
  /\ map Payment._id (payments db') = [100]
  /\ map (fun c => (Commission._id c, Commission.payment c, Commission.status c))
       (commissions db')
     = [(101, Some 100, Commission.pending);
        (102, Some 100, Commission.pending)]
  /\ map (fun c => (Commission._id c, Commission.payment c, Commission.status c))
       (commissions db'')
     = [(101, Some 100, Commission.pending)].
Proof. repeat split. Qed.

(** C8 (what the code does). The same purchase of 100 when the approved
    agent's rate is 0 and no default percentage is configured: the first
    commission has amount 100 * 0 / 100, the second has amount 10, the
    amount at the fallback rate of 10. *)
Theorem webhook_zero_rate_commission :
  let db := Example.start (Example.agent 0 true) in
  let db' := fst (handleWebhook db 5%Z None (Some Example.succeeded)) in
  exists p c1 c2,
    payments db' = [p]
    /\ commissions db' = [c1; c2]
    /\ (Payment.amount p == 100)%Q
    /\ Commission.status c1 = Commission.pending
    /\ Commission.status c2 = Commission.pending
    /\ (Commission.amount c1 == Payment.amount p * 0 / 100)%Q
    /\ (Commission.amount c2 == 10)%Q
    /\ ~ (Commission.amount c2 == Payment.amount p * 0 / 100)%Q.
Proof.
  do 3 eexists. repeat split; try reflexivity.
  intros H. vm_compute in H. discriminate.
Qed.

(** No stored payment is found by its transaction id. *)
Lemma no_stored_transaction (t : string) (l : list Payment.t) :
  findOne (hasTransaction t) l = None.
Proof.
  unfold findOne. induction l as [|p r IH]; [reflexivity|exact IH].
Qed.

(** C2. The claim fails on the manual-confirmation path.  The manual
    confirmation of B's purchase [tx_1] stores payment 100 and commission
    101.  The same confirmation sent again is answered with 200 and
    stores a second payment and a second commission for the one
    transaction; so is the manual confirmation of [tx_1] that follows
    the webhook for [tx_1], which leaves two payments and three
    commissions. *)
Theorem manual_confirm_duplicate_stored_again :
  map Payment._id (payments Example.confirmed) = [100]
  /\ map Commission._id (commissions Example.confirmed) = [101]
  /\ statusCode
       (snd (manualPaymentConfirm Example.confirmed 6%Z Example.buyerPrincipal
               "tx_1" (IdValid 3) (Some Example.intent))) = 200
  /\ map Payment._id
       (payments
          (fst (manualPaymentConfirm Example.confirmed 6%Z
                  Example.buyerPrincipal "tx_1" (IdValid 3)
                  (Some Example.intent))))
     = [100; 102]
  /\ map (fun c => (Commission._id c, Commission.payment c))
       (commissions
          (fst (manualPaymentConfirm Example.confirmed 6%Z
                  Example.buyerPrincipal "tx_1" (IdValid 3)
                  (Some Example.intent))))
     = [(101, Some 100); (103, Some 102)]
  /\ statusCode
       (snd (manualPaymentConfirm Example.afterWebhook 6%Z
               Example.buyerPrincipal "tx_1" (IdValid 3)
               (Some Example.intent))) = 200
  /\ map Payment._id
       (payments
          (fst (manualPaymentConfirm Example.afterWebhook 6%Z
                  Example.buyerPrincipal "tx_1" (IdValid 3)
                  (Some Example.intent))))
     = [100; 103]
  /\ map (fun c => (Commission._id c, Commission.payment c))
       (commissions
          (fst (manualPaymentConfirm Example.afterWebhook 6%Z
                  Example.buyerPrincipal "tx_1" (IdValid 3)
                  (Some Example.intent))))
     = [(101, Some 100); (102, Some 100); (104, Some 103)].
Proof. repeat split. Qed.

(** ** Terminal states *)

Lemma keeps_refl (l : list Commission.t) : Forall2 keeps l l.
Proof. induction l; constructor; [split; auto|assumption]. Qed.

Lemma keeps_updateMany (q : ObjectId -> bool) (u : Commission.Update)
    (l l' : list Commission.t) :
  Forall2 keeps l l' ->
  (forall c, In c l -> q (Commission._id c) = true ->
             Commission.terminal (Commission.status c) = false) ->
  Forall2 keeps l
    (updateMany (fun c => q (Commission._id c)) (Commission.apply u) l').
Proof.
  unfold updateMany.
  induction 1 as [|c c' l l' [Hid Hst] HF IH]; intros Hq; simpl; constructor.
  - destruct (q (Commission._id c')) eqn:E; [|split; assumption].
    split; [exact Hid|]. intros Ht.
    rewrite Hid in E. rewrite (Hq c (or_introl eq_refl) E) in Ht. discriminate.
  - apply IH. intros x Hx. apply Hq. now right.
Qed.

Lemma keeps_findByIdAndUpdate (i : ObjectId) (u : Commission.Update)
    (l l' : list Commission.t) :
  Forall2 keeps l l' ->
  (forall c, In c l -> Commission._id c = i ->
             Commission.terminal (Commission.status c) = false) ->
  Forall2 keeps l
    (findByIdAndUpdate Commission._id i (Commission.apply u) l').
Proof.
  unfold findByIdAndUpdate.
  induction 1 as [|c c' l l' [Hid Hst] HF IH]; intros Hq; simpl;
    [constructor|].
  destruct (Nat.eqb_spec (Commission._id c') i) as [E|E].
  - constructor; [|exact HF]. split; [exact Hid|]. intros Ht.
    rewrite Hid in E. rewrite (Hq c (or_introl eq_refl) E) in Ht. discriminate.
  - constructor; [split; assumption|].
    apply IH. intros x Hx. apply Hq. now right.
Qed.

Lemma keepsTerminal_intro (db db' : DB) (kept added : list Commission.t) :
  commissions db' = (kept ++ added)%list ->
  Forall2 keeps (commissions db) kept ->
  keepsTerminal db db'.
Proof.
  intros E HF n c Hn Ht. rewrite E. clear E.
  revert n Hn. induction HF as [|x x' l l' [Hid Hst] HF IH]; intros n Hn.
  - destruct n; discriminate.
  - destruct n as [|n]; simpl in *.
    + inversion Hn; subst. exists x'. auto.
    + now apply IH.
Qed.

Lemma NoDup_id_inj (l : list Commission.t) (c d : Commission.t) :
  NoDup (map Commission._id l) -> In c l -> In d l ->
  Commission._id c = Commission._id d -> c = d.
Proof.
  induction l as [|x r IH]; simpl; intros Hnd Hc Hd E; [contradiction|].
  inversion Hnd as [|? ? Hx Hr]; subst.
  destruct Hc as [->|Hc], Hd as [->|Hd]; auto.
  - exfalso. apply Hx. rewrite E. now apply in_map.
  - exfalso. apply Hx. rewrite <- E. now apply in_map.
Qed.

(** Ids drawn from pending commissions of a store with unique ids name
    no commission in a terminal state. *)
Lemma pending_ids_not_terminal (db : DB) (sel : list Commission.t) :
  NoDup (map Commission._id (commissions db)) ->
  (forall s, In s sel ->
     In s (commissions db) /\ Commission.status s = Commission.pending) ->
  forall c, In c (commissions db) ->
    includes (map Commission._id sel) (Commission._id c) = true ->
    Commission.terminal (Commission.status c) = false.
Proof.
  intros Hnd Hsel c Hc Hi.
  apply includes_In, in_map_iff in Hi. destruct Hi as (s & E & Hs).
  destruct (Hsel s Hs) as [Hin Hp].
  rewrite <- (NoDup_id_inj _ s c Hnd Hin Hc E), Hp. reflexivity.
Qed.

Lemma commissions_createCommission (db : DB) (user : User.t)
    (userId : ObjectId) (payment : Payment.t) :
  exists added,
    commissions (createCommission db user userId payment)
    = (commissions db ++ added)%list.
Proof.
  unfold createCommission.
  destruct (User.referredBy user) as [a|];
    [|exists []; now rewrite app_nil_r].
  destruct (findById User._id a (users db)) as [ag|];
    [|exists []; now rewrite app_nil_r].
  destruct (User.role_eqb (User.role ag) User.agent);
    [|exists []; now rewrite app_nil_r].
  eexists. reflexivity.
Qed.

Lemma commissions_handleReferralCommission (db : DB) (env : option Q)
    (user : User.t) (userId : ObjectId) (payment : Payment.t) (amount : Q) :
  exists added,
    commissions (handleReferralCommission db env user userId payment amount)
    = (commissions db ++ added)%list.
Proof.
  unfold handleReferralCommission.
  destruct (User.referredBy user) as [a|];
    [|exists []; now rewrite app_nil_r].
  destruct (findById User._id a (users db)) as [ag|];
    [|exists []; now rewrite app_nil_r].
  destruct (User.role_eqb (User.role ag) User.agent && User.isActiveAgent ag);
    [|exists []; now rewrite app_nil_r].
  eexists. reflexivity.
Qed.

(** The two confirmation paths only add commissions. *)
Lemma commissions_handleWebhook (db : DB) (now : Date) (env : option Q)
    (event : option Stripe.Event) :
  exists added,
    commissions (fst (handleWebhook db now env event))
    = (commissions db ++ added)%list.
Proof.
  assert (Hsame : exists added, commissions db = (commissions db ++ added)%list)
    by (exists []; now rewrite app_nil_r).
  unfold handleWebhook.
  destruct event as [e|]; [|exact Hsame].
  destruct (Stripe.type e); [| |exact Hsame].
  - destruct (Stripe.metadata_userId (Stripe.object e)) as [| |u];
      destruct (Stripe.metadata_courseId (Stripe.object e)) as [| |c];
      try exact Hsame;
      destruct (findById User._id u (users db)) as [user|]; try exact Hsame.
    destruct (findById Course._id c (courses db)); [|exact Hsame].
    destruct (findOne _ (payments db)); [exact Hsame|].
    destruct (includes (User.coursesEnrolled user) c); [exact Hsame|].
    simpl.
    match goal with
    | |- context [handleReferralCommission ?d ?e ?us ?ui ?p ?a] =>
        destruct (commissions_handleReferralCommission d e us ui p a)
          as [added2 H2]
    end.
    rewrite H2. unfold enroll. simpl.
    match goal with
    | |- context [createCommission ?d ?us ?ui ?p] =>
        destruct (commissions_createCommission d us ui p) as [added1 H1]
    end.
    rewrite H1. simpl. exists (added1 ++ added2)%list. now rewrite app_assoc.
  - destruct (Stripe.metadata_userId (Stripe.object e)) as [| |u];
      destruct (Stripe.metadata_courseId (Stripe.object e)) as [| |c];
      exact Hsame.
Qed.

Lemma commissions_manualPaymentConfirm (db : DB) (now : Date)
    (who : Auth.Principal) (t : string) (courseId : IdParam)
    (retrieved : option Stripe.PaymentIntent) :
  exists added,
    commissions (fst (manualPaymentConfirm db now who t courseId retrieved))
    = (commissions db ++ added)%list.
Proof.
  assert (Hsame : exists added, commissions db = (commissions db ++ added)%list)
    by (exists []; now rewrite app_nil_r).
  unfold manualPaymentConfirm.
  destruct (negb (truthy t)); [exact Hsame|].
  destruct courseId as [| |c]; try exact Hsame;
    destruct retrieved as [pi|]; try exact Hsame;
    destruct (negb (Stripe.status pi =? "succeeded")%string);
    try exact Hsame.
  destruct (findById User._id (Auth.userId who) (users db)) as [user|];
    [|exact Hsame].
  destruct (findById Course._id c (courses db)); [|exact Hsame].
  destruct (findOne _ (payments db)); [exact Hsame|].
  simpl. unfold enroll. simpl.
  match goal with
  | |- context [createCommission ?d ?us ?ui ?p] =>
      destruct (commissions_createCommission d us ui p) as [added1 H1]
  end.
  rewrite H1. simpl. now exists added1.
Qed.

Lemma limit_In {A : Type} (n : Z) (l : list A) (x : A) :
  In x (limit n l) -> In x l.
Proof.
  unfold limit. destruct (n =? 0)%Z; [auto|].
  generalize (Z.abs_nat n). intros k. revert l.
  induction k as [|k IH]; intros [|y r]; simpl; try contradiction.
  intros [->|H]; [now left|right; now apply IH].
Qed.

Lemma refund_keeps (db : DB) (now : Date) (who : Auth.Principal)
    (paymentId : IdParam) (reason : string) (refund : option Stripe.Refund) :
  NoDup (map Commission._id (commissions db)) ->
  Forall2 keeps (commissions db)
    (commissions (fst (processRefund db now who paymentId reason refund))).
Proof.
  intros Hnd. unfold processRefund.
  destruct (negb (truthy reason)); [apply keeps_refl|].
  destruct paymentId as [| |i]; try apply keeps_refl.
  destruct (findById Payment._id i (payments db)) as [p|]; [|apply keeps_refl].
  destruct (negb _); [apply keeps_refl|].
  destruct refund as [r|]; [|apply keeps_refl].
  simpl. destruct (Payment.referralAgent p) as [a|]; [|apply keeps_refl].
  simpl.
  destruct (findOne (refersTo (Payment._id p)) (commissions db)) as [c|] eqn:Hc;
    [|apply keeps_refl].
  destruct (Commission.isPending c) eqn:Hp; [|apply keeps_refl].
  simpl. apply keeps_findByIdAndUpdate; [apply keeps_refl|].
  intros x Hx E. destruct (findOne_some _ _ _ Hc) as [Hin _].
  rewrite (NoDup_id_inj _ x c Hnd Hx Hin E).
  apply isPending_iff in Hp. now rewrite Hp.
Qed.

Lemma manual_payout_keeps (db : DB) (now : Date) (who : Auth.Principal)
    (agentId : IdParam) (amount : Q) (paymentMethod : string)
    (notes : option string) :
  NoDup (map Commission._id (commissions db)) ->
  Forall2 keeps (commissions db)
    (commissions
       (fst (processManualPayout db now who agentId amount paymentMethod notes))).
Proof.
  intros Hnd. unfold processManualPayout.
  destruct agentId as [| |a]; try apply keeps_refl;
    destruct (Qeq_bool amount 0 || negb (truthy paymentMethod));
    try apply keeps_refl.
  destruct (findById User._id a (users db)) as [ag|]; [|apply keeps_refl].
  destruct (negb (User.role_eqb (User.role ag) User.agent)); [apply keeps_refl|].
  destruct (User.lacksBankDetails ag); [apply keeps_refl|].
  destruct ((paymentMethod =? "bank_transfer")%string
            && negb (User.bankVerified ag)); [apply keeps_refl|].
  destruct (List.length (pendingOf a db) =? 0); [apply keeps_refl|].
  destruct (negb (Qle_bool amount (sumAmounts (pendingOf a db))));
    [apply keeps_refl|].
  destruct (selectCommissions_split (pendingOf a db) amount [] 0%Q)
    as (sel & rest & Hsplit & Hsel & _).
  rewrite Hsel. cbv beta iota zeta. rewrite app_nil_l.
  assert (Hq : forall c, In c (commissions db) ->
             includes (map Commission._id sel) (Commission._id c) = true ->
             Commission.terminal (Commission.status c) = false).
  { apply pending_ids_not_terminal; [exact Hnd|].
    intros s Hs.
    assert (Hin : In s (pendingOf a db))
      by (rewrite Hsplit; apply in_or_app; now left).
    apply pendingOf_In in Hin. tauto. }
  unfold writes.
  destruct (negb (isIn Payout.paymentMethods paymentMethod)); simpl.
  - apply (keeps_updateMany (includes (map Commission._id sel)));
      [apply keeps_refl|exact Hq].
  - apply (keeps_updateMany (includes (map Commission._id sel))); [|exact Hq].
    apply (keeps_updateMany (includes (map Commission._id sel))); [|exact Hq].
    apply keeps_refl.
Qed.

Lemma bank_transfer_keeps (db : DB) (now : Date) (who : Auth.Principal)
    (agentId : IdParam) (amount : Q) (notes transferReference : option string) :
  NoDup (map Commission._id (commissions db)) ->
  exists kept added,
    commissions
      (fst (processBankTransfer db now who agentId amount notes
              transferReference))
    = (kept ++ added)%list
    /\ Forall2 keeps (commissions db) kept.
Proof.
  intros Hnd.
  assert (Hsame : exists kept added,
            commissions db = (kept ++ added)%list
            /\ Forall2 keeps (commissions db) kept).
  { exists (commissions db), []. rewrite app_nil_r.
    split; [reflexivity|apply keeps_refl]. }
  unfold processBankTransfer.
  destruct agentId as [| |a]; try exact Hsame;
    destruct (Qeq_bool amount 0); try exact Hsame.
  destruct (findById User._id a (users db)) as [ag|]; [|exact Hsame].
  destruct (negb (User.role_eqb (User.role ag) User.agent)); [exact Hsame|].
  destruct (User.lacksBankDetails ag); [exact Hsame|].
  destruct (negb (User.bankVerified ag)); [exact Hsame|].
  destruct (List.length (pendingOf a db) =? 0); [exact Hsame|].
  destruct (negb (Qle_bool amount (sumAmounts (pendingOf a db))));
    [exact Hsame|].
  assert (Hq : forall c, In c (commissions db) ->
             includes (map Commission._id (pendingOf a db)) (Commission._id c)
             = true ->
             Commission.terminal (Commission.status c) = false).
  { apply pending_ids_not_terminal; [exact Hnd|].
    intros s Hs. apply pendingOf_In in Hs. tauto. }
  unfold writes.
  destruct (negb (Commission.savesPayoutRecord (commissionSchema db))); simpl.
  - eexists. exists []. rewrite app_nil_r. split; [reflexivity|].
    apply (keeps_updateMany (includes (map Commission._id (pendingOf a db))));
      [apply keeps_refl|exact Hq].
  - eexists. eexists. split; [reflexivity|].
    apply (keeps_updateMany (includes (map Commission._id (pendingOf a db))));
      [apply keeps_refl|exact Hq].
Qed.

Lemma payFitting_keeps (schema : Commission.Schema) (now : Date) (m : string)
    (amount : Q) (l : list Commission.t) (todo : list Commission.t) :
  (forall c x, In c todo -> In x l ->
     Commission._id x = Commission._id c ->
     Commission.terminal (Commission.status x) = false) ->
  forall tot stored,
    Forall2 keeps l stored ->
    Forall2 keeps l (fst (payFitting schema now m amount todo tot stored)).
Proof.
  induction todo as [|c r IH]; intros Hq tot stored HF; simpl; [exact HF|].
  assert (Hr : forall c0 x, In c0 r -> In x l ->
             Commission._id x = Commission._id c0 ->
             Commission.terminal (Commission.status x) = false)
    by (intros c0 x Hc0; apply Hq; now right).
  destruct (Qle_bool (tot + Commission.amount c) amount).
  - apply IH; [exact Hr|].
    apply keeps_findByIdAndUpdate; [exact HF|].
    intros x Hx E. apply (Hq c x); auto. now left.
  - apply IH; assumption.
Qed.

Lemma request_payout_keeps (db : DB) (now : Date) (who : Auth.Principal)
    (amount : Q) (payoutMethod : string) :
  NoDup (map Commission._id (commissions db)) ->
  Forall2 keeps (commissions db)
    (commissions (fst (requestPayout db now who amount payoutMethod))).
Proof.
  intros Hnd. unfold requestPayout.
  destruct (negb (isIn agentPayoutMethods payoutMethod)); [apply keeps_refl|].
  destruct (findById User._id (Auth.userId who) (users db)) as [u|];
    [|apply keeps_refl].
  destruct (negb (User.role_eqb (User.role u) User.agent)); [apply keeps_refl|].
  destruct (negb (User.isActiveAgent u)); [apply keeps_refl|].
  destruct (negb (Qle_bool amount _)); [apply keeps_refl|].
  pose proof (payFitting_keeps (commissionSchema db) now payoutMethod amount
                (commissions db)
                (limit (Qceiling (amount / 10)) (pendingOf (User._id u) db)))
    as H.
  destruct (payFitting _ now payoutMethod amount _ 0%Q (commissions db))
    as [stored tot] eqn:E.
  simpl. specialize (H ltac:(
    intros c x Hc Hx Eid; apply limit_In, pendingOf_In in Hc;
    destruct Hc as (Hin & _ & Hp);
    rewrite (NoDup_id_inj _ x c Hnd Hx Hin Eid), Hp; reflexivity)
    0%Q (commissions db) (keeps_refl _)).
  now rewrite E in H.
Qed.

Lemma create_request_keeps (db : DB) (now : Date) (who : Auth.Principal)
    (amount : Q) (notes : option string) (ids : option (list ObjectId)) :
  commissions (fst (createPayoutRequest db now who amount notes ids))
  = commissions db.
Proof.
  unfold createPayoutRequest.
  destruct (Auth._id who) as [a|]; [|reflexivity].
  destruct (findById User._id a (users db)) as [ag|]; [|reflexivity].
  destruct (User.lacksBankDetails ag); [reflexivity|].
  destruct (_ && _); [reflexivity|].
  destruct (negb (Qle_bool 0 amount)); reflexivity.
Qed.

(** C5 (amended). In a store whose commission ids are unique, the two
    payment-confirmation paths, the refund, the manual payout, the bank
    transfer, the creation of a payout request and the agent's payout
    request leave every [paid] or [cancelled] commission stored with the
    status it had. *)
Theorem terminal_states_kept (now : Date) (op : Op) (db : DB) :
  filtersPending op = true ->
  NoDup (map Commission._id (commissions db)) ->
  keepsTerminal db (fst (run now op db)).
Proof.
  intros Hop Hnd.
  destruct op; simpl in Hop; try discriminate; simpl.
  - destruct (commissions_handleWebhook db now env event) as [added H].
    apply (keepsTerminal_intro _ _ _ _ H), keeps_refl.
  - destruct (commissions_manualPaymentConfirm db now who paymentIntentId
                courseId retrieved) as [added H].
    apply (keepsTerminal_intro _ _ _ _ H), keeps_refl.
  - apply (keepsTerminal_intro _ _ _ [] (eq_sym (app_nil_r _))).
    now apply refund_keeps.
  - apply (keepsTerminal_intro _ _ _ [] (eq_sym (app_nil_r _))).
    now apply manual_payout_keeps.
  - destruct (bank_transfer_keeps db now who agentId amount notes
                transferReference Hnd) as (kept & added & H & HF).
    apply (keepsTerminal_intro _ _ _ _ H HF).
  - apply (keepsTerminal_intro _ _ (commissions db) []).
    + rewrite app_nil_r. apply create_request_keeps.
    + apply keeps_refl.
  - apply (keepsTerminal_intro _ _ _ [] (eq_sym (app_nil_r _))).
    now apply request_payout_keeps.
Qed.

(** Refunding a payment whose commission is already paid: the commission
    stays stored as paid. *)
Lemma terminal_states_kept_witness :
  exists c',
    nth_error
      (commissions
         (fst (run 7%Z
                 (Refund Example.administrator (IdValid 21) "asked"
                    (Some Example.refund))
                 (Example.sold Commission.paid)))) 0
    = Some c'
    /\ Commission._id c' = 11
    /\ Commission.status c' = Commission.paid.
Proof.
  apply (terminal_states_kept 7%Z
           (Refund Example.administrator (IdValid 21) "asked"
              (Some Example.refund))
           (Example.sold Commission.paid) eq_refl
           ltac:(simpl; repeat constructor; simpl; intuition discriminate)
           0 (Example.commissionOf 11 21 10 Commission.paid)
           eq_refl eq_refl).
Defined.

(** C5 (as stated) fails: [updateCommissionStatus] puts a paid
    commission back to pending, and the [update-commission-status] bulk
    action turns it into a cancelled one. *)
Lemma terminal_state_overwritten :
  ~ keepsTerminal Example.onePaid
      (fst (run 7%Z
              (UpdateStatus Example.administrator (IdValid 11)
                 Commission.pending None None)
              Example.onePaid))
  /\ ~ keepsTerminal Example.onePaid
         (fst (run 7%Z
                 (BulkActions Example.administrator "update-commission-status"
                    [11] (Some (Some Commission.cancelled)))
                 Example.onePaid)).
Proof.
  split; intros H;
    destruct (H 0 (Example.commissionOf 11 21 10 Commission.paid)
                eq_refl eq_refl) as (c' & Hn & _ & Hs);
    vm_compute in Hn; inversion Hn; subst; discriminate.
Qed.

(** ** Payout requests *)

(** C4. The claim fails for [requestPayout], the agent's payout request.
    A's request for 10 against three pending commissions is answered
    with 200 and "Payout request submitted successfully"; the request
    itself stores commission 11 as paid, and it stores no PayoutRequest
    record for an administrator to approve. *)
Theorem request_payout_marks_paid :
  snd (requestPayout Example.threePending 7%Z Example.agentPrincipal 10
         "bank_transfer")
  = createSuccessResponse (RequestPayoutData 10 "bank_transfer" 1)
      "Payout request submitted successfully"
  /\ map Commission.status (commissions Example.threePending)
     = [Commission.pending; Commission.pending; Commission.pending]
  /\ map Commission.status
       (commissions
          (fst (requestPayout Example.threePending 7%Z Example.agentPrincipal
                  10 "bank_transfer")))
     = [Commission.paid; Commission.pending; Commission.pending]
  /\ payoutRequests
       (fst (requestPayout Example.threePending 7%Z Example.agentPrincipal 10
               "bank_transfer"))
     = [].
Proof. repeat split. Qed.

(** ** Commissions created by the confirmation paths *)

Lemma findById_user_update (f : User.t -> User.t) (i j : ObjectId)
    (l : list User.t) :
  (forall d, User._id (f d) = User._id d) ->
  findById User._id i (findByIdAndUpdate User._id j f l)
  = option_map (fun d => if i =? j then f d else d) (findById User._id i l).
Proof.
  intros Hf. destruct (Nat.eqb_spec i j) as [->|Hij].
  - now apply findById_findByIdAndUpdate.
  - unfold findById, findByIdAndUpdate, findOne.
    induction l as [|d r IH]; simpl; [reflexivity|].
    destruct (Nat.eqb_spec (User._id d) j) as [E|E]; simpl.
    + rewrite Hf.
      destruct (Nat.eqb_spec (User._id d) i) as [E'|E']; [congruence|].
      destruct (List.find _ r); reflexivity.
    + destruct (User._id d =? i); [reflexivity|exact IH].
Qed.

(** The first commission block: with a referrer whose role is [agent] it
    stores one pending commission of amount [payment.amount * R / 100]. *)
Lemma createCommission_agent (db : DB) (user : User.t) (userId : ObjectId)
    (payment : Payment.t) (a : ObjectId) (ag : User.t) :
  User.referredBy user = Some a ->
  findById User._id a (users db) = Some ag ->
  User.role ag = User.agent ->
  exists c,
    commissions (createCommission db user userId payment)
    = (commissions db ++ [c])%list
    /\ users (createCommission db user userId payment) = users db
    /\ Commission.status c = Commission.pending
    /\ Commission.agent c = a
    /\ Commission.payment c = Some (Payment._id payment)
    /\ (Commission.amount c
        == Payment.amount payment * User.commissionRate ag / 100)%Q.
Proof.
  intros Hr Ha Hrole. unfold createCommission. rewrite Hr, Ha, Hrole. simpl.
  eexists. repeat split; reflexivity.
Qed.

(** The manual confirmation of a new transaction by a user referred by
    an agent stores exactly one commission for the new payment, pending,
    of amount [payment.amount * R / 100]. *)
Lemma manual_confirm_one_commission (db : DB) (now : Date)
    (who : Auth.Principal) (t : string) (c : ObjectId)
    (pi : Stripe.PaymentIntent) (user : User.t) (course : Course.t)
    (a : ObjectId) (ag : User.t) :
  truthy t = true ->
  Stripe.status pi = "succeeded" ->
  findById User._id (Auth.userId who) (users db) = Some user ->
  findById Course._id c (courses db) = Some course ->
  findOne (hasTransaction t) (payments db) = None ->
  User.referredBy user = Some a ->
  findById User._id a (users db) = Some ag ->
  User.role ag = User.agent ->
  exists co,
    commissions
      (fst (manualPaymentConfirm db now who t (IdValid c) (Some pi)))
    = (commissions db ++ [co])%list
    /\ Commission.status co = Commission.pending
    /\ Commission.payment co = Some (nextId db)
    /\ (Commission.amount co
        == Stripe.amount pi / 100 * User.commissionRate ag / 100)%Q.
Proof.
  intros Ht Hs Hu Hc Hp Hr Ha Hrole. unfold manualPaymentConfirm.
  rewrite Ht, Hs, Hu, Hc, Hp. simpl. unfold enroll. simpl.
  match goal with
  | |- context [createCommission ?d ?us ?ui ?p] =>
      destruct (createCommission_agent d us ui p a ag Hr Ha Hrole)
        as (co & H1 & _ & H3 & _ & H5 & H6)
  end.
  exists co. rewrite H1. simpl. repeat split; assumption.
Qed.

(** The webhook for a new transaction of a user referred by an agent:
    the first block stores a pending commission of amount
    [payment.amount * R / 100]; when the agent is approved the last
    block stores a second pending commission for the same payment, of
    amount [payment.amount * (R || default) / 100]. *)
Lemma webhook_commissions (db : DB) (now : Date) (env : option Q)
    (e : Stripe.Event) (u c : ObjectId) (user : User.t) (course : Course.t)
    (a : ObjectId) (ag : User.t) :
  Stripe.type e = Stripe.payment_intent_succeeded ->
  Stripe.metadata_userId (Stripe.object e) = IdValid u ->
  Stripe.metadata_courseId (Stripe.object e) = IdValid c ->
  findById User._id u (users db) = Some user ->
  findById Course._id c (courses db) = Some course ->
  findOne (hasTransaction (Stripe.id (Stripe.object e))) (payments db) = None ->
  includes (User.coursesEnrolled user) c = false ->
  User.referredBy user = Some a ->
  findById User._id a (users db) = Some ag ->
  User.role ag = User.agent ->
  exists c1,
    Commission.status c1 = Commission.pending
    /\ Commission.payment c1 = Some (nextId db)
    /\ (Commission.amount c1
        == Stripe.amount (Stripe.object e) / 100 * User.commissionRate ag / 100)%Q
    /\ (User.isActiveAgent ag = false ->
        commissions (fst (handleWebhook db now env (Some e)))
        = (commissions db ++ [c1])%list)
    /\ (User.isActiveAgent ag = true ->
        exists c2,
          commissions (fst (handleWebhook db now env (Some e)))
          = (commissions db ++ [c1; c2])%list
          /\ Commission.status c2 = Commission.pending
          /\ Commission.payment c2 = Some (nextId db)
          /\ (Commission.amount c2
              == Stripe.amount (Stripe.object e) / 100
                 * (orDefault (User.commissionRate ag)
                      (envCommissionPercentage env) / 100))%Q).
Proof.
  intros Ht Hu Hc Huser Hcourse Hp Hen Hr Ha Hrole. unfold handleWebhook.
  rewrite Ht, Hu, Hc, Huser, Hcourse, Hp, Hen. simpl.
  unfold handleReferralCommission, enroll. rewrite Hr. simpl.
  match goal with
  | |- context [createCommission ?d ?us ?ui ?p] =>
      destruct (createCommission_agent d us ui p a ag Hr Ha Hrole)
        as (c1 & H1 & H2 & H3 & _ & H5 & H6);
      set (db3 := createCommission d us ui p) in *
  end.
  rewrite findById_user_update by reflexivity.
  rewrite H2. simpl. rewrite Ha. simpl.
  assert (Hsame : forall (b : bool) (f : User.t -> User.t),
            (forall d, User.role (f d) = User.role d
                       /\ User.isActiveAgent (f d) = User.isActiveAgent d
                       /\ User.commissionRate (f d) = User.commissionRate d) ->
            User.role (if b then f ag else ag) = User.role ag
            /\ User.isActiveAgent (if b then f ag else ag) = User.isActiveAgent ag
            /\ User.commissionRate (if b then f ag else ag)
               = User.commissionRate ag)
    by (intros [|] f Hf; [apply Hf|auto]).
  match goal with
  | |- context [if a =? ?j then ?f ag else ag] =>
      destruct (Hsame (a =? j) f ltac:(intros d; repeat split))
        as (E1 & E2 & E3)
  end.
  rewrite E1, E2, E3, Hrole. simpl.
  exists c1. split; [exact H3|]. split; [exact H5|]. split; [exact H6|].
  split; intros Hact; rewrite Hact; simpl.
  - exact H1.
  - eexists. unfold insert. rewrite H1. simpl. rewrite <- app_assoc. simpl.
    split; [reflexivity|]. simpl. repeat split; reflexivity.
Qed.

(** * Further properties *)

(** Case analysis on every test a handler makes. *)
Ltac break_handler :=
  repeat match goal with
  | |- context [match ?x with _ => _ end] => destruct x eqn:?
  end.

(** ** Errors change nothing *)



(** ** Commissions are never deleted or rewritten *)

Lemma sameCore_refl (c : Commission.t) : sameCore c c.
Proof. repeat split. Qed.

Lemma sameCore_apply (u : Commission.Update) (c : Commission.t) :
  sameCore c (Commission.apply u c).
Proof. repeat split. Qed.

Lemma sameCore_trans (a b c : Commission.t) :
  sameCore a b -> sameCore b c -> sameCore a c.
Proof.
  unfold sameCore. intros H1 H2.
  destruct H1 as (A1 & A2 & A3 & A4 & A5 & A6 & A7 & A8).
  destruct H2 as (B1 & B2 & B3 & B4 & B5 & B6 & B7 & B8).
  repeat split; congruence.
Qed.

Lemma persists_refl (l : list Commission.t) : persists l l.
Proof. intros n c H. exists c. split; [exact H|apply sameCore_refl]. Qed.

Lemma persists_trans (l m k : list Commission.t) :
  persists l m -> persists m k -> persists l k.
Proof.
  intros H1 H2 n c Hn.
  destruct (H1 n c Hn) as (c1 & Hn1 & S1).
  destruct (H2 n c1 Hn1) as (c2 & Hn2 & S2).
  exists c2. split; [exact Hn2|now apply (sameCore_trans c c1 c2)].
Qed.

Lemma persists_app (l added : list Commission.t) : persists l (l ++ added).
Proof.
  intros n c Hn. exists c. split; [|apply sameCore_refl].
  rewrite nth_error_app1; [exact Hn|].
  apply nth_error_Some. congruence.
Qed.

Lemma persists_updateMany (p : Commission.t -> bool) (u : Commission.Update)
    (l : list Commission.t) :
  persists l (updateMany p (Commission.apply u) l).
Proof.
  intros n c Hn. unfold updateMany. rewrite nth_error_map, Hn. simpl.
  eexists. split; [reflexivity|].
  destruct (p c); [apply sameCore_apply|apply sameCore_refl].
Qed.

Lemma persists_findByIdAndUpdate (i : ObjectId) (u : Commission.Update)
    (l : list Commission.t) :
  persists l (findByIdAndUpdate Commission._id i (Commission.apply u) l).
Proof.
  unfold findByIdAndUpdate.
  induction l as [|x r IH]; intros n c Hn; simpl.
  - destruct n; discriminate.
  - destruct (Commission._id x =? i).
    + destruct n as [|n]; simpl in *.
      * inversion Hn; subst. eexists. split; [reflexivity|apply sameCore_apply].
      * exists c. split; [exact Hn|apply sameCore_refl].
    + destruct n as [|n]; simpl in *.
      * inversion Hn; subst. exists c. split; [reflexivity|apply sameCore_refl].
      * now apply IH.
Qed.

Lemma persists_payFitting (schema : Commission.Schema) (now : Date)
    (m : string) (amount : Q) (l : list Commission.t)
    (todo : list Commission.t) :
  forall tot stored,
    persists l stored ->
    persists l (fst (payFitting schema now m amount todo tot stored)).
Proof.
  induction todo as [|c r IH]; intros tot stored H; simpl; [exact H|].
  destruct (Qle_bool (tot + Commission.amount c) amount).
  - apply IH. apply (persists_trans l stored); [exact H|].
    apply persists_findByIdAndUpdate.
  - now apply IH.
Qed.

(** Reduces a goal about the commissions a handler leaves to the writes
    the handler made. *)
Ltac solve_persists :=
  lazymatch goal with
  | |- persists ?l ?l => apply persists_refl
  | |- persists ?l (insert _ ?x) =>
      apply (persists_trans l x); [solve_persists|apply persists_app]
  | |- persists ?l (updateMany _ (writes _ _) ?x) =>
      apply (persists_trans l x);
      [solve_persists|unfold writes; apply persists_updateMany]
  | |- persists ?l (findByIdAndUpdate Commission._id _ (writes _ _) ?x) =>
      apply (persists_trans l x);
      [solve_persists|unfold writes; apply persists_findByIdAndUpdate]
  end.

(** X2. Whatever the operation, every stored commission stays stored at
    its place and keeps its id, agent, referral, payment, amount,
    original amount, rate and type: handlers only change status and
    payout bookkeeping, and none deletes a commission. *)
Theorem commissions_persist (now : Date) (op : Op) (db : DB) :
  persists (commissions db) (commissions (fst (run now op db))).
Proof.
  destruct op; simpl.
  - destruct (commissions_handleWebhook db now env event) as [added ->].
    apply persists_app.
  - destruct (commissions_manualPaymentConfirm db now who paymentIntentId
                courseId retrieved) as [added ->].
    apply persists_app.
  - unfold processRefund, fresh. break_handler; simpl; solve_persists.
  - unfold updateCommissionStatus, fresh. break_handler; simpl; solve_persists.
  - unfold processBulkPayout, fresh. break_handler; simpl; solve_persists.
  - unfold processManualPayout, fresh. break_handler; simpl; solve_persists.
  - unfold processBankTransfer, fresh. break_handler; simpl; solve_persists.
  - unfold performBulkActions, fresh. break_handler; simpl; solve_persists.
  - unfold processPayoutRequest, fresh. break_handler; simpl; solve_persists.
  - unfold createPayoutRequest, fresh. break_handler; simpl; solve_persists.
  - unfold requestPayout, fresh. break_handler; simpl; try solve_persists.
    match goal with
    | H : payFitting _ ?n ?m ?a ?todo ?t ?s = (?stored, ?tot) |- _ =>
        change stored with (fst (stored, tot)); rewrite <- H
    end.
    apply persists_payFitting, persists_refl.
Qed.

(** ** The confirmation paths *)

Lemma updateOne_id {A : Type} (p : A -> bool) (l : list A) :
  updateOne p (fun d => d) l = l.
Proof.
  induction l as [|x r IH]; simpl; [reflexivity|].
  destruct (p x); [reflexivity|now rewrite IH].
Qed.

Lemma users_createCommission (db : DB) (user : User.t) (userId : ObjectId)
    (payment : Payment.t) :
  users (createCommission db user userId payment) = users db.
Proof. unfold createCommission, fresh. break_handler; reflexivity. Qed.

(** The last block of the webhook writes at most one user, and leaves
    that user's id, role, approval, rate and courses alone. *)
Lemma users_handleReferralCommission (db : DB) (env : option Q)
    (user : User.t) (userId : ObjectId) (payment : Payment.t) (amount : Q) :
  exists a f,
    keepsCourses f
    /\ users (handleReferralCommission db env user userId payment amount)
       = findByIdAndUpdate User._id a f (users db).
Proof.
  assert (Hsame : exists a f,
            keepsCourses f
            /\ users db = findByIdAndUpdate User._id a f (users db)).
  { exists 0, (fun d => d). split; [intros d; repeat split|].
    unfold findByIdAndUpdate. now rewrite updateOne_id. }
  unfold handleReferralCommission, fresh.
  break_handler; try exact Hsame.
  simpl. eexists. eexists. split; [|reflexivity].
  intros d. repeat split.
Qed.

Lemma agentReferrer_none_createCommission (db db' : DB) (user : User.t)
    (userId : ObjectId) (payment : Payment.t) :
  users db' = users db ->
  agentReferrer db user = None ->
  commissions (createCommission db' user userId payment) = commissions db'.
Proof.
  unfold agentReferrer, createCommission. intros ->.
  destruct (User.referredBy user) as [a|]; [|reflexivity].
  destruct (findById User._id a (users db)) as [ag|]; [|reflexivity].
  destruct (User.role_eqb (User.role ag) User.agent);
    [discriminate|reflexivity].
Qed.

Lemma agentReferrer_none_handleReferralCommission (db db' : DB) (env : option Q)
    (user : User.t) (userId : ObjectId) (payment : Payment.t) (amount : Q)
    (j : ObjectId) (f : User.t -> User.t) :
  keepsAgent f ->
  users db' = findByIdAndUpdate User._id j f (users db) ->
  agentReferrer db user = None ->
  commissions (handleReferralCommission db' env user userId payment amount)
  = commissions db'.
Proof.
  unfold agentReferrer, handleReferralCommission. intros Hf ->.
  destruct (User.referredBy user) as [a|]; [|reflexivity].
  rewrite findById_user_update by apply Hf.
  destruct (findById User._id a (users db)) as [ag|]; [|reflexivity].
  simpl. intros Hr.
  assert (E : User.role (if a =? j then f ag else ag) = User.role ag)
    by (destruct (a =? j); [apply Hf|reflexivity]).
  rewrite E.
  destruct (User.role_eqb (User.role ag) User.agent);
    [discriminate|reflexivity].
Qed.

Lemma set_courses_keeps (e : list ObjectId) (p : list User.Purchase) :
  keepsAgent (User.set_courses e p).
Proof. intros d. repeat split. Qed.

(** X4. A confirmed purchase by a user whose referrer is absent, not
    stored, or stored with a role other than agent leaves the
    commissions as they were, on the webhook path and on the manual
    path. *)
Theorem no_agent_referrer_no_commission :
  (forall db now env e u user,
     Stripe.type e = Stripe.payment_intent_succeeded ->
     Stripe.metadata_userId (Stripe.object e) = IdValid u ->
     findById User._id u (users db) = Some user ->
     agentReferrer db user = None ->
     commissions (fst (handleWebhook db now env (Some e))) = commissions db)
  /\ (forall db now who t courseId retrieved user,
        findById User._id (Auth.userId who) (users db) = Some user ->
        agentReferrer db user = None ->
        commissions (fst (manualPaymentConfirm db now who t courseId retrieved))
        = commissions db).
Proof.
  split.
  - intros db now env e u user Ht Hu Huser Hr.
    unfold handleWebhook, fresh. rewrite Ht, Hu.
    destruct (Stripe.metadata_courseId (Stripe.object e)) as [| |c];
      try reflexivity.
    rewrite Huser.
    destruct (findById Course._id c (courses db)); [|reflexivity].
    destruct (findOne _ (payments db)); [reflexivity|].
    destruct (includes (User.coursesEnrolled user) c); [reflexivity|].
    simpl.
    erewrite agentReferrer_none_handleReferralCommission;
      [|apply set_courses_keeps
       |unfold enroll; simpl; rewrite users_createCommission; reflexivity
       |exact Hr].
    unfold enroll. simpl.
    now rewrite (agentReferrer_none_createCommission db).
  - intros db now who t courseId retrieved user Huser Hr.
    unfold manualPaymentConfirm, fresh.
    destruct (negb (truthy t)); [reflexivity|].
    destruct courseId as [| |c]; try reflexivity;
      destruct retrieved as [pi|]; try reflexivity;
      destruct (negb (Stripe.status pi =? "succeeded")%string);
      try reflexivity.
    rewrite Huser.
    destruct (findById Course._id c (courses db)); [|reflexivity].
    destruct (findOne _ (payments db)); [reflexivity|].
    simpl. unfold enroll. simpl.
    now rewrite (agentReferrer_none_createCommission db).
Qed.

(** A purchase of the course by A, who has no referrer, on either path:
    no commission. *)
Lemma no_agent_referrer_no_commission_witness :
  commissions
    (fst (handleWebhook (Example.start (Example.agent 10 true)) 5%Z None
            (Some Scenario.ownPurchase))) = []
  /\ commissions
       (fst (manualPaymentConfirm (Example.start (Example.agent 10 true)) 5%Z
               Example.agentPrincipal "tx_2" (IdValid 3)
               (Some Scenario.ownIntent))) = [].
Proof.
  destruct no_agent_referrer_no_commission as [Hw Hm]. split.
  - apply (Hw (Example.start (Example.agent 10 true)) 5%Z None
             Scenario.ownPurchase 1 (Example.agent 10 true));
      reflexivity.
  - apply (Hm (Example.start (Example.agent 10 true)) 5%Z
             Example.agentPrincipal "tx_2" (IdValid 3)
             (Some Scenario.ownIntent) (Example.agent 10 true));
      reflexivity.
Defined.

Lemma findById_users_after (db : DB) (u a j : ObjectId) (user : User.t)
    (f g : User.t -> User.t) :
  keepsAgent g -> keepsCourses f ->
  findById User._id u (users db) = Some user ->
  exists user',
    findById User._id u
      (findByIdAndUpdate User._id a f
         (findByIdAndUpdate User._id u g (users db))) = Some user'
    /\ User.coursesEnrolled user' = User.coursesEnrolled (g user)
    /\ User.coursesPurchased user' = User.coursesPurchased (g user).
Proof.
  intros Hg Hf Hu.
  rewrite findById_user_update by apply Hf.
  rewrite findById_findByIdAndUpdate by apply Hg.
  rewrite Hu. simpl. eexists. split; [reflexivity|].
  destruct (u =? a); [split; apply Hf|split; reflexivity].
Qed.

(** What the success branch of the webhook leaves of the buyer. *)
Lemma webhook_enrols (db : DB) (now : Date) (env : option Q)
    (e : Stripe.Event) (u c : ObjectId) (user : User.t) (course : Course.t) :
  Stripe.type e = Stripe.payment_intent_succeeded ->
  Stripe.metadata_userId (Stripe.object e) = IdValid u ->
  Stripe.metadata_courseId (Stripe.object e) = IdValid c ->
  findById User._id u (users db) = Some user ->
  findById Course._id c (courses db) = Some course ->
  findOne (hasTransaction (Stripe.id (Stripe.object e))) (payments db) = None ->
  includes (User.coursesEnrolled user) c = false ->
  exists user',
    findById User._id u (users (fst (handleWebhook db now env (Some e))))
    = Some user'
    /\ User.coursesEnrolled user' = (User.coursesEnrolled user ++ [c])%list
    /\ existsb (fun purchase => User.courseId purchase =? c)
         (User.coursesPurchased user') = true
    /\ snd (handleWebhook db now env (Some e)) = received.
Proof.
  intros Ht Hu Hc Huser Hcourse Hp Hen.
  pose proof (findById_id User._id _ _ _ Huser) as Hid.
  unfold handleWebhook, fresh.
  rewrite Ht, Hu, Hc, Huser, Hcourse, Hp, Hen. simpl.
  match goal with
  | |- context [handleReferralCommission ?d ?ev ?us ?ui ?p ?am] =>
      destruct (users_handleReferralCommission d ev us ui p am)
        as (a & f & Hf & ->)
  end.
  unfold enroll. simpl. rewrite users_createCommission. simpl.
  rewrite Hid, Hen.
  match goal with
  | |- context [User.set_courses ?en ?pu] =>
      destruct (findById_users_after db u a u user f (User.set_courses en pu)
                  (set_courses_keeps en pu) Hf Huser)
        as (user' & H1 & H2 & H3)
  end.
  exists user'. split; [exact H1|]. split; [exact H2|]. split; [|reflexivity].
  rewrite H3. simpl.
  destruct (existsb _ (User.coursesPurchased user)) eqn:E; [exact E|].
  rewrite existsb_app. simpl. rewrite Nat.eqb_refl.
  now rewrite orb_true_r.
Qed.

(** X5. The webhook for a new transaction of a user not yet enrolled in
    the course leaves that user enrolled in it, the course added once at
    the end of the enrolled list, and with a purchase entry for it. *)
Theorem webhook_enrols_once (db : DB) (now : Date) (env : option Q)
    (e : Stripe.Event) (u c : ObjectId) (user : User.t) (course : Course.t) :
  Stripe.type e = Stripe.payment_intent_succeeded ->
  Stripe.metadata_userId (Stripe.object e) = IdValid u ->
  Stripe.metadata_courseId (Stripe.object e) = IdValid c ->
  findById User._id u (users db) = Some user ->
  findById Course._id c (courses db) = Some course ->
  findOne (hasTransaction (Stripe.id (Stripe.object e))) (payments db) = None ->
  includes (User.coursesEnrolled user) c = false ->
  exists user',
    findById User._id u (users (fst (handleWebhook db now env (Some e))))
    = Some user'
    /\ User.coursesEnrolled user' = (User.coursesEnrolled user ++ [c])%list
    /\ existsb (fun purchase => User.courseId purchase =? c)
         (User.coursesPurchased user') = true
    /\ snd (handleWebhook db now env (Some e)) = received.
Proof. exact (webhook_enrols db now env e u c user course). Qed.

(** B's purchase in the scenario: B ends enrolled in course 3. *)
Lemma webhook_enrols_once_witness :
  exists user',
    findById User._id 2 (users Example.afterWebhook) = Some user'
    /\ User.coursesEnrolled user' = [3]
    /\ existsb (fun purchase => User.courseId purchase =? 3)
         (User.coursesPurchased user') = true
    /\ snd (handleWebhook (Example.start (Example.agent 10 true)) 5%Z None
              (Some Example.succeeded)) = received.
Proof.
  apply (webhook_enrols_once (Example.start (Example.agent 10 true)) 5%Z None
           Example.succeeded 2 3 Example.buyer Example.course);
    reflexivity.
Defined.

Lemma includes_app_new (l : list ObjectId) (i : ObjectId) :
  includes (l ++ [i]) i = true.
Proof. apply includes_In, in_or_app. right. now left. Qed.

(** X6. The webhook for a new transaction of a user referred by an
    agent: when the agent is approved, the agent's [totalCommission]
    grows by the amount of the second commission, [totalReferrals] grows
    by one and the buyer is in [referrals]; when the agent is not
    approved, the three are left as they were, although a commission was
    stored. *)
Theorem webhook_agent_counters (db : DB) (now : Date) (env : option Q)
    (e : Stripe.Event) (u c : ObjectId) (user : User.t) (course : Course.t)
    (a : ObjectId) (ag : User.t) :
  Stripe.type e = Stripe.payment_intent_succeeded ->
  Stripe.metadata_userId (Stripe.object e) = IdValid u ->
  Stripe.metadata_courseId (Stripe.object e) = IdValid c ->
  findById User._id u (users db) = Some user ->
  findById Course._id c (courses db) = Some course ->
  findOne (hasTransaction (Stripe.id (Stripe.object e))) (payments db) = None ->
  includes (User.coursesEnrolled user) c = false ->
  User.referredBy user = Some a ->
  findById User._id a (users db) = Some ag ->
  User.role ag = User.agent ->
  exists ag',
    findById User._id a (users (fst (handleWebhook db now env (Some e))))
    = Some ag'
    /\ (User.isActiveAgent ag = true ->
        (User.totalCommission ag'
         == User.totalCommission ag
            + Stripe.amount (Stripe.object e) / 100
              * (orDefault (User.commissionRate ag)
                   (envCommissionPercentage env) / 100))%Q
        /\ (User.totalReferrals ag' == User.totalReferrals ag + 1)%Q
        /\ includes (User.referrals ag') u = true)
    /\ (User.isActiveAgent ag = false ->
        User.totalCommission ag' = User.totalCommission ag
        /\ User.totalReferrals ag' = User.totalReferrals ag
        /\ User.referrals ag' = User.referrals ag).
Proof.
  intros Ht Hu Hc Huser Hcourse Hp Hen Hr Ha Hrole. unfold handleWebhook.
  rewrite Ht, Hu, Hc, Huser, Hcourse, Hp, Hen. simpl.
  unfold handleReferralCommission, enroll. rewrite Hr. simpl.
  rewrite users_createCommission. simpl.
  rewrite findById_user_update by reflexivity.
  rewrite Ha. simpl.
  match goal with
  | |- context [if a =? ?j then ?f ag else ag] =>
      set (ag4 := if a =? j then f ag else ag);
      assert (E : User.role ag4 = User.role ag
                  /\ User.isActiveAgent ag4 = User.isActiveAgent ag
                  /\ User.commissionRate ag4 = User.commissionRate ag
                  /\ User.totalCommission ag4 = User.totalCommission ag
                  /\ User.totalReferrals ag4 = User.totalReferrals ag
                  /\ User.referrals ag4 = User.referrals ag)
        by (subst ag4; destruct (a =? j); repeat split)
  end.
  destruct E as (E1 & E2 & E3 & E4 & E5 & E6).
  rewrite E1, E2, E3, Hrole. simpl.
  destruct (User.isActiveAgent ag) eqn:Hact; simpl.
  - rewrite findById_findByIdAndUpdate by reflexivity.
    rewrite findById_user_update by reflexivity.
    rewrite ?users_createCommission. simpl.
    rewrite Ha. simpl. fold ag4.
    eexists. split; [reflexivity|]. split; [|discriminate].
    intros _. simpl. rewrite E4, E5, E6. repeat split; try reflexivity.
    destruct (includes (User.referrals ag) u) eqn:Ei;
      [exact Ei|apply includes_app_new].
  - rewrite findById_user_update by reflexivity.
    rewrite ?users_createCommission. simpl.
    rewrite Ha. simpl. fold ag4.
    exists ag4. split; [reflexivity|]. split; [discriminate|].
    intros _. repeat split; assumption.
Qed.

(** The scenario with A approved (counter from 0 to 10) and with A not
    approved (counter left at 0). *)
Lemma webhook_agent_counters_witness :
  (exists ag',
     findById User._id 1 (users Example.afterWebhook) = Some ag'
     /\ (User.totalCommission ag' == 10)%Q
     /\ (User.totalReferrals ag' == 1)%Q
     /\ includes (User.referrals ag') 2 = true)
  /\ (exists ag',
        findById User._id 1
          (users
             (fst (handleWebhook (Example.start (Example.agent 10 false)) 5%Z
                     None (Some Example.succeeded)))) = Some ag'
        /\ User.totalCommission ag' = 0%Q
        /\ User.totalReferrals ag' = 0%Q
        /\ User.referrals ag' = []).
Proof.
  split.
  - destruct (webhook_agent_counters (Example.start (Example.agent 10 true))
                5%Z None Example.succeeded 2 3 Example.buyer Example.course
                1 (Example.agent 10 true)
                eq_refl eq_refl eq_refl eq_refl eq_refl eq_refl eq_refl
                eq_refl eq_refl eq_refl) as (ag' & H1 & H2 & _).
    destruct (H2 eq_refl) as (A & B & C).
    exists ag'. split; [exact H1|]. split; [rewrite A; reflexivity|].
    split; [rewrite B; reflexivity|exact C].
  - destruct (webhook_agent_counters (Example.start (Example.agent 10 false))
                5%Z None Example.succeeded 2 3 Example.buyer Example.course
                1 (Example.agent 10 false)
                eq_refl eq_refl eq_refl eq_refl eq_refl eq_refl eq_refl
                eq_refl eq_refl eq_refl) as (ag' & H1 & _ & H3).
    exists ag'. split; [exact H1|]. now apply H3.
Defined.

Lemma length_findByIdAndUpdate {A : Type} (id : A -> ObjectId) (i : ObjectId)
    (f : A -> A) (l : list A) :
  List.length (findByIdAndUpdate id i f l) = List.length l.
Proof.
  unfold findByIdAndUpdate.
  induction l as [|x r IH]; simpl; [reflexivity|].
  destruct (id x =? i); simpl; [reflexivity|now rewrite IH].
Qed.

Lemma length_payments_createCommission (db : DB) (user : User.t)
    (userId : ObjectId) (payment : Payment.t) :
  List.length (payments (createCommission db user userId payment))
  = List.length (payments db).
Proof.
  unfold createCommission, fresh.
  break_handler; simpl; rewrite ?length_findByIdAndUpdate; reflexivity.
Qed.

Lemma length_payments_handleReferralCommission (db : DB) (env : option Q)
    (user : User.t) (userId : ObjectId) (payment : Payment.t) (amount : Q) :
  List.length (payments (handleReferralCommission db env user userId payment amount))
  = List.length (payments db).
Proof.
  unfold handleReferralCommission, fresh.
  break_handler; simpl; rewrite ?length_findByIdAndUpdate; reflexivity.
Qed.

(** X7. A [payment_intent.payment_failed] event with well-formed user
    and course ids stores one payment with status [failed], which holds no
    transaction id, and touches neither users nor commissions.  It does
    not stand in the way of the purchase: a later
    [payment_intent.succeeded] event for the same intent, for a stored
    user not yet enrolled in the stored course, is processed; it stores a
    second payment and leaves the user enrolled. *)
Theorem failed_event_then_success (db : DB) (now1 now2 : Date)
    (env : option Q) (ef es : Stripe.Event) (u c : ObjectId) (user : User.t)
    (course : Course.t) :
  Stripe.type ef = Stripe.payment_intent_payment_failed ->
  Stripe.metadata_userId (Stripe.object ef) = IdValid u ->
  Stripe.metadata_courseId (Stripe.object ef) = IdValid c ->
  Stripe.type es = Stripe.payment_intent_succeeded ->
  Stripe.metadata_userId (Stripe.object es) = IdValid u ->
  Stripe.metadata_courseId (Stripe.object es) = IdValid c ->
  Stripe.id (Stripe.object es) = Stripe.id (Stripe.object ef) ->
  findById User._id u (users db) = Some user ->
  findById Course._id c (courses db) = Some course ->
  includes (User.coursesEnrolled user) c = false ->
  (exists p,
     payments (fst (handleWebhook db now1 env (Some ef)))
     = (payments db ++ [p])%list
     /\ Payment.status p = Payment.failed
     /\ Payment.transactionId p = None
     /\ commissions (fst (handleWebhook db now1 env (Some ef)))
        = commissions db
     /\ users (fst (handleWebhook db now1 env (Some ef))) = users db)
  /\ List.length
       (payments
          (fst (handleWebhook (fst (handleWebhook db now1 env (Some ef))) now2
                  env (Some es))))
     = S (S (List.length (payments db)))
  /\ exists user',
       findById User._id u
         (users
            (fst (handleWebhook (fst (handleWebhook db now1 env (Some ef)))
                    now2 env (Some es))))
       = Some user'
       /\ User.coursesEnrolled user' = (User.coursesEnrolled user ++ [c])%list.
Proof.
  intros Hf Hu Hc Hs Hu' Hc' _ Huser Hcourse Hen.
  assert (Hrun : fst (handleWebhook db now1 env (Some ef))
                 = with_payments
                     (insert
                        (newPayment (nextId db) u c
                           (Stripe.amount (Stripe.object ef) / 100)
                           (Stripe.id (Stripe.object ef)) Payment.failed None))
                     (snd (fresh db)))
    by (unfold handleWebhook; now rewrite Hf, Hu, Hc).
  rewrite Hrun. split; [|split].
  - eexists. repeat split; reflexivity.
  - unfold handleWebhook. rewrite Hs, Hu', Hc'. simpl users. simpl courses.
    rewrite Huser, Hcourse, no_stored_transaction, Hen.
    unfold fresh. cbn [fst snd].
    rewrite length_payments_handleReferralCommission.
    unfold enroll. simpl payments.
    rewrite length_payments_createCommission. simpl.
    unfold insert. rewrite !length_app. simpl. lia.
  - destruct (webhook_enrols
                (with_payments
                   (insert
                      (newPayment (nextId db) u c
                         (Stripe.amount (Stripe.object ef) / 100)
                         (Stripe.id (Stripe.object ef)) Payment.failed None))
                   (snd (fresh db)))
                now2 env es u c user course Hs Hu' Hc' Huser Hcourse
                (no_stored_transaction _ _) Hen)
      as (user' & H1 & H2 & _).
    exists user'. split; [exact H1|exact H2].
Qed.

(** [tx_1] is declined first and succeeds afterwards: B ends enrolled in
    course 3, and two payments are stored. *)
Lemma failed_event_then_success_witness :
  (exists p,
     payments
       (fst (handleWebhook (Example.start (Example.agent 10 true)) 5%Z None
               (Some Scenario.declined))) = [p]
     /\ Payment.status p = Payment.failed)
  /\ List.length
       (payments
          (fst (handleWebhook
                  (fst (handleWebhook (Example.start (Example.agent 10 true))
                          5%Z None (Some Scenario.declined)))
                  6%Z None (Some Example.succeeded)))) = 2
  /\ exists user',
       findById User._id 2
         (users
            (fst (handleWebhook
                    (fst (handleWebhook (Example.start (Example.agent 10 true))
                            5%Z None (Some Scenario.declined)))
                    6%Z None (Some Example.succeeded)))) = Some user'
       /\ User.coursesEnrolled user' = [3].
Proof.
  destruct (failed_event_then_success
              (Example.start (Example.agent 10 true)) 5%Z 6%Z None
              Scenario.declined Example.succeeded 2 3 Example.buyer
              Example.course
              eq_refl eq_refl eq_refl eq_refl eq_refl eq_refl eq_refl eq_refl
              eq_refl eq_refl)
    as [(p & Hp & Hs & _ & _ & _) [H2 H3]].
  split; [|split].
  - exists p. split; [exact Hp|exact Hs].
  - exact H2.
  - exact H3.
Defined.

(** ** Enrolment lists *)










(** ** Payouts *)

Lemma findById_updateMany2 (p1 p2 : Commission.t -> bool)
    (u1 u2 : Commission.Update) (c : Commission.t) (l : list Commission.t) :
  NoDup (map Commission._id l) -> In c l ->
  findById Commission._id (Commission._id c)
    (updateMany p2 (Commission.apply u2)
       (updateMany p1 (Commission.apply u1) l))
  = Some (let c1 := if p1 c then Commission.apply u1 c else c in
          if p2 c1 then Commission.apply u2 c1 else c1).
Proof.
  intros Hnd Hin.
  rewrite !findById_updateMany by apply apply_id.
  now rewrite (findById_unique Commission._id l c Hnd Hin).
Qed.

(** X9. After a successful manual payout, in a store with unique
    commission ids: the new Payout has the id that was next unused and
    status [completed]; every commission it lists is stored as paid, at
    the time of the payout; it points back to the Payout through
    [payoutId] when the Commission schema in force declares that path,
    and otherwise its [payoutId] is left as it was; every commission the
    Payout does not list is stored unchanged. *)
Theorem manual_payout_marks_and_links
    (db : DB) (now : Date) (who : Auth.Principal) (agentId : IdParam)
    (amount : Q) (paymentMethod : string) (notes : option string)
    (db' : DB) (r : Response) :
  NoDup (map Commission._id (commissions db)) ->
  processManualPayout db now who agentId amount paymentMethod notes = (db', r) ->
  statusCode r = 200 ->
  exists p,
    payouts db' = (payouts db ++ [p])%list
    /\ Payout._id p = nextId db
    /\ Payout.status p = Payout.completed
    /\ (forall i, In i (Payout.commissionIds p) ->
        exists c c',
          findById Commission._id i (commissions db) = Some c
          /\ findById Commission._id i (commissions db') = Some c'
          /\ Commission.status c' = Commission.paid
          /\ Commission.paidAt c' = Some now
          /\ Commission.payoutId c'
             = if Commission.declaresPayoutId (commissionSchema db)
               then Some (Payout._id p) else Commission.payoutId c)
    /\ (forall c, In c (commissions db) ->
        ~ In (Commission._id c) (Payout.commissionIds p) ->
        In c (commissions db')).
Proof.
  intros Hnd Hrun Hok. unfold processManualPayout in Hrun.
  destruct agentId as [| |a]; try (abort_branch Hrun Hok).
  - destruct (Qeq_bool amount 0 || negb (truthy paymentMethod));
      abort_branch Hrun Hok.
  - destruct (Qeq_bool amount 0 || negb (truthy paymentMethod));
      [abort_branch Hrun Hok|].
    destruct (findById User._id a (users db)) as [ag|];
      [|abort_branch Hrun Hok].
    destruct (negb (User.role_eqb (User.role ag) User.agent));
      [abort_branch Hrun Hok|].
    destruct (User.lacksBankDetails ag); [abort_branch Hrun Hok|].
    destruct ((paymentMethod =? "bank_transfer")%string
              && negb (User.bankVerified ag)); [abort_branch Hrun Hok|].
    destruct (List.length (pendingOf a db) =? 0); [abort_branch Hrun Hok|].
    destruct (negb (Qle_bool amount (sumAmounts (pendingOf a db))));
      [abort_branch Hrun Hok|].
    destruct (selectCommissions_split (pendingOf a db) amount [] 0%Q)
      as (sel & rest & Hsplit & Hsel & _).
    rewrite Hsel in Hrun. cbv beta iota zeta in Hrun.
    rewrite app_nil_l in Hrun.
    destruct (negb (isIn Payout.paymentMethods paymentMethod));
      [abort_branch Hrun Hok|].
    unfold fresh, writes in Hrun. simpl in Hrun.
    inversion Hrun; subst; clear Hrun.
    eexists. split; [reflexivity|]. simpl.
    split; [reflexivity|]. split; [reflexivity|]. split.
    + intros i Hi. apply in_map_iff in Hi. destruct Hi as (s & <- & Hs).
      assert (Hin : In s (commissions db)).
      { assert (H : In s (pendingOf a db))
          by (rewrite Hsplit; apply in_or_app; now left).
        apply pendingOf_In in H. tauto. }
      rewrite (findById_updateMany2 _ _ _ _ s _ Hnd Hin).
      rewrite (findById_unique Commission._id _ s Hnd Hin).
      assert (E : includes (map Commission._id sel) (Commission._id s) = true)
        by (apply includes_In; now apply in_map).
      simpl. rewrite E. simpl. rewrite E.
      eexists. eexists. split; [reflexivity|]. split; [reflexivity|].
      destruct (commissionSchema db); repeat split.
    + intros c Hc Hn.
      assert (E : includes (map Commission._id sel) (Commission._id c) = false).
      { destruct (includes _ _) eqn:E; [|reflexivity].
        apply includes_In in E. contradiction. }
      unfold updateMany. rewrite map_map. apply in_map_iff.
      exists c. split; [|exact Hc]. rewrite E. now rewrite E.
Qed.

(** The payout scenario under the schema that declares [payoutId]: the
    three commissions are paid and linked to the Payout with id 100. *)
Lemma manual_payout_marks_and_links_witness :
  exists p,
    payouts
      (fst (processManualPayout
              (with_commissionSchema Commission.withPayoutId
                 Example.threePending)
              7%Z Example.administrator (IdValid 1) 25 "bank_transfer" None))
    = [p]
    /\ Payout._id p = 100
    /\ Payout.status p = Payout.completed
    /\ (forall i, In i (Payout.commissionIds p) ->
        exists c c',
          findById Commission._id i (commissions Example.threePending)
          = Some c
          /\ findById Commission._id i
               (commissions
                  (fst (processManualPayout
                          (with_commissionSchema Commission.withPayoutId
                             Example.threePending)
                          7%Z Example.administrator (IdValid 1) 25
                          "bank_transfer" None))) = Some c'
          /\ Commission.status c' = Commission.paid
          /\ Commission.paidAt c' = Some 7%Z
          /\ Commission.payoutId c' = Some (Payout._id p))
    /\ (forall c, In c (commissions Example.threePending) ->
        ~ In (Commission._id c) (Payout.commissionIds p) ->
        In c (commissions
                (fst (processManualPayout
                        (with_commissionSchema Commission.withPayoutId
                           Example.threePending)
                        7%Z Example.administrator (IdValid 1) 25
                        "bank_transfer" None)))).
Proof.
  apply (manual_payout_marks_and_links
           (with_commissionSchema Commission.withPayoutId Example.threePending)
           7%Z Example.administrator (IdValid 1) 25 "bank_transfer" None _
           (snd (processManualPayout
                   (with_commissionSchema Commission.withPayoutId
                      Example.threePending)
                   7%Z Example.administrator (IdValid 1) 25 "bank_transfer"
                   None))).
  - simpl. repeat constructor; simpl; intuition discriminate.
  - apply surjective_pairing.
  - reflexivity.
Defined.



(** X11. Updating a commission's status, the bulk payout, the manual
    payout, the bank transfer and the three payout-request handlers
    write neither users nor payments nor courses: paying a commission
    out never lowers the agent's [totalCommission] and never updates the
    payment's copy of the commission status. *)
Theorem ledger_ops_leave_users_and_payments (now : Date) (op : Op) (db : DB) :
  isLedgerOp op = true ->
  users (fst (run now op db)) = users db
  /\ payments (fst (run now op db)) = payments db
  /\ courses (fst (run now op db)) = courses db.
Proof.
  intros H. destruct op; simpl in H; try discriminate; simpl.
  - unfold updateCommissionStatus. break_handler; repeat split.
  - unfold processBulkPayout. break_handler; repeat split.
  - unfold processManualPayout, fresh. break_handler; repeat split.
  - unfold processBankTransfer, fresh. break_handler; repeat split.
  - unfold processPayoutRequest. break_handler; repeat split.
  - unfold createPayoutRequest, fresh. break_handler; repeat split.
  - unfold requestPayout. break_handler; repeat split.
Qed.

Lemma ledger_ops_leave_users_and_payments_witness :
  users
    (fst (run 7%Z
            (BankTransfer Example.administrator (IdValid 1) 5 None None)
            Example.threePending))
  = users Example.threePending
  /\ payments
       (fst (run 7%Z
               (BankTransfer Example.administrator (IdValid 1) 5 None None)
               Example.threePending))
     = payments Example.threePending
  /\ courses
       (fst (run 7%Z
               (BankTransfer Example.administrator (IdValid 1) 5 None None)
               Example.threePending))
     = courses Example.threePending.
Proof.
  apply ledger_ops_leave_users_and_payments. reflexivity.
Defined.

Lemma payFitting_total (schema : Commission.Schema) (now : Date) (m : string)
    (amount : Q) (todo : list Commission.t) :
  forall tot stored,
    (tot <= amount)%Q ->
    (snd (payFitting schema now m amount todo tot stored) <= amount)%Q.
Proof.
  induction todo as [|c r IH]; intros tot stored H; simpl; [exact H|].
  destruct (Qle_bool (tot + Commission.amount c) amount) eqn:E.
  - apply IH. now apply Qle_bool_iff.
  - now apply IH.
Qed.

Lemma limit_length {A : Type} (n : Z) (l : list A) :
  (0 < n)%Z -> List.length (limit n l) <= Z.to_nat n.
Proof.
  intros H. unfold limit.
  destruct (Z.eqb_spec n 0) as [E|E]; [lia|].
  rewrite length_firstn. lia.
Qed.

(** X12. An accepted [requestPayout] for an amount that is not negative
    reports a paid amount of at most the requested amount; for a
    positive amount it looks at no more than [ceil(amount / 10)] pending
    commissions. *)
Theorem request_payout_within_request (db : DB) (now : Date)
    (who : Auth.Principal) (amount : Q) (payoutMethod : string) :
  (0 <= amount)%Q ->
  statusCode (snd (requestPayout db now who amount payoutMethod)) = 200 ->
  exists paid n,
    data (snd (requestPayout db now who amount payoutMethod))
    = RequestPayoutData paid payoutMethod n
    /\ (paid <= amount)%Q
    /\ ((0 < amount)%Q -> n <= Z.to_nat (Qceiling (amount / 10))).
Proof.
  intros Hpos. unfold requestPayout.
  destruct (negb (isIn agentPayoutMethods payoutMethod)); [discriminate|].
  destruct (findById User._id (Auth.userId who) (users db)) as [u|];
    [|discriminate].
  destruct (negb (User.role_eqb (User.role u) User.agent)); [discriminate|].
  destruct (negb (User.isActiveAgent u)); [discriminate|].
  destruct (negb (Qle_bool amount _)); [discriminate|].
  pose proof (payFitting_total (commissionSchema db) now payoutMethod amount
                (limit (Qceiling (amount / 10)) (pendingOf (User._id u) db))
                0%Q (commissions db) Hpos) as Ht.
  destruct (payFitting _ now payoutMethod amount _ 0%Q (commissions db))
    as [stored tot].
  simpl in *. intros _. exists tot. eexists. split; [reflexivity|].
  split; [exact Ht|].
  intros Hgt. apply limit_length.
  assert (H : (0 < amount / 10)%Q).
  { apply Qlt_shift_div_l; [reflexivity|]. lra. }
  assert (Hc : (amount / 10 <= inject_Z (Qceiling (amount / 10)))%Q)
    by apply Qle_ceiling.
  assert (Hz : (inject_Z 0 < inject_Z (Qceiling (amount / 10)))%Q).
  { change (inject_Z 0) with 0%Q. lra. }
  now rewrite <- Zlt_Qlt in Hz.
Qed.

(** A asks for 12 with 25 pending: two commissions are looked at, one
    of 10 fits, and 10 is reported. *)
Lemma request_payout_within_request_witness :
  exists paid n,
    data (snd (requestPayout Example.threePending 7%Z Example.agentPrincipal
                 12 "bank_transfer"))
    = RequestPayoutData paid "bank_transfer" n
    /\ (paid <= 12)%Q
    /\ ((0 < 12)%Q -> n <= Z.to_nat (Qceiling (12 / 10))).
Proof.
  apply request_payout_within_request.
  - vm_compute. discriminate.
  - reflexivity.
Defined.

(** ** Refunds *)

Lemma refund_stores_refunded (db : DB) (now : Date) (who : Auth.Principal)
    (paymentId : ObjectId) (reason : string) (refund : Stripe.Refund)
    (payment : Payment.t) :
  truthy reason = true ->
  findById Payment._id paymentId (payments db) = Some payment ->
  Payment.status payment = Payment.completed ->
  payments
    (fst (processRefund db now who (IdValid paymentId) reason (Some refund)))
  = findByIdAndUpdate Payment._id paymentId (Payment.set_refunded reason now)
      (payments db).
Proof.
  intros Hr Hp Hs. pose proof (findById_id Payment._id _ _ _ Hp) as Hid.
  unfold processRefund. rewrite Hr, Hp, Hs. simpl. rewrite Hid.
  break_handler; reflexivity.
Qed.

(** X13. After a refund that went through, the payment is stored with
    status [refunded] and every other stored path as it was; the reason
    and the time of the refund are not among the stored paths.  A second refund of the same payment is
    refused with "Payment is not completed" and changes nothing, whatever
    the provider would answer. *)
Theorem refund_only_once (db : DB) (now now' : Date) (who who' : Auth.Principal)
    (paymentId : ObjectId) (reason reason' : string) (refund : Stripe.Refund)
    (refund' : option Stripe.Refund) (payment : Payment.t) :
  truthy reason = true ->
  truthy reason' = true ->
  findById Payment._id paymentId (payments db) = Some payment ->
  Payment.status payment = Payment.completed ->
  let db1 :=
    fst (processRefund db now who (IdValid paymentId) reason (Some refund)) in
  (exists p,
     findById Payment._id paymentId (payments db1) = Some p
     /\ Payment.status p = Payment.refunded
     /\ Payment.user p = Payment.user payment
     /\ Payment.course p = Payment.course payment
     /\ Payment.amount p = Payment.amount payment
     /\ Payment.paymentMethod p = Payment.paymentMethod payment
     /\ Payment.referralAgent p = Payment.referralAgent payment
     /\ Payment.commissionAmount p = Payment.commissionAmount payment
     /\ Payment.commissionStatus p = Payment.commissionStatus payment)
  /\ processRefund db1 now' who' (IdValid paymentId) reason' refund'
     = (db1, createErrorResponse 400 "Payment is not completed").
Proof.
  intros Hr Hr' Hp Hs db1.
  assert (Hf : findById Payment._id paymentId (payments db1)
               = Some (Payment.set_refunded reason now payment)).
  { subst db1. rewrite (refund_stores_refunded _ _ _ _ _ _ payment Hr Hp Hs).
    rewrite findById_findByIdAndUpdate by reflexivity. now rewrite Hp. }
  split.
  - eexists. split; [exact Hf|]. repeat split.
  - unfold processRefund at 1. now rewrite Hr', Hf.
Qed.

Lemma refund_only_once_witness :
  (exists p,
     findById Payment._id 21 (payments Example.refunded) = Some p
     /\ Payment.status p = Payment.refunded
     /\ Payment.amount p = 100%Q)
  /\ processRefund Example.refunded 8%Z Example.administrator (IdValid 21)
       "again" (Some Example.refund)
     = (Example.refunded, createErrorResponse 400 "Payment is not completed").
Proof.
  destruct (refund_only_once (Example.sold Commission.pending) 7%Z 8%Z
              Example.administrator Example.administrator 21 "asked" "again"
              Example.refund (Some Example.refund)
              (Payment.set_commissionInfo 10 (Some 1)
                 (newPayment 21 2 3 100 "tx_1" Payment.completed (Some 1)))
              eq_refl eq_refl eq_refl eq_refl)
    as [(p & Hp & Hs & _ & _ & Ha & _) H2].
  split; [|exact H2].
  exists p. split; [exact Hp|]. split; [exact Hs|exact Ha].
Defined.

(** X3. A refund that goes through (a validated request, the provider
    having issued the refund), of a completed payment with a referral
    agent, looks at one commission: the first one stored for the payment,
    [c] (commission ids being unique).  If [c] is pending, it is stored
    afterwards as cancelled with its amount unchanged and the agent's
    [totalCommission] is lower by that amount, the agent's
    [totalReferrals] staying as it was; if [c] is paid, the commissions
    and the users are left as they were. *)
Theorem refund_cancels_first_commission
    (db : DB) (now : Date) (who : Auth.Principal) (paymentId : ObjectId)
    (reason : string) (refund : Stripe.Refund) (payment : Payment.t)
    (a : ObjectId) (c : Commission.t) :
  NoDup (map Commission._id (commissions db)) ->
  truthy reason = true ->
  findById Payment._id paymentId (payments db) = Some payment ->
  Payment.status payment = Payment.completed ->
  Payment.referralAgent payment = Some a ->
  findOne (refersTo paymentId) (commissions db) = Some c ->
  let db' :=
    fst (processRefund db now who (IdValid paymentId) reason (Some refund)) in
  (Commission.status c = Commission.pending ->
     (exists c',
        findById Commission._id (Commission._id c) (commissions db') = Some c'
        /\ Commission.status c' = Commission.cancelled
        /\ Commission.amount c' = Commission.amount c)
     /\ (forall u, findById User._id a (users db) = Some u ->
           exists u',
             findById User._id a (users db') = Some u'
             /\ (User.totalCommission u'
                 == User.totalCommission u - Commission.amount c)%Q
             /\ (User.totalReferrals u' == User.totalReferrals u)%Q))
  /\ (Commission.status c = Commission.paid ->
        commissions db' = commissions db /\ users db' = users db).
Proof.
  intros Hnd Hreason Hpay Hst Hag Hc db'. subst db'.
  pose proof (findById_id Payment._id _ _ _ Hpay) as Hid.
  unfold processRefund. rewrite Hreason, Hpay, Hst. simpl. rewrite Hag. simpl.
  rewrite Hid.
  rewrite Hc.
  destruct (findOne_some _ _ _ Hc) as [Hin _].
  split; intros Hs.
  - assert (Hp : Commission.isPending c = true) by now apply isPending_iff.
    rewrite Hp. simpl. split.
    + unfold writes. rewrite findById_findByIdAndUpdate by apply apply_id.
      rewrite (findById_unique Commission._id _ c Hnd Hin). simpl.
      eexists. split; [reflexivity|]. split; reflexivity.
    + intros u Hu.
      rewrite findById_findByIdAndUpdate by reflexivity.
      rewrite Hu. simpl. eexists. split; [reflexivity|]. simpl.
      split; lra.
  - assert (Hp : Commission.isPending c = false)
      by (unfold Commission.isPending; now rewrite Hs).
    rewrite Hp. simpl. split; reflexivity.
Qed.

(** The refund of payment 21 of the sold store: the pending commission of
    10 is cancelled and A's counter goes from 10 back to 0; with the
    commission already paid, commissions and users stay as they were. *)
Lemma refund_cancels_first_commission_witness :
  ((exists c',
      findById Commission._id 11
        (commissions
           (fst (processRefund (Example.sold Commission.pending) 7%Z
                   Example.administrator (IdValid 21) "asked"
                   (Some Example.refund)))) = Some c'
      /\ Commission.status c' = Commission.cancelled
      /\ Commission.amount c' = 10%Q)
   /\ (exists u',
         findById User._id 1
           (users
              (fst (processRefund (Example.sold Commission.pending) 7%Z
                      Example.administrator (IdValid 21) "asked"
                      (Some Example.refund)))) = Some u'
         /\ (User.totalCommission u' == 0)%Q))
  /\ (commissions
        (fst (processRefund (Example.sold Commission.paid) 7%Z
                Example.administrator (IdValid 21) "asked"
                (Some Example.refund)))
      = commissions (Example.sold Commission.paid)
      /\ users
           (fst (processRefund (Example.sold Commission.paid) 7%Z
                   Example.administrator (IdValid 21) "asked"
                   (Some Example.refund)))
         = users (Example.sold Commission.paid)).
Proof.
  assert (Hnd : forall st,
            NoDup (map Commission._id (commissions (Example.sold st))))
    by (intros st; simpl; repeat constructor; simpl; intuition discriminate).
  split.
  - destruct (refund_cancels_first_commission (Example.sold Commission.pending)
                7%Z Example.administrator 21 "asked" Example.refund
                (Payment.set_commissionInfo 10 (Some 1)
                   (newPayment 21 2 3 100 "tx_1" Payment.completed (Some 1)))
                1 (Example.commissionOf 11 21 10 Commission.pending)
                (Hnd _) eq_refl eq_refl eq_refl eq_refl eq_refl) as [Hpending _].
    destruct (Hpending eq_refl) as [Hc Hu]. split; [exact Hc|].
    destruct (Hu _ eq_refl) as (u' & Hu' & Htot & _).
    exists u'. split; [exact Hu'|]. rewrite Htot. reflexivity.
  - apply (refund_cancels_first_commission (Example.sold Commission.paid)
             7%Z Example.administrator 21 "asked" Example.refund
             (Payment.set_commissionInfo 10 (Some 1)
                (newPayment 21 2 3 100 "tx_1" Payment.completed (Some 1)))
             1 (Example.commissionOf 11 21 10 Commission.paid)
             (Hnd _) eq_refl eq_refl eq_refl eq_refl eq_refl).
    reflexivity.
Defined.

(** ** Payout requests *)

Lemma NoDup_map_filter {A : Type} (f : A -> ObjectId) (q : A -> bool)
    (l : list A) :
  NoDup (map f l) -> NoDup (map f (filter q l)).
Proof.
  induction l as [|x r IH]; simpl; intros H; [constructor|].
  inversion H as [|? ? Hx Hr]; subst.
  destruct (q x); simpl; [|now apply IH].
  constructor; [|now apply IH].
  intros Hin. apply Hx. apply in_map_iff in Hin.
  destruct Hin as (y & E & Hy). apply filter_In in Hy.
  apply in_map_iff. exists y. tauto.
Qed.

(** X14. A payout request that [createPayoutRequest] accepts, in a store
    with unique commission ids, lists only ids of stored commissions
    that belong to the requesting agent and are pending. *)
Theorem created_request_lists_own_pending
    (db : DB) (now : Date) (who : Auth.Principal) (amount : Q)
    (notes : option string) (ids : list ObjectId) :
  NoDup (map Commission._id (commissions db)) ->
  statusCode (snd (createPayoutRequest db now who amount notes (Some ids)))
  = 200 ->
  exists a,
    Auth._id who = Some a
    /\ forall i, In i ids ->
         exists c,
           In c (commissions db)
           /\ Commission._id c = i
           /\ Commission.agent c = a
           /\ Commission.status c = Commission.pending.
Proof.
  intros Hnd. unfold createPayoutRequest.
  destruct (Auth._id who) as [a|]; [|discriminate].
  destruct (findById User._id a (users db)) as [ag|]; [|discriminate].
  destruct (User.lacksBankDetails ag); [discriminate|].
  set (found := find _ (commissions db)).
  destruct ((0 <? List.length ids)
            && negb (List.length found =? List.length ids)) eqn:E;
    [discriminate|].
  intros _. exists a. split; [reflexivity|]. intros i Hi.
  assert (Hlen : List.length found = List.length ids).
  { apply andb_false_iff in E. destruct E as [E|E].
    - apply Nat.ltb_ge in E. destruct ids; [contradiction|simpl in E; lia].
    - apply negb_false_iff, Nat.eqb_eq in E. exact E. }
  assert (Hincl : incl ids (map Commission._id found)).
  { apply NoDup_length_incl.
    - subst found. unfold find. now apply NoDup_map_filter.
    - rewrite length_map. lia.
    - intros j Hj. apply in_map_iff in Hj. destruct Hj as (c & <- & Hc).
      subst found. unfold find in Hc. apply filter_In in Hc.
      destruct Hc as [_ Hq]. apply andb_true_iff in Hq.
      destruct Hq as [Hq _]. apply andb_true_iff in Hq.
      destruct Hq as [Hq _]. now apply includes_In. }
  specialize (Hincl i Hi). apply in_map_iff in Hincl.
  destruct Hincl as (c & Hid & Hc). subst found. unfold find in Hc.
  apply filter_In in Hc. destruct Hc as [Hin Hq].
  apply andb_true_iff in Hq. destruct Hq as [Hq Hp].
  apply andb_true_iff in Hq. destruct Hq as [_ Ha].
  exists c. repeat split; [exact Hin|exact Hid|now apply Nat.eqb_eq|].
  now apply isPending_iff.
Qed.

Lemma created_request_lists_own_pending_witness :
  exists a,
    Auth._id Example.agentPrincipal = Some a
    /\ forall i, In i [11; 12] ->
         exists c,
           In c (commissions Example.threePending)
           /\ Commission._id c = i
           /\ Commission.agent c = a
           /\ Commission.status c = Commission.pending.
Proof.
  apply (created_request_lists_own_pending Example.threePending 7%Z
           Example.agentPrincipal 20 None [11; 12]).
  - simpl. repeat constructor; simpl; intuition discriminate.
  - reflexivity.
Defined.

(** ** Enrolment and course content *)

(** X15. A successful call of the enrol endpoint gives the caller the
    course's content at once, with the payments and commissions as they
    were; a second call is refused. *)
Theorem enrolment_opens_content (db db' : DB) (who : Auth.Principal)
    (i : ObjectId) (r : Response) :
  enrollInCourse db who (IdValid i) = (db', r) ->
  statusCode r = 200 ->
  getCourseContent db' who (IdValid i) = createSuccessResponse NoData "Success"
  /\ payments db' = payments db
  /\ commissions db' = commissions db
  /\ enrollInCourse db' who (IdValid i)
     = (db', createErrorResponse 400 "Already enrolled in this course").
Proof.
  unfold enrollInCourse. intros Hrun Hok.
  destruct (findById Course._id i (courses db)) as [course|] eqn:Hc;
    [|abort_branch Hrun Hok].
  destruct (findById User._id (Auth.userId who) (users db)) as [user|] eqn:Hu;
    [|abort_branch Hrun Hok].
  destruct (includes (User.coursesEnrolled user) (Course._id course)) eqn:Hin;
    [abort_branch Hrun Hok|].
  injection Hrun as <- <-.
  pose proof (findById_id User._id _ _ _ Hu) as Hid.
  assert (Hu' : findById User._id (Auth.userId who)
                  (users (with_users
                     (findByIdAndUpdate User._id (User._id user)
                        (User.set_courses
                           (User.coursesEnrolled user ++ [Course._id course])
                           (User.coursesPurchased user))) db))
                = Some (User.set_courses
                          (User.coursesEnrolled user ++ [Course._id course])
                          (User.coursesPurchased user) user)).
  { simpl. rewrite Hid.
    rewrite findById_findByIdAndUpdate by reflexivity. now rewrite Hu. }
  unfold getCourseContent. rewrite Hu'. simpl courses. rewrite Hc.
  simpl User.coursesEnrolled. rewrite includes_app_new. simpl.
  repeat split; reflexivity.
Qed.

(** B enrols in the course of the start store. *)
Lemma enrolment_opens_content_witness :
  let db := Example.start (Example.agent 10 true) in
  let db' := fst (enrollInCourse db Example.buyerPrincipal (IdValid 3)) in
  getCourseContent db' Example.buyerPrincipal (IdValid 3)
  = createSuccessResponse NoData "Success"
  /\ payments db' = payments db
  /\ commissions db' = commissions db
  /\ enrollInCourse db' Example.buyerPrincipal (IdValid 3)
     = (db', createErrorResponse 400 "Already enrolled in this course").
Proof.
  apply (enrolment_opens_content _ _ _ _
           (snd (enrollInCourse (Example.start (Example.agent 10 true))
                   Example.buyerPrincipal (IdValid 3)))); reflexivity.
Defined.



Lemma keepsEnrolment_refl (l : list User.t) : keepsEnrolment l l.
Proof. intros i u H. exists u. split; [exact H|apply incl_refl]. Qed.

Lemma keepsEnrolment_trans (l m k : list User.t) :
  keepsEnrolment l m -> keepsEnrolment m k -> keepsEnrolment l k.
Proof.
  intros H1 H2 i u Hu.
  destruct (H1 i u Hu) as (u1 & Hu1 & I1).
  destruct (H2 i u1 Hu1) as (u2 & Hu2 & I2).
  exists u2. split; [exact Hu2|]. eapply incl_tran; eassumption.
Qed.

Lemma keepsEnrolment_update (l : list User.t) (j : ObjectId)
    (f : User.t -> User.t) :
  (forall d, User._id (f d) = User._id d) ->
  (forall d, findById User._id j l = Some d ->
             incl (User.coursesEnrolled d) (User.coursesEnrolled (f d))) ->
  keepsEnrolment l (findByIdAndUpdate User._id j f l).
Proof.
  intros Hid Hf i u Hu.
  rewrite findById_user_update by exact Hid. rewrite Hu. simpl.
  eexists. split; [reflexivity|].
  destruct (Nat.eqb_spec i j) as [->|_]; [now apply Hf|apply incl_refl].
Qed.

Lemma keepsEnrolment_updateMany (l : list User.t) (p : User.t -> bool)
    (f : User.t -> User.t) :
  (forall d, User._id (f d) = User._id d) ->
  (forall d, User.coursesEnrolled (f d) = User.coursesEnrolled d) ->
  keepsEnrolment l (updateMany p f l).
Proof.
  intros Hid Hf i u Hu.
  rewrite findById_updateMany by exact Hid. rewrite Hu. simpl.
  eexists. split; [reflexivity|].
  destruct (p u); [rewrite Hf|]; apply incl_refl.
Qed.

Lemma keepsEnrolment_enroll (db0 db : DB) (now : Date) (user : User.t)
    (c : ObjectId) :
  users db = users db0 ->
  findById User._id (User._id user) (users db0) = Some user ->
  keepsEnrolment (users db0) (users (enroll db now user c)).
Proof.
  intros <- Hu. unfold enroll. simpl.
  apply keepsEnrolment_update; [reflexivity|].
  intros d Hd. rewrite Hu in Hd. injection Hd as <-. simpl.
  destruct (includes _ c); [apply incl_refl|apply incl_appl, incl_refl].
Qed.

Lemma keepsEnrolment_handleReferralCommission (db : DB) (env : option Q)
    (user : User.t) (userId : ObjectId) (payment : Payment.t) (amount : Q) :
  keepsEnrolment (users db)
    (users (handleReferralCommission db env user userId payment amount)).
Proof.
  destruct (users_handleReferralCommission db env user userId payment amount)
    as (a & f & Hf & ->).
  apply keepsEnrolment_update; [apply Hf|].
  intros d _. destruct (Hf d) as (_ & _ & _ & _ & -> & _). apply incl_refl.
Qed.

Lemma courses_createCommission (db : DB) (user : User.t) (userId : ObjectId)
    (payment : Payment.t) :
  courses (createCommission db user userId payment) = courses db.
Proof. unfold createCommission, fresh. break_handler; reflexivity. Qed.

Lemma courses_handleReferralCommission (db : DB) (env : option Q)
    (user : User.t) (userId : ObjectId) (payment : Payment.t) (amount : Q) :
  courses (handleReferralCommission db env user userId payment amount)
  = courses db.
Proof. unfold handleReferralCommission, fresh. break_handler; reflexivity. Qed.

(** Access to content only depends on the users and the courses. *)
Lemma content_still_served (db db' : DB) (who : Auth.Principal)
    (i : ObjectId) :
  courses db' = courses db ->
  keepsEnrolment (users db) (users db') ->
  statusCode (getCourseContent db who (IdValid i)) = 200 ->
  statusCode (getCourseContent db' who (IdValid i)) = 200.
Proof.
  intros Hc Hk. unfold getCourseContent. rewrite Hc.
  destruct (findById User._id (Auth.userId who) (users db)) as [user|] eqn:Hu;
    [|discriminate].
  destruct (Hk _ _ Hu) as (u' & -> & Hincl).
  destruct (findById Course._id i (courses db)) as [course|]; [|discriminate].
  destruct (includes (User.coursesEnrolled user) (Course._id course)) eqn:Hin;
    [|discriminate].
  intros _. apply includes_In in Hin. apply Hincl in Hin.
  apply includes_In in Hin. now rewrite Hin.
Qed.

(** X17. Access to a course's content outlives every operation of the
    ledger other than the bulk deletion of users or courses: a refund in
    particular leaves the buyer enrolled. *)
Theorem access_outlives_operations (now : Date) (op : Op) (db : DB)
    (who : Auth.Principal) (i : ObjectId) :
  deletes op = false ->
  statusCode (getCourseContent db who (IdValid i)) = 200 ->
  statusCode (getCourseContent (fst (run now op db)) who (IdValid i)) = 200.
Proof.
  intros Hdel. apply content_still_served.
  - destruct op; simpl.
    + unfold handleWebhook, fresh. break_handler; simpl; try reflexivity.
      rewrite courses_handleReferralCommission. unfold enroll. simpl.
      now rewrite courses_createCommission.
    + unfold manualPaymentConfirm, fresh. break_handler; simpl;
        try reflexivity; now rewrite courses_createCommission.
    + unfold processRefund. break_handler; reflexivity.
    + unfold updateCommissionStatus. break_handler; reflexivity.
    + unfold processBulkPayout. break_handler; reflexivity.
    + unfold processManualPayout, fresh. break_handler; reflexivity.
    + unfold processBankTransfer, fresh. break_handler; reflexivity.
    + unfold performBulkActions. simpl in Hdel.
      apply orb_false_iff in Hdel. destruct Hdel as [_ ->].
      break_handler; reflexivity.
    + unfold processPayoutRequest. break_handler; reflexivity.
    + unfold createPayoutRequest, fresh. break_handler; reflexivity.
    + unfold requestPayout. break_handler; reflexivity.
  - destruct op; simpl.
    + unfold handleWebhook, fresh.
      break_handler; simpl; try apply keepsEnrolment_refl.
      eapply keepsEnrolment_trans;
        [|apply keepsEnrolment_handleReferralCommission].
      match goal with
      | H : findById User._id _ (users db) = Some ?u |- _ =>
          pose proof (findById_id User._id _ _ _ H) as Hid;
          rewrite <- Hid in H; rename H into Hfound
      end.
      apply keepsEnrolment_enroll;
        [now rewrite users_createCommission|exact Hfound].
    + unfold manualPaymentConfirm, fresh.
      break_handler; simpl; try apply keepsEnrolment_refl;
        match goal with
        | H : findById User._id _ (users db) = Some ?u |- _ =>
            pose proof (findById_id User._id _ _ _ H) as Hid;
            rewrite <- Hid in H;
            apply keepsEnrolment_enroll;
              [now rewrite users_createCommission|exact H]
        end.
    + unfold processRefund. break_handler; simpl; try apply keepsEnrolment_refl.
      apply keepsEnrolment_update; [reflexivity|].
      intros d _. apply incl_refl.
    + unfold updateCommissionStatus.
      break_handler; simpl; apply keepsEnrolment_refl.
    + unfold processBulkPayout. break_handler; simpl; apply keepsEnrolment_refl.
    + unfold processManualPayout, fresh.
      break_handler; simpl; apply keepsEnrolment_refl.
    + unfold processBankTransfer, fresh.
      break_handler; simpl; apply keepsEnrolment_refl.
    + unfold performBulkActions. simpl in Hdel.
      apply orb_false_iff in Hdel. destruct Hdel as [-> _].
      break_handler; simpl; try apply keepsEnrolment_refl.
      apply keepsEnrolment_updateMany; reflexivity.
    + unfold processPayoutRequest.
      break_handler; simpl; apply keepsEnrolment_refl.
    + unfold createPayoutRequest, fresh.
      break_handler; simpl; apply keepsEnrolment_refl.
    + unfold requestPayout. break_handler; simpl; apply keepsEnrolment_refl.
Qed.

(** The purchase [tx_1] is refunded; B still reads the course. *)
Lemma access_outlives_operations_witness :
  let op := Refund Example.administrator (IdValid 100) "asked"
              (Some Example.refund) in
  statusCode (snd (run 7%Z op Example.afterWebhook)) = 200
  /\ statusCode
       (getCourseContent (fst (run 7%Z op Example.afterWebhook))
          Example.buyerPrincipal (IdValid 3)) = 200.
Proof.
  split; [reflexivity|].
  apply access_outlives_operations; reflexivity.
Defined.

(** ** Managing users *)

Lemma updateUser_id (role : option User.Role) (active : option bool)
    (rate : option Q) (bank : option User.BankDetails) (d : User.t) :
  User._id (updateUser role active rate bank d) = User._id d.
Proof. reflexivity. Qed.

(** The user stored under the caller's id after a write to it. *)
Lemma findById_written (db : DB) (i : ObjectId) (u : User.t)
    (f : User.t -> User.t) :
  (forall d, User._id (f d) = User._id d) ->
  findById User._id i (users db) = Some u ->
  findById User._id i
    (users (with_users (findByIdAndUpdate User._id i f) db)) = Some (f u).
Proof.
  intros Hf Hu. simpl.
  rewrite findById_findByIdAndUpdate by exact Hf. now rewrite Hu.
Qed.

(** X18. After a successful application the applicant is an agent that
    is not approved: every payout request of theirs is refused for that
    reason; one approval by an administrator goes through, and a second
    one is refused. *)
Theorem application_awaits_approval (db db1 : DB) (who : Auth.Principal)
    (firstName lastName phone country : string) (r : Response) :
  becomeAgent db who firstName lastName phone country = (db1, r) ->
  statusCode r = 200 ->
  (forall now amount m,
     isIn agentPayoutMethods m = true ->
     requestPayout db1 now who amount m
     = (db1, createErrorResponse 400 "Agent account not approved"))
  /\ exists db2,
       approveAgent db1 (IdValid (Auth.userId who))
       = (db2, createSuccessResponse NoData "Agent approved successfully")
       /\ approveAgent db2 (IdValid (Auth.userId who))
          = (db2, createErrorResponse 400 "Agent is already approved").
Proof.
  unfold becomeAgent. intros Hrun Hok.
  destruct (negb _); [abort_branch Hrun Hok|].
  destruct (findById User._id (Auth.userId who) (users db)) as [user|] eqn:Hu;
    [|abort_branch Hrun Hok].
  destruct (User.role_eqb (User.role user) User.agent);
    [abort_branch Hrun Hok|].
  injection Hrun as <- <-.
  pose proof (findById_id User._id _ _ _ Hu) as Hid. rewrite Hid.
  pose proof (findById_written db _ user
                (updateUser (Some User.agent) (Some false) None None)
                (updateUser_id _ _ _ _) Hu) as H1.
  split.
  - intros now amount m Hm. unfold requestPayout. now rewrite Hm, H1.
  - unfold approveAgent at 1. rewrite H1. simpl negb. cbv iota.
    eexists. split; [reflexivity|].
    unfold approveAgent. simpl User._id. rewrite Hid.
    rewrite (findById_written _ _ _ _ (updateUser_id _ _ _ _) H1).
    reflexivity.
Qed.

(** B applies in the start store. *)
Lemma application_awaits_approval_witness :
  let db1 := fst (becomeAgent (Example.start (Example.agent 10 true))
                    Example.buyerPrincipal "B" "B" "1" "C") in
  (forall now amount m,
     isIn agentPayoutMethods m = true ->
     requestPayout db1 now Example.buyerPrincipal amount m
     = (db1, createErrorResponse 400 "Agent account not approved"))
  /\ exists db2,
       approveAgent db1 (IdValid 2)
       = (db2, createSuccessResponse NoData "Agent approved successfully")
       /\ approveAgent db2 (IdValid 2)
          = (db2, createErrorResponse 400 "Agent is already approved").
Proof.
  apply (application_awaits_approval
           (Example.start (Example.agent 10 true)) _ Example.buyerPrincipal
           "B" "B" "1" "C"
           (snd (becomeAgent (Example.start (Example.agent 10 true))
                   Example.buyerPrincipal "B" "B" "1" "C"))); reflexivity.
Defined.

(** X19. Setting a stored user's role to one other than agent and then
    back to agent, the second time with no other field in the body,
    leaves the user an agent with the approval and the rate it had at
    the start, whatever rate and approval the first request carried. *)
Theorem role_change_keeps_approval (db : DB) (i : ObjectId) (u : User.t)
    (role : User.Role) (rate : option Z) (active : option bool) :
  findById User._id i (users db) = Some u ->
  role <> User.agent ->
  let db1 := fst (updateUserRole db (IdValid i) (Some role) rate active) in
  let db2 := fst (updateUserRole db1 (IdValid i) (Some User.agent) None None) in
  exists u',
    findById User._id i (users db2) = Some u'
    /\ User.role u' = User.agent
    /\ User.isActiveAgent u' = User.isActiveAgent u
    /\ User.commissionRate u' = User.commissionRate u
    /\ snd (updateUserRole db1 (IdValid i) (Some User.agent) None None)
       = createSuccessResponse NoData "User updated successfully".
Proof.
  intros Hu Hrole db1 db2.
  assert (H1 : exists u1,
            findById User._id i (users db1) = Some u1
            /\ User.isActiveAgent u1 = User.isActiveAgent u
            /\ User.commissionRate u1 = User.commissionRate u).
  { subst db1. unfold updateUserRole.
    destruct (match rate with Some n => _ | None => false end).
    - exists u. auto.
    - rewrite Hu.
      assert (E : User.role_eqb role User.agent = false)
        by (destruct role; try reflexivity; congruence).
      rewrite E. cbn [andb fst].
      rewrite (findById_written _ _ _ _ (updateUser_id _ _ _ _) Hu).
      eexists. split; [reflexivity|].
      destruct rate; split; reflexivity. }
  destruct H1 as (u1 & Hu1 & Ha & Hr).
  subst db2. unfold updateUserRole at 1 2. cbn [User.role_eqb]. rewrite Hu1.
  cbn [fst snd].
  rewrite (findById_written _ _ _ _ (updateUser_id _ _ _ _) Hu1).
  eexists. split; [reflexivity|]. simpl. auto.
Qed.

(** The approved agent A is made a plain user, with a body that asks
    for the approval to be withdrawn, and then an agent again. *)
Lemma role_change_keeps_approval_witness :
  let db1 := fst (updateUserRole (Example.start (Example.agent 10 true))
                    (IdValid 1) (Some User.user) (Some 5%Z) (Some false)) in
  let db2 := fst (updateUserRole db1 (IdValid 1) (Some User.agent) None None) in
  exists u',
    findById User._id 1 (users db2) = Some u'
    /\ User.role u' = User.agent
    /\ User.isActiveAgent u' = true
    /\ User.commissionRate u' = 10%Q
    /\ snd (updateUserRole db1 (IdValid 1) (Some User.agent) None None)
       = createSuccessResponse NoData "User updated successfully".
Proof.
  apply (role_change_keeps_approval (Example.start (Example.agent 10 true)) 1
           (Example.agent 10 true) User.user (Some 5%Z) (Some false));
    [reflexivity|discriminate].
Defined.

Lemma Forall_updateOne {A : Type} (P : A -> Prop) (p : A -> bool)
    (f : A -> A) (l : list A) :
  Forall P l -> (forall d, P d -> P (f d)) -> Forall P (updateOne p f l).
Proof.
  intros Hl Hf. induction Hl as [|d r Hd Hr IH]; simpl; [constructor|].
  destruct (p d); constructor; auto.
Qed.

Lemma Forall_deleteOne {A : Type} (P : A -> Prop) (p : A -> bool)
    (l : list A) :
  Forall P l -> Forall P (deleteOne p l).
Proof.
  intros Hl. induction Hl as [|d r Hd Hr IH]; simpl; [constructor|].
  destruct (p d); [exact Hr|constructor; auto].
Qed.

(** X20. No request that manages users or courses takes a stored
    commission rate out of the range from 0 to 100: the one handler that
    writes a rate drops a value outside the range and still answers with
    success. *)
Theorem rates_stay_in_range (op : UserOp) (db : DB) :
  ratesInRange db -> ratesInRange (fst (manage op db)).
Proof.
  unfold ratesInRange. intros H.
  destruct op; simpl.
  - unfold enrollInCourse. break_handler; simpl; try exact H.
    apply Forall_updateOne; [exact H|]. intros d Hd. exact Hd.
  - unfold deleteCourse. break_handler; simpl; exact H.
  - unfold becomeAgent. break_handler; simpl; try exact H.
    apply Forall_updateOne; [exact H|]. intros d Hd. exact Hd.
  - unfold updateAgentProfile. break_handler; simpl; try exact H;
      (apply Forall_updateOne; [exact H|]; intros d Hd; exact Hd).
  - unfold updateUserRole.
    destruct role as [role|]; [|exact H].
    destruct (match commissionRate with Some n => _ | None => false end);
      [exact H|].
    destruct id as [| |i]; try exact H.
    destruct (findById User._id i (users db)); [|exact H].
    simpl. apply Forall_updateOne; [exact H|].
    intros d Hd. simpl.
    destruct commissionRate as [n|]; [|exact Hd].
    destruct (User.role_eqb role User.agent); [|exact Hd]. simpl.
    destruct (Z.leb_spec 0 n); [|exact Hd].
    destruct (Z.leb_spec n 100); [|exact Hd]. simpl.
    split.
    + replace 0%Q with (inject_Z 0) by reflexivity.
      rewrite <- Zle_Qle. assumption.
    + replace 100%Q with (inject_Z 100) by reflexivity.
      rewrite <- Zle_Qle. assumption.
  - unfold approveAgent. break_handler; simpl; try exact H.
    apply Forall_updateOne; [exact H|]. intros d Hd. exact Hd.
  - unfold deleteUser. break_handler; simpl; try exact H.
    now apply Forall_deleteOne.
  - unfold verifyAgentBankDetails. break_handler; simpl; try exact H;
      (apply Forall_updateOne; [exact H|]; intros d Hd; exact Hd).
Qed.

(** A rate of 250 sent for A is answered with success and not stored. *)
Lemma rates_stay_in_range_witness :
  let op := UpdateRole (IdValid 1) (Some User.agent) (Some 250%Z) None in
  let db := Example.start (Example.agent 10 true) in
  statusCode (snd (manage op db)) = 200
  /\ ratesInRange (fst (manage op db)).
Proof.
  split; [reflexivity|].
  apply rates_stay_in_range. unfold ratesInRange. simpl.
  repeat constructor; simpl; discriminate.
Defined.

(** X21. A request that manages users or courses and is answered with
    an error leaves the store as it was. *)
Theorem refused_management_changes_nothing (op : UserOp) (db : DB) :
  statusCode (snd (manage op db)) <> 200 -> fst (manage op db) = db.
Proof.
  destruct op; simpl;
    [ unfold enrollInCourse | unfold deleteCourse | unfold becomeAgent
    | unfold updateAgentProfile | unfold updateUserRole | unfold approveAgent
    | unfold deleteUser | unfold verifyAgentBankDetails ];
    break_handler; simpl; intros H; try reflexivity;
    exfalso; apply H; reflexivity.
Qed.

(** A second enrolment of B. *)
Lemma refused_management_changes_nothing_witness :
  let db := fst (enrollInCourse (Example.start (Example.agent 10 true))
                   Example.buyerPrincipal (IdValid 3)) in
  fst (manage (Enrol Example.buyerPrincipal (IdValid 3)) db) = db.
Proof.
  apply (refused_management_changes_nothing
           (Enrol Example.buyerPrincipal (IdValid 3))).
  simpl. discriminate.
Defined.

(** X22. No request that manages users or courses writes a payment, a
    commission, a payout or a payout request, or draws an id: deleting
    an agent, withdrawing its role or deleting a course leaves every
    record of the ledger as it was. *)
Theorem management_leaves_the_ledger (op : UserOp) (db : DB) :
  payments (fst (manage op db)) = payments db
  /\ commissions (fst (manage op db)) = commissions db
  /\ payouts (fst (manage op db)) = payouts db
  /\ payoutRequests (fst (manage op db)) = payoutRequests db
  /\ nextId (fst (manage op db)) = nextId db.
Proof.
  destruct op; simpl;
    [ unfold enrollInCourse | unfold deleteCourse | unfold becomeAgent
    | unfold updateAgentProfile | unfold updateUserRole | unfold approveAgent
    | unfold deleteUser | unfold verifyAgentBankDetails ];
    break_handler; simpl; repeat split; reflexivity.
Qed.

(** ** Bank details *)

Lemma Qeq_bool_false (x y : Q) : ~ (x == y)%Q -> Qeq_bool x y = false.
Proof.
  intros H. destruct (Qeq_bool x y) eqn:E; [|reflexivity].
  apply Qeq_bool_iff in E. contradiction.
Qed.

(** Marking the pending commissions of an agent leaves the agent none. *)
Lemma filter_marked (a : ObjectId) (ids : list ObjectId)
    (f : Commission.t -> Commission.t) (l : list Commission.t) :
  (forall c, In c l -> Commission.agent c = a ->
     Commission.isPending c = true ->
     includes ids (Commission._id c) = true) ->
  (forall c, Commission.isPending (f c) = false) ->
  filter (fun c => (Commission.agent c =? a) && Commission.isPending c)
    (updateMany (fun c => includes ids (Commission._id c)) f l) = [].
Proof.
  intros Hin Hf. unfold updateMany.
  induction l as [|c r IH]; simpl; [reflexivity|].
  rewrite IH by (intros d Hd; apply Hin; now right).
  destruct (includes ids (Commission._id c)) eqn:E.
  - now rewrite Hf, andb_false_r.
  - destruct (Commission.agent c =? a) eqn:Ea; [|reflexivity].
    destruct (Commission.isPending c) eqn:Ep; [|reflexivity].
    apply Nat.eqb_eq in Ea.
    rewrite (Hin c (or_introl eq_refl) Ea Ep) in E. discriminate.
Qed.

Lemma pendingOf_marked (db : DB) (a : ObjectId) (u : Commission.Update) :
  Commission.u_status u = Some Commission.paid ->
  filter (fun c => (Commission.agent c =? a) && Commission.isPending c)
    (updateMany
       (fun c => includes (map Commission._id (pendingOf a db))
                   (Commission._id c))
       (writes db u) (commissions db)) = [].
Proof.
  intros Hu. apply filter_marked.
  - intros c Hc Ha Hp. apply includes_In, in_map.
    apply pendingOf_In. apply isPending_iff in Hp. tauto.
  - intros c. unfold writes, Commission.isPending. simpl. now rewrite Hu.
Qed.

(** A bank transfer to a stored agent with verified bank details is not
    refused over bank details; unless it is answered 400, it leaves the
    agent no pending commission, and it answers 200 when the Commission
    schema in force accepts the payout record and 500 otherwise. *)
Lemma bank_transfer_verified (db : DB) (now : Date) (who : Auth.Principal)
    (a : ObjectId) (agent : User.t) (amount : Q)
    (notes transferReference : option string) :
  findById User._id a (users db) = Some agent ->
  User.role agent = User.agent ->
  User.lacksBankDetails agent = false ->
  User.bankVerified agent = true ->
  message
    (snd (processBankTransfer db now who (IdValid a) amount notes
            transferReference))
  <> "Agent has not provided bank details yet"
  /\ message
       (snd (processBankTransfer db now who (IdValid a) amount notes
               transferReference))
     <> "Agent bank details must be verified before processing bank transfer"
  /\ (statusCode
        (snd (processBankTransfer db now who (IdValid a) amount notes
                transferReference)) <> 400 ->
      pendingOf a
        (fst (processBankTransfer db now who (IdValid a) amount notes
                transferReference)) = []
      /\ statusCode
           (snd (processBankTransfer db now who (IdValid a) amount notes
                   transferReference))
         = if Commission.savesPayoutRecord (commissionSchema db)
           then 200 else 500).
Proof.
  intros Hu Hr Hl Hv. unfold processBankTransfer, fresh.
  rewrite Hu, Hr, Hl, Hv. simpl negb. cbv iota.
  destruct (Qeq_bool amount 0);
    [split; [discriminate|split; [discriminate|intros H0; now elim H0]]|].
  destruct (List.length (pendingOf a db) =? 0);
    [split; [discriminate|split; [discriminate|intros H0; now elim H0]]|].
  destruct (negb (Qle_bool amount (sumAmounts (pendingOf a db))));
    [split; [discriminate|split; [discriminate|intros H0; now elim H0]]|].
  destruct (Commission.savesPayoutRecord (commissionSchema db)); simpl negb;
    cbv iota; (split; [discriminate|]); (split; [discriminate|]); intros _;
    (split; [|reflexivity]); unfold pendingOf, find; simpl.
  - unfold insert. rewrite filter_app. simpl. rewrite andb_false_r.
    rewrite app_nil_r. now apply pendingOf_marked.
  - now apply pendingOf_marked.
Qed.

(** A bank transfer to a stored agent whose bank details are there but
    not verified is refused. *)
Lemma bank_transfer_unverified (db : DB) (now : Date) (who : Auth.Principal)
    (a : ObjectId) (agent : User.t) (amount : Q)
    (notes transferReference : option string) :
  findById User._id a (users db) = Some agent ->
  User.role agent = User.agent ->
  User.lacksBankDetails agent = false ->
  User.bankVerified agent = false ->
  ~ (amount == 0)%Q ->
  processBankTransfer db now who (IdValid a) amount notes transferReference
  = (db, createErrorResponse 400
           "Agent bank details must be verified before processing bank transfer").
Proof.
  intros Hu Hr Hl Hv Ha. unfold processBankTransfer.
  now rewrite (Qeq_bool_false _ _ Ha), Hu, Hr, Hl, Hv.
Qed.

Lemma role_eqb_agent (u : User.t) :
  negb (User.role_eqb (User.role u) User.agent) = false ->
  User.role u = User.agent.
Proof. destruct (User.role u); simpl; congruence. Qed.

(** X23. An agent whose profile update carries bank details with
    [isVerified] set has verified bank details from then on, with no
    administrator having verified anything: a bank transfer to them is
    not refused over bank details and, unless it is answered 400, it
    leaves them no pending commission; its answer is then 200 when the
    Commission schema in force accepts the payout record and 500
    otherwise. *)
Theorem agent_verifies_own_bank_details (db db1 : DB) (who : Auth.Principal)
    (firstName lastName phone country : option string)
    (accountNumber bankName : string) (r : Response) :
  updateAgentProfile db who firstName lastName phone country
    (Some {| in_accountNumber := Some accountNumber;
             in_bankName := Some bankName;
             in_isVerified := Some true |}) = (db1, r) ->
  statusCode r = 200 ->
  forall now admin amount notes transferReference,
    message
      (snd (processBankTransfer db1 now admin (IdValid (Auth.userId who))
              amount notes transferReference))
    <> "Agent has not provided bank details yet"
    /\ message
         (snd (processBankTransfer db1 now admin (IdValid (Auth.userId who))
                 amount notes transferReference))
       <> "Agent bank details must be verified before processing bank transfer"
    /\ (statusCode
          (snd (processBankTransfer db1 now admin (IdValid (Auth.userId who))
                  amount notes transferReference)) <> 400 ->
        pendingOf (Auth.userId who)
          (fst (processBankTransfer db1 now admin (IdValid (Auth.userId who))
                  amount notes transferReference)) = []
        /\ statusCode
             (snd (processBankTransfer db1 now admin
                     (IdValid (Auth.userId who)) amount notes
                     transferReference))
           = if Commission.savesPayoutRecord (commissionSchema db1)
             then 200 else 500).
Proof.
  unfold updateAgentProfile. intros Hrun Hok.
  destruct (negb _) eqn:Hval in Hrun; [abort_branch Hrun Hok|].
  destruct (findById User._id (Auth.userId who) (users db)) as [user|] eqn:Hu;
    [|abort_branch Hrun Hok].
  destruct (negb (User.role_eqb _ _)) eqn:Hrole; [abort_branch Hrun Hok|].
  injection Hrun as <- <-.
  apply negb_false_iff in Hval. simpl in Hval.
  repeat match goal with
  | H : _ && _ = true |- _ => apply andb_prop in H; destruct H
  end.
  intros now admin amount notes transferReference.
  eapply bank_transfer_verified.
  - apply findById_written; [apply updateUser_id|exact Hu].
  - simpl. now apply role_eqb_agent.
  - unfold User.lacksBankDetails. simpl.
    apply orb_false_iff. split; apply negb_false_iff; assumption.
  - reflexivity.
Qed.

(** A, owed 10 and with no bank details stored, sends details marked as
    verified; a transfer of 10 to A is answered 200 and leaves A no
    pending commission. *)
Lemma agent_verifies_own_bank_details_witness :
  let db1 := fst (updateAgentProfile (Roster.owing Roster.unbanked)
                    Example.agentPrincipal None None None None
                    (Some (Roster.details (Some true)))) in
  pendingOf 1 db1 <> []
  /\ pendingOf 1
       (fst (processBankTransfer db1 7%Z Example.administrator (IdValid 1) 10
               None None)) = []
  /\ statusCode
       (snd (processBankTransfer db1 7%Z Example.administrator (IdValid 1) 10
               None None)) = 200.
Proof.
  split; [discriminate|].
  apply (agent_verifies_own_bank_details (Roster.owing Roster.unbanked) _
           Example.agentPrincipal None None None None "12345678" "Bank"
           (snd (updateAgentProfile (Roster.owing Roster.unbanked)
                   Example.agentPrincipal None None None None
                   (Some (Roster.details (Some true)))))
           eq_refl eq_refl 7%Z Example.administrator 10 None None).
  vm_compute. discriminate.
Defined.

(** X24. Bank details sent without [isVerified] replace the stored ones
    as not verified: after such a profile update a bank transfer to the
    agent is refused until the details are verified, whether or not the
    former details were. *)
Theorem new_bank_details_are_unverified (db db1 : DB) (who : Auth.Principal)
    (firstName lastName phone country : option string)
    (accountNumber bankName : string) (r : Response) :
  updateAgentProfile db who firstName lastName phone country
    (Some {| in_accountNumber := Some accountNumber;
             in_bankName := Some bankName;
             in_isVerified := None |}) = (db1, r) ->
  statusCode r = 200 ->
  forall now admin amount notes transferReference,
    ~ (amount == 0)%Q ->
    processBankTransfer db1 now admin (IdValid (Auth.userId who)) amount notes
      transferReference
    = (db1, createErrorResponse 400
              "Agent bank details must be verified before processing bank transfer").
Proof.
  unfold updateAgentProfile. intros Hrun Hok.
  destruct (negb _) eqn:Hval in Hrun; [abort_branch Hrun Hok|].
  destruct (findById User._id (Auth.userId who) (users db)) as [user|] eqn:Hu;
    [|abort_branch Hrun Hok].
  destruct (negb (User.role_eqb _ _)) eqn:Hrole; [abort_branch Hrun Hok|].
  injection Hrun as <- <-.
  apply negb_false_iff in Hval. simpl in Hval.
  repeat match goal with
  | H : _ && _ = true |- _ => apply andb_prop in H; destruct H
  end.
  intros now admin amount notes transferReference Ha.
  eapply bank_transfer_unverified; try eassumption.
  - apply findById_written; [apply updateUser_id|exact Hu].
  - simpl. now apply role_eqb_agent.
  - unfold User.lacksBankDetails. simpl.
    apply orb_false_iff. split; apply negb_false_iff; assumption.
  - reflexivity.
Qed.

(** A, whose stored details are verified, sends the same details
    again. *)
Lemma new_bank_details_are_unverified_witness :
  let db1 := fst (updateAgentProfile (Roster.owing (Example.agent 10 true))
                    Example.agentPrincipal None None None None
                    (Some (Roster.details None))) in
  User.bankVerified (Example.agent 10 true) = true
  /\ processBankTransfer db1 7%Z Example.administrator (IdValid 1) 10 None None
     = (db1, createErrorResponse 400
               "Agent bank details must be verified before processing bank transfer").
Proof.
  split; [reflexivity|].
  apply (new_bank_details_are_unverified (Roster.owing (Example.agent 10 true))
           _ Example.agentPrincipal None None None None "12345678" "Bank"
           (snd (updateAgentProfile (Roster.owing (Example.agent 10 true))
                   Example.agentPrincipal None None None None
                   (Some (Roster.details None)))));
    try reflexivity; discriminate.
Defined.

(** X25. The administrator's verification decides the bank transfer.
    After it is recorded as withdrawn, every transfer to the agent of an
    amount other than zero is refused and changes nothing.  After it is
    recorded as given, a transfer to the agent is not refused over bank
    details and, unless it is answered 400, it leaves the agent no
    pending commission; its answer is then 200 when the Commission schema
    in force accepts the payout record and 500 otherwise. *)
Theorem verification_gates_bank_transfer (db db1 : DB) (a : ObjectId)
    (isVerified : bool) (r : Response) :
  verifyAgentBankDetails db (IdValid a) isVerified = (db1, r) ->
  statusCode r = 200 ->
  forall now admin amount notes transferReference,
    if isVerified then
      message
        (snd (processBankTransfer db1 now admin (IdValid a) amount notes
                transferReference))
      <> "Agent has not provided bank details yet"
      /\ message
           (snd (processBankTransfer db1 now admin (IdValid a) amount notes
                   transferReference))
         <> "Agent bank details must be verified before processing bank transfer"
      /\ (statusCode
            (snd (processBankTransfer db1 now admin (IdValid a) amount notes
                    transferReference)) <> 400 ->
          pendingOf a
            (fst (processBankTransfer db1 now admin (IdValid a) amount notes
                    transferReference)) = []
          /\ statusCode
               (snd (processBankTransfer db1 now admin (IdValid a) amount
                       notes transferReference))
             = if Commission.savesPayoutRecord (commissionSchema db1)
               then 200 else 500)
    else
      ~ (amount == 0)%Q ->
      processBankTransfer db1 now admin (IdValid a) amount notes
        transferReference
      = (db1, createErrorResponse 400
                "Agent bank details must be verified before processing bank transfer").
Proof.
  unfold verifyAgentBankDetails. intros Hrun Hok.
  destruct (findById User._id a (users db)) as [user|] eqn:Hu;
    [|abort_branch Hrun Hok].
  destruct (negb (User.role_eqb _ _)) eqn:Hrole; [abort_branch Hrun Hok|].
  destruct (User.lacksBankDetails user) eqn:Hl; [abort_branch Hrun Hok|].
  injection Hrun as <- <-.
  pose proof (findById_id User._id _ _ _ Hu) as Hid. rewrite Hid.
  intros now admin amount notes transferReference.
  unfold User.lacksBankDetails in Hl.
  destruct (User.bankDetails user) as [b|] eqn:Hb; [|discriminate].
  set (f := updateUser None None None _).
  assert (Hu1 : findById User._id a
                  (users (with_users (findByIdAndUpdate User._id a f) db))
                = Some (f user))
    by (apply findById_written; [apply updateUser_id|exact Hu]).
  assert (Hr1 : User.role (f user) = User.agent)
    by (simpl; now apply role_eqb_agent).
  assert (Hl1 : User.lacksBankDetails (f user) = false)
    by (unfold User.lacksBankDetails; simpl; exact Hl).
  destruct isVerified.
  - eapply bank_transfer_verified; try eassumption; reflexivity.
  - intros Ha.
    eapply bank_transfer_unverified; try eassumption; reflexivity.
Qed.

(** A's details, sent unverified, are verified by the administrator: a
    transfer of 10 to A is answered 200 and leaves A no pending
    commission.  The verification of A's details is withdrawn: the same
    transfer is refused. *)
Lemma verification_gates_bank_transfer_witness :
  (let db1 :=
     fst (verifyAgentBankDetails
            (fst (updateAgentProfile (Roster.owing Roster.unbanked)
                    Example.agentPrincipal None None None None
                    (Some (Roster.details None))))
            (IdValid 1) true) in
   pendingOf 1 db1 <> []
   /\ pendingOf 1
        (fst (processBankTransfer db1 7%Z Example.administrator (IdValid 1) 10
                None None)) = []
   /\ statusCode
        (snd (processBankTransfer db1 7%Z Example.administrator (IdValid 1) 10
                None None)) = 200)
  /\ (let db1 :=
        fst (verifyAgentBankDetails (Roster.owing (Example.agent 10 true))
               (IdValid 1) false) in
      processBankTransfer db1 7%Z Example.administrator (IdValid 1) 10 None
        None
      = (db1, createErrorResponse 400
                "Agent bank details must be verified before processing bank transfer")).
Proof.
  split.
  - split; [discriminate|].
    apply (verification_gates_bank_transfer
             (fst (updateAgentProfile (Roster.owing Roster.unbanked)
                     Example.agentPrincipal None None None None
                     (Some (Roster.details None))))
             _ 1 true
             (snd (verifyAgentBankDetails
                     (fst (updateAgentProfile (Roster.owing Roster.unbanked)
                             Example.agentPrincipal None None None None
                             (Some (Roster.details None))))
                     (IdValid 1) true))
             eq_refl eq_refl 7%Z Example.administrator 10 None None).
    vm_compute. discriminate.
  - apply (verification_gates_bank_transfer
             (Roster.owing (Example.agent 10 true)) _ 1 false
             (snd (verifyAgentBankDetails
                     (Roster.owing (Example.agent 10 true)) (IdValid 1) false)));
      try reflexivity; discriminate.
Defined.

(** ** Deleting users and courses *)

Lemma findById_findByIdAndDelete {A : Type} (id_of : A -> ObjectId)
    (i : ObjectId) (l : list A) :
  NoDup (map id_of l) ->
  findById id_of i (findByIdAndDelete id_of i l) = None.
Proof.
  unfold findById, findByIdAndDelete, findOne.
  induction l as [|d r IH]; simpl; intros Hnd; [reflexivity|].
  inversion Hnd as [|? ? Hd Hr]; subst.
  destruct (Nat.eqb_spec (id_of d) i) as [E|E]; simpl.
  - destruct (List.find (fun x => id_of x =? i) r) as [x|] eqn:Hx;
      [|reflexivity].
    apply find_some in Hx. destruct Hx as [Hin Hx].
    apply Nat.eqb_eq in Hx. exfalso. apply Hd.
    rewrite E, <- Hx. now apply in_map.
  - destruct (Nat.eqb_spec (id_of d) i); [contradiction|]. now apply IH.
Qed.

(** X26. After an agent is deleted, in a store with unique user ids, its
    commissions are stored as before, pending ones included, and no
    payout to it can be made: the bank transfer and the manual payout
    answer that the agent is not found, and the agent's own payout
    request is refused. *)
Theorem deleted_agent_keeps_commissions (db db1 : DB) (a : ObjectId)
    (r : Response) :
  NoDup (map User._id (users db)) ->
  deleteUser db (IdValid a) = (db1, r) ->
  statusCode r = 200 ->
  pendingOf a db1 = pendingOf a db
  /\ (forall now admin amount notes transferReference,
        ~ (amount == 0)%Q ->
        processBankTransfer db1 now admin (IdValid a) amount notes
          transferReference
        = (db1, createErrorResponse 404 "Agent not found"))
  /\ (forall now admin amount paymentMethod notes,
        ~ (amount == 0)%Q ->
        truthy paymentMethod = true ->
        processManualPayout db1 now admin (IdValid a) amount paymentMethod
          notes
        = (db1, createErrorResponse 404 "Agent not found"))
  /\ (forall now who amount payoutMethod,
        Auth.userId who = a ->
        isIn agentPayoutMethods payoutMethod = true ->
        requestPayout db1 now who amount payoutMethod
        = (db1, createErrorResponse 403 "Agent access required")).
Proof.
  unfold deleteUser. intros Hnd Hrun Hok.
  destruct (findById User._id a (users db)) as [user|] eqn:Hu;
    [|abort_branch Hrun Hok].
  injection Hrun as <- <-.
  assert (Hgone : findById User._id a
                    (users (with_users (findByIdAndDelete User._id a) db))
                  = None)
    by (simpl; now apply findById_findByIdAndDelete).
  split; [reflexivity|]. split; [|split].
  - intros now admin amount notes transferReference Ha.
    unfold processBankTransfer.
    now rewrite (Qeq_bool_false _ _ Ha), Hgone.
  - intros now admin amount paymentMethod notes Ha Hm.
    unfold processManualPayout.
    now rewrite (Qeq_bool_false _ _ Ha), Hm, Hgone.
  - intros now who amount payoutMethod Hwho Hm.
    unfold requestPayout. now rewrite Hm, Hwho, Hgone.
Qed.

(** A is deleted while owed 10. *)
Lemma deleted_agent_keeps_commissions_witness :
  let db := Roster.owing (Example.agent 10 true) in
  let db1 := fst (deleteUser db (IdValid 1)) in
  pendingOf 1 db1 = [Example.commissionOf 11 21 10 Commission.pending]
  /\ processBankTransfer db1 7%Z Example.administrator (IdValid 1) 10 None None
     = (db1, createErrorResponse 404 "Agent not found").
Proof.
  destruct (deleted_agent_keeps_commissions
              (Roster.owing (Example.agent 10 true))
              (fst (deleteUser (Roster.owing (Example.agent 10 true))
                      (IdValid 1))) 1
              (snd (deleteUser (Roster.owing (Example.agent 10 true))
                      (IdValid 1))))
    as (H1 & H2 & _).
  - simpl. repeat constructor; simpl; intuition discriminate.
  - reflexivity.
  - reflexivity.
  - split; [exact H1|]. apply H2. discriminate.
Defined.

(** X27. After a course is deleted, in a store with unique course ids,
    the users are stored as before, its id still in their enrolment
    lists, and the payments too; the course's content is served to no
    one and no payment intent is created for it. *)
Theorem deleted_course_is_gone (db db1 : DB) (c : ObjectId) (r : Response) :
  NoDup (map Course._id (courses db)) ->
  deleteCourse db (IdValid c) = (db1, r) ->
  statusCode r = 200 ->
  users db1 = users db
  /\ payments db1 = payments db
  /\ (forall who,
        findById User._id (Auth.userId who) (users db) <> None ->
        getCourseContent db1 who (IdValid c)
        = createErrorResponse 404 "Course not found")
  /\ (forall who created,
        createPaymentIntent db1 who (IdValid c) created
        = (createErrorResponse 404 "Course not found", None)).
Proof.
  unfold deleteCourse. intros Hnd Hrun Hok.
  destruct (findById Course._id c (courses db)) as [course|] eqn:Hc;
    [|abort_branch Hrun Hok].
  injection Hrun as <- <-.
  assert (Hgone : findById Course._id c
                    (courses (with_courses (findByIdAndDelete Course._id c) db))
                  = None)
    by (simpl; now apply findById_findByIdAndDelete).
  split; [reflexivity|]. split; [reflexivity|]. split.
  - intros who Hwho. unfold getCourseContent. rewrite Hgone. simpl users.
    destruct (findById User._id (Auth.userId who) (users db));
      [reflexivity|contradiction].
  - intros who created. unfold createPaymentIntent. now rewrite Hgone.
Qed.

(** The course B bought is deleted. *)
Lemma deleted_course_is_gone_witness :
  let db1 := fst (deleteCourse Example.afterWebhook (IdValid 3)) in
  statusCode (getCourseContent Example.afterWebhook Example.buyerPrincipal
                (IdValid 3)) = 200
  /\ getCourseContent db1 Example.buyerPrincipal (IdValid 3)
     = createErrorResponse 404 "Course not found".
Proof.
  split; [reflexivity|].
  destruct (deleted_course_is_gone Example.afterWebhook
              (fst (deleteCourse Example.afterWebhook (IdValid 3))) 3
              (snd (deleteCourse Example.afterWebhook (IdValid 3))))
    as (_ & _ & H & _).
  - simpl. repeat constructor; simpl; intuition discriminate.
  - reflexivity.
  - reflexivity.
  - apply H. simpl. discriminate.
Defined.

(** ** Reported earnings *)

Lemma sumAmounts_filter_map (q : Commission.t -> bool)
    (h : Commission.t -> Commission.t) (l : list Commission.t) :
  (forall c, q (h c) = q c) ->
  (forall c, Commission.amount (h c) = Commission.amount c) ->
  (sumAmounts (filter q (map h l)) == sumAmounts (filter q l))%Q.
Proof.
  intros Hq Ha. induction l as [|c r IH]; simpl; [reflexivity|].
  rewrite Hq. destruct (q c); [|exact IH].
  rewrite !sumAmounts_cons, Ha, IH. reflexivity.
Qed.

Lemma filter_none {A : Type} (q : A -> bool) (l : list A) :
  (forall x, In x l -> q x = false) -> filter q l = [].
Proof.
  induction l as [|x r IH]; simpl; intros H; [reflexivity|].
  rewrite (H x) by now left. apply IH. intros y Hy. apply H. now right.
Qed.

(** X28. A bank transfer adds its amount to the earnings the agent is
    shown: after a transfer that went through, the commission listing
    reports total earnings higher by the transferred amount than before
    and no pending earnings, because the record of the transfer is
    itself stored among the agent's commissions. *)
Theorem bank_transfer_counts_as_earnings (db db1 : DB) (now : Date)
    (admin : Auth.Principal) (a : ObjectId) (amount : Q)
    (notes transferReference : option string) (r : Response) :
  processBankTransfer db now admin (IdValid a) amount notes transferReference
  = (db1, r) ->
  statusCode r = 200 ->
  forall who page limit_ status p,
    Auth.userId who = a ->
    getUserCommissions db who page limit_ status = inr p ->
    exists p1,
      getUserCommissions db1 who page limit_ status = inr p1
      /\ (earned (earnings p1) == earned (earnings p) + amount)%Q
      /\ (outstanding (earnings p1) == 0)%Q.
Proof.
  intros Hrun Hok. unfold processBankTransfer in Hrun.
  destruct (Qeq_bool amount 0); [abort_branch Hrun Hok|].
  destruct (findById User._id a (users db)) as [ag|] eqn:Hag;
    [|abort_branch Hrun Hok].
  destruct (negb (User.role_eqb (User.role ag) User.agent));
    [abort_branch Hrun Hok|].
  destruct (User.lacksBankDetails ag); [abort_branch Hrun Hok|].
  destruct (negb (User.bankVerified ag)); [abort_branch Hrun Hok|].
  destruct (List.length (pendingOf a db) =? 0); [abort_branch Hrun Hok|].
  destruct (negb (Qle_bool amount (sumAmounts (pendingOf a db))));
    [abort_branch Hrun Hok|].
  destruct (negb (Commission.savesPayoutRecord (commissionSchema db)));
    [abort_branch Hrun Hok|].
  unfold fresh, writes in Hrun. simpl in Hrun. injection Hrun as <- <-.
  intros who page limit_ status p Hwho. unfold getUserCommissions.
  simpl users. rewrite Hwho, Hag.
  pose proof (findById_id User._id _ _ _ Hag) as Hid. rewrite Hid.
  destruct (negb (User.role_eqb (User.role ag) User.agent)); [discriminate|].
  destruct (_ <? 0)%Z; [discriminate|].
  intros Hp. injection Hp as <-.
  eexists. split; [reflexivity|]. simpl. split.
  - unfold find, insert. rewrite filter_app. simpl. rewrite Nat.eqb_refl.
    rewrite sumAmounts_app. unfold updateMany.
    rewrite sumAmounts_filter_map.
    + unfold sumAmounts at 2. simpl. lra.
    + intros c. now destruct (includes _ _).
    + intros c. now destruct (includes _ _).
  - unfold pendingOf at 1, find, insert. simpl commissions.
    rewrite filter_app. simpl. rewrite Nat.eqb_refl. simpl.
    rewrite app_nil_r, filter_none; [reflexivity|].
    intros x Hx. unfold updateMany in Hx. apply in_map_iff in Hx.
    destruct Hx as (c & <- & Hc).
    destruct (includes (map Commission._id (pendingOf a db)) (Commission._id c))
      eqn:E.
    + simpl. apply andb_false_r.
    + destruct ((Commission.agent c =? a) && Commission.isPending c) eqn:E';
        [|reflexivity].
      apply andb_prop in E'. destruct E' as [E1 E2].
      apply Nat.eqb_eq in E1. apply isPending_iff in E2.
      assert (Hin : In c (pendingOf a db)) by (apply pendingOf_In; auto).
      assert (includes (map Commission._id (pendingOf a db)) (Commission._id c)
              = true) by (apply includes_In; now apply in_map).
      congruence.
Qed.

(** A is owed 10 and is sent 4: the listing then shows 14 earned and
    nothing pending. *)
Lemma bank_transfer_counts_as_earnings_witness :
  let db := Roster.owing (Example.agent 10 true) in
  let db1 := fst (processBankTransfer db 7%Z Example.administrator (IdValid 1)
                    4 None None) in
  exists p1,
    getUserCommissions db1 Example.agentPrincipal DefaultPage 10 AnyStatus
    = inr p1
    /\ (earned (earnings p1) == 10 + 4)%Q
    /\ (outstanding (earnings p1) == 0)%Q.
Proof.
  destruct (bank_transfer_counts_as_earnings
              (Roster.owing (Example.agent 10 true))
              (fst (processBankTransfer (Roster.owing (Example.agent 10 true))
                      7%Z Example.administrator (IdValid 1) 4 None None))
              7%Z Example.administrator 1 4 None None
              (snd (processBankTransfer (Roster.owing (Example.agent 10 true))
                      7%Z Example.administrator (IdValid 1) 4 None None))
              eq_refl eq_refl
              Example.agentPrincipal DefaultPage 10%Z AnyStatus
              {| pagination := generatePagination DefaultPage 10 1;
                 earnings := earningsOf (Roster.owing (Example.agent 10 true))
                               1 |}
              eq_refl eq_refl)
    as (p1 & H1 & H2 & H3).
  exists p1. split; [exact H1|]. split; [|exact H3].
  rewrite H2. reflexivity.
Defined.

(** ** Pagination *)

Section Numerals.
Import Decimal.

Ltac app_cons :=
  apply DecimalFacts.to_list_inj; rewrite DecimalFacts.app_spec; simpl;
  rewrite DecimalFacts.app_spec; reflexivity.

Lemma app_digit (d x : uint) :
  app (D0 d) x = D0 (app d x) /\ app (D1 d) x = D1 (app d x)
  /\ app (D2 d) x = D2 (app d x) /\ app (D3 d) x = D3 (app d x)
  /\ app (D4 d) x = D4 (app d x) /\ app (D5 d) x = D5 (app d x)
  /\ app (D6 d) x = D6 (app d x) /\ app (D7 d) x = D7 (app d x)
  /\ app (D8 d) x = D8 (app d x) /\ app (D9 d) x = D9 (app d x).
Proof. repeat split; app_cons. Qed.

Ltac push_digit d x :=
  destruct (app_digit d x) as (E0 & E1 & E2 & E3 & E4 & E5 & E6 & E7 & E8 & E9);
  rewrite ?E0, ?E1, ?E2, ?E3, ?E4, ?E5, ?E6, ?E7, ?E8, ?E9;
  clear E0 E1 E2 E3 E4 E5 E6 E7 E8 E9.

Lemma string_of_uint_app_one (d : uint) :
  DecimalString.NilEmpty.string_of_uint (app d (D1 Nil))
  = (DecimalString.NilEmpty.string_of_uint d ++ "1")%string.
Proof.
  induction d; [reflexivity|..]; push_digit d (D1 Nil); simpl; now rewrite IHd.
Qed.

Lemma of_uint_acc_app_one (d : uint) (acc : positive) :
  Pos.of_uint_acc (app d (D1 Nil)) acc
  = (1 + 10 * Pos.of_uint_acc d acc)%positive.
Proof.
  revert acc. induction d; intros acc; [reflexivity|..];
    push_digit d (D1 Nil); simpl Pos.of_uint_acc; apply IHd.
Qed.

Lemma of_uint_app_one (d : uint) :
  Pos.of_uint (app d (D1 Nil)) = (10 * Pos.of_uint d + 1)%N.
Proof.
  induction d; [reflexivity|..]; push_digit d (D1 Nil); simpl Pos.of_uint;
    [rewrite IHd; reflexivity|..]; rewrite of_uint_acc_app_one; lia.
Qed.

Lemma app_one_not_nil (d : uint) : app d (D1 Nil) <> Nil.
Proof.
  intros H. apply (f_equal DecimalFacts.to_list) in H.
  rewrite DecimalFacts.app_spec in H. simpl in H.
  destruct (DecimalFacts.to_list d); discriminate.
Qed.

(** A numeral followed by the digit 1 reads as ten times the number
    plus one. *)
Lemma numeral_and_one (n : Z) :
  (0 <= n)%Z -> toNumber (JsString (numeral n ++ "1")) = Some (10 * n + 1)%Z.
Proof.
  intros Hn. unfold toNumber, numeral.
  assert (H : exists d, Z.to_int n = Pos d /\ d <> Nil).
  { destruct n as [|p|p]; [| |lia]; simpl.
    - eexists. split; [reflexivity|discriminate].
    - eexists. split; [reflexivity|apply DecimalPos.Unsigned.to_uint_nonnil]. }
  destruct H as (d & Hd & Hnil).
  rewrite <- (DecimalZ.of_to n) at 2. rewrite Hd.
  cbn [DecimalString.NilZero.string_of_int Z.of_int].
  assert (E : (DecimalString.NilZero.string_of_uint d ++ "1")%string
              = DecimalString.NilZero.string_of_int (Pos (app d (D1 Nil)))).
  { simpl. unfold DecimalString.NilZero.string_of_uint.
    destruct d; try contradiction;
      (destruct (app _ (D1 Nil)) eqn:Ea;
         [now apply app_one_not_nil in Ea|..]; rewrite <- Ea;
       now rewrite string_of_uint_app_one). }
  rewrite E, DecimalString.NilZero.isi.
  - cbn [option_map Z.of_int]. unfold Z.of_uint. rewrite of_uint_app_one.
    f_equal. lia.
  - intros H. injection H as H. now apply app_one_not_nil in H.
  - discriminate.
Qed.
End Numerals.

Lemma below_ceiling (p t l : Z) :
  (0 < l)%Z ->
  (p < Qceiling (inject_Z t / inject_Z l))%Z <-> (p * l < t)%Z.
Proof.
  intros Hl.
  assert (Hl' : (0 < inject_Z l)%Q)
    by (replace 0%Q with (inject_Z 0) by reflexivity; now rewrite <- Zlt_Qlt).
  set (x := (inject_Z t / inject_Z l)%Q).
  assert (Hx : (inject_Z p < x)%Q <-> (p * l < t)%Z).
  { unfold x. rewrite Zlt_Qlt, inject_Z_mult. split; intros H.
    - apply (Qmult_lt_r _ _ (inject_Z l)) in H; [|exact Hl'].
      setoid_replace (inject_Z t / inject_Z l * inject_Z l)%Q
        with (inject_Z t) in H by (field; lra).
      exact H.
    - apply Qlt_shift_div_l; assumption. }
  rewrite <- Hx. split; intros H.
  - apply Qle_lt_trans with (inject_Z (Qceiling x - 1)).
    + rewrite <- Zle_Qle. lia.
    + apply Qceiling_lt.
  - rewrite Zlt_Qlt. eapply Qlt_le_trans; [exact H|apply Qle_ceiling].
Qed.

(** X29. With a positive page size the pagination reports a next page
    exactly when documents remain beyond the current page, that is when
    the page number times the page size is below the total. *)
Theorem next_page_exactly_when_more (page : PageArg) (limit_ total_ : Z) :
  (0 < limit_)%Z ->
  hasNextPage (generatePagination page limit_ total_) = true
  <-> (pageNumber page * limit_ < total_)%Z.
Proof.
  intros Hl. unfold generatePagination, pageCount. simpl.
  destruct (Z.eqb_spec limit_ 0) as [E|_]; [lia|].
  simpl. rewrite Z.ltb_lt. now apply below_ceiling.
Qed.

(** 25 documents in pages of 10: page 2 has a next page, page 3 has
    none. *)
Lemma next_page_exactly_when_more_witness :
  hasNextPage (generatePagination (QueryPage 2) 10 25) = true
  /\ hasNextPage (generatePagination (QueryPage 3) 10 25) <> true.
Proof.
  split.
  - apply next_page_exactly_when_more; reflexivity.
  - intros H. apply next_page_exactly_when_more in H; [|reflexivity].
    simpl in H. lia.
Defined.

(** X30. A page number taken from the query string is text, so the next
    page the commission listing reports for it is that text followed by
    the digit 1: for page [n] it reads as [10 * n + 1], not [n + 1]. *)
Theorem next_page_of_query_page (db : DB) (who : Auth.Principal) (n limit_ : Z)
    (status : StatusQuery) (p : CommissionsPage) :
  (0 <= n)%Z ->
  getUserCommissions db who (QueryPage n) limit_ status = inr p ->
  hasNextPage (pagination p) = true ->
  exists v,
    nextPage (pagination p) = Some v
    /\ toNumber v = Some (10 * n + 1)%Z.
Proof.
  intros Hn. unfold getUserCommissions.
  destruct (findById User._id (Auth.userId who) (users db)) as [user|];
    [|discriminate].
  destruct (negb _); [discriminate|].
  destruct (_ <? 0)%Z; [discriminate|].
  intros Hp. injection Hp as <-. simpl.
  intros ->. eexists. split; [reflexivity|]. now apply numeral_and_one.
Qed.

(** A, with three commissions, asks for page 2 in pages of 1 and is
    told that the next page is 21. *)
Lemma next_page_of_query_page_witness :
  exists v,
    nextPage
      (generatePagination (QueryPage 2) 1
         (Z.of_nat (List.length (commissions Example.threePending))))
    = Some v
    /\ toNumber v = Some 21%Z.
Proof.
  apply (next_page_of_query_page Example.threePending Example.agentPrincipal
           2 1 AnyStatus
           {| pagination :=
                generatePagination (QueryPage 2) 1
                  (Z.of_nat (List.length (commissions Example.threePending)));
              earnings := earningsOf Example.threePending 1 |});
    [lia|reflexivity|reflexivity].
Defined.
